(** * AMEXAnalysis: the review-analysis pipeline of [app.py]

    A shallow embedding of [fetch_app_store_reviews],
    [analyze_reviews_with_openai] and the control flow of [main], together
    with the properties of the pipeline that the specification states.

    Python values are modelled as the JSON-shaped universe the program
    handles ([pyval]), strings as sequences of Unicode code points
    ([pystr]), exceptions as an [outcome], and the calls to Streamlit and to
    the two hosted services as events of a trace. *)

From Stdlib Require Import ZArith NArith List Ascii String Lia.
From Stdlib Require Import Floats.SpecFloat Numbers.DecimalString.
From stdpp Require Import base option list gmap.

Set Warnings "-register-all".
Local Open Scope Z_scope.

(** ** Strings *)

Module Str.

(** A Python [str]: a sequence of code points. *)
Definition pystr := list N.

(** ASCII literals of the source, as code points. *)
Definition str (s : string) : pystr :=
  map N_of_ascii (list_ascii_of_string s).

(** [str.isspace] for one code point: the characters that [str.strip()]
    removes when called without an argument. *)
Definition isspace (c : N) : bool :=
  ((9 <=? c) && (c <=? 13) || (28 <=? c) && (c <=? 32) || (c =? 133) ||
   (c =? 160) || (c =? 5760) || (8192 <=? c) && (c <=? 8202) ||
   (c =? 8232) || (c =? 8233) || (c =? 8239) || (c =? 8287) ||
   (c =? 12288))%N.

Section Strip.
Variable space : N -> bool.

Fixpoint lstrip_with (s : pystr) : pystr :=
  match s with
  | c :: s' => if space c then lstrip_with s' else s
  | [] => []
  end.

Fixpoint rstrip_with (s : pystr) : pystr :=
  match s with
  | c :: s' =>
      match rstrip_with s' with
      | [] => if space c then [] else [c]
      | r => c :: r
      end
  | [] => []
  end.

Definition strip_with (s : pystr) : pystr := rstrip_with (lstrip_with s).
End Strip.

(** [s.strip()], [s.lstrip()], [s.rstrip()] *)
Definition strip : pystr -> pystr := strip_with isspace.
Definition lstrip : pystr -> pystr := lstrip_with isspace.
Definition rstrip : pystr -> pystr := rstrip_with isspace.

(** [s.startswith(p)]: [s[:len(p)] == p]. *)
Definition startswith (s p : pystr) : bool :=
  bool_decide (take (length p) s = p).

(** [s.endswith(p)]: [s[len(s)-len(p):] == p], false when [p] is longer. *)
Definition endswith (s p : pystr) : bool :=
  bool_decide (length p <= length s)%nat &&
  bool_decide (drop (length s - length p) s = p).

(** [s[n:]] for a literal [n >= 0]. *)
Definition slice_from (n : nat) (s : pystr) : pystr := drop n s.

(** [s[:-n]] for a literal [n > 0]. *)
Definition slice_to_neg (n : nat) (s : pystr) : pystr :=
  take (length s - n) s.

(** [sep.join(parts)] on strings. *)
Fixpoint join (sep : pystr) (parts : list pystr) : pystr :=
  match parts with
  | [] => []
  | [p] => p
  | p :: ps => p ++ sep ++ join sep ps
  end.

(** [p in s] on strings: [p] occurs as a contiguous run of [s]. *)
Fixpoint contains (s p : pystr) : bool :=
  startswith s p ||
  match s with
  | [] => false
  | _ :: s' => contains s' p
  end.

(** [str(n)] for a non-negative [int] such as a [len]. *)
Definition of_nat (n : nat) : pystr :=
  str (NilEmpty.string_of_uint (Nat.to_uint n)).

End Str.
Export Str.

(** ** Values *)

Module Py.

(** The values the program handles: what [json.loads] and the review
    service's [get_dict] produce.  A [dict] keeps its insertion order. *)
Inductive pyval :=
| PNone
| PBool (b : bool)
| PInt (z : Z)
| PFloat (f : spec_float)
| PStr (s : pystr)
| PList (l : list pyval)
| PDict (d : list (pystr * pyval)).

Definition pydict := list (pystr * pyval).

(** The operation that rejected its operand with a [TypeError]. *)
Inductive py_op :=
| OpIter              (* for x in v *)
| OpContains          (* key in v *)
| OpGetItem           (* v[key] *)
| OpSetItem           (* v[key] = x *)
| OpHash              (* v used as a dict key *)
| OpLen               (* len(v) *)
| OpJoin (i : nat).   (* sep.join(..) on item i *)

(** Exceptions, all subclasses of [Exception].  The text [str(e)] of an
    exception raised by the interpreter is not spelled out. *)
Inductive pyexc :=
| TypeError (op : py_op) (v : pyval)
| AttributeError (attr : pystr) (v : pyval)
| KeyError (k : pyval)
| JSONDecodeError (detail : pystr)
| OtherError (cls detail : pystr).

Definition is_JSONDecodeError (e : pyexc) : bool :=
  match e with JSONDecodeError _ => true | _ => false end.

(** The result of evaluating an expression. *)
Inductive outcome (A : Type) :=
| Return (a : A)
| Raise (e : pyexc).
Arguments Return {A} a.
Arguments Raise {A} e.

Definition obind {A B} (m : outcome A) (k : A -> outcome B) : outcome B :=
  match m with
  | Return a => k a
  | Raise e => Raise e
  end.

Notation "'let?' x := e 'in' k" := (obind e (fun x => k))
  (at level 10, x pattern, e at level 100, k at level 200).

(** *** Dictionaries with string keys *)

Fixpoint dict_get (d : pydict) (k : pystr) : option pyval :=
  match d with
  | [] => None
  | (k', v) :: d' => if bool_decide (k' = k) then Some v else dict_get d' k
  end.

(** [k in d] *)
Definition dict_has (d : pydict) (k : pystr) : bool :=
  match dict_get d k with Some _ => true | None => false end.

(** [d[k] = v]: an existing key keeps its position, a new one goes last. *)
Fixpoint dict_set (d : pydict) (k : pystr) (v : pyval) : pydict :=
  match d with
  | [] => [(k, v)]
  | (k', v') :: d' =>
      if bool_decide (k' = k) then (k, v) :: d' else (k', v') :: dict_set d' k v
  end.

(** *** Numbers *)

(** The integer a float is equal to, if any: [m * 2^e] is one exactly when
    the low bits shifted out are zero. *)
Definition float_as_int (f : spec_float) : option Z :=
  match f with
  | S754_zero _ => Some 0
  | S754_finite s m e =>
      let sign := if s then -1 else 1 in
      if 0 <=? e then Some (sign * (Z.pos m * 2 ^ e))
      else if Z.pos m mod 2 ^ (- e) =? 0 then Some (sign * (Z.pos m / 2 ^ (- e)))
      else None
  | S754_infinity _ | S754_nan => None
  end.

(** The [int] that [v == n] holds for, if any ([True == 1], [2.0 == 2]). *)
Definition as_int (v : pyval) : option Z :=
  match v with
  | PBool b => Some (if b then 1 else 0)
  | PInt z => Some z
  | PFloat f => float_as_int f
  | _ => None
  end.

(** *** Truth value, [bool(v)] *)

Definition truthy (v : pyval) : bool :=
  match v with
  | PNone => false
  | PBool b => b
  | PInt z => negb (z =? 0)
  | PFloat (S754_zero _) => false
  | PFloat _ => true
  | PStr s => negb (bool_decide (s = []))
  | PList l => match l with [] => false | _ => true end
  | PDict d => match d with [] => false | _ => true end
  end.

(** *** Containers *)

Definition is_str (k : pystr) (v : pyval) : bool :=
  match v with PStr s => bool_decide (s = k) | _ => false end.

(** [k in v] for a string [k]. *)
Definition py_contains (v : pyval) (k : pystr) : outcome bool :=
  match v with
  | PDict d => Return (dict_has d k)
  | PList l => Return (existsb (is_str k) l)
  | PStr s => Return (Str.contains s k)
  | _ => Raise (TypeError OpContains v)
  end.

(** [v[k]] for a string [k]. *)
Definition py_getitem (v : pyval) (k : pystr) : outcome pyval :=
  match v with
  | PDict d =>
      match dict_get d k with
      | Some x => Return x
      | None => Raise (KeyError (PStr k))
      end
  | _ => Raise (TypeError OpGetItem v)
  end.

(** [v[k] = x] for a string [k]; the updated object is returned. *)
Definition py_setitem (v : pyval) (k : pystr) (x : pyval) : outcome pyval :=
  match v with
  | PDict d => Return (PDict (dict_set d k x))
  | _ => Raise (TypeError OpSetItem v)
  end.

(** The items [for x in v] runs over. *)
Definition py_iter (v : pyval) : outcome (list pyval) :=
  match v with
  | PList l => Return l
  | PStr s => Return (map (fun c => PStr [c]) s)
  | PDict d => Return (map (fun kv => PStr (fst kv)) d)
  | _ => Raise (TypeError OpIter v)
  end.

(** [len(v)] where it is defined. *)
Definition py_len (v : pyval) : outcome nat :=
  match v with
  | PList l => Return (length l)
  | PStr s => Return (length s)
  | PDict d => Return (length d)
  | _ => Raise (TypeError OpLen v)
  end.

(** [sep.join(items)]: every item must be a [str]. *)
Fixpoint join_items (i : nat) (items : list pyval) : outcome (list pystr) :=
  match items with
  | [] => Return []
  | PStr s :: rest => let? ss := join_items (S i) rest in Return (s :: ss)
  | v :: _ => Raise (TypeError (OpJoin i) v)
  end.

Definition py_join (sep : pystr) (items : list pyval) : outcome pystr :=
  let? ss := join_items 0 items in Return (join sep ss).

End Py.
Export Py.

(** ** Effects *)

Module Effects.

(** The pieces of an f-string shown to the operator. *)
Inductive msg_part :=
| Text (s : pystr)
| StrOf (e : pyexc).      (* {str(e)} *)

Definition message := list msg_part.

(** The parameter dict handed to [GoogleSearch]. *)
Record search_params := SearchParams {
  engine : pystr;
  product_id : pystr;
  api_key : pyval;
  num : Z
}.

(** The keyword arguments of [chat.completions.create]. *)
Record chat_params := ChatParams {
  model : pystr;
  messages : list (pystr * pystr);     (* role, content *)
  temperature : spec_float;
  max_tokens : Z
}.

(** [openai.OpenAI(api_key=...)] *)
Record client := OpenAI { client_api_key : pyval }.

(** What a run does that the outside can see. *)
Inductive event :=
| StError (m : message)
| StWarning (m : message)
| StSuccess (m : message)
| SearchRequest (p : search_params)             (* review-search service *)
| ChatRequest (c : client) (p : chat_params)    (* text-generation service *)
| Render (analysis ratings reviews : pyval).    (* presentation layer *)

Definition is_network (ev : event) : bool :=
  match ev with
| SearchRequest _ | ChatRequest _ _ => true
| _ => false
  end.

Definition is_chat (ev : event) : bool :=
  match ev with ChatRequest _ _ => true | _ => false end.

(** A computation: its outcome and the events it caused, in order. *)
Record M (A : Type) := Run { result : outcome A; trace : list event }.
Arguments Run {A} result trace.
Arguments result {A} m.
Arguments trace {A} m.

Definition ret {A} (a : A) : M A := Run (Return a) [].

Definition lift {A} (o : outcome A) : M A := Run o [].

Definition emit (ev : event) : M unit := Run (Return tt) [ev].

Definition bind {A B} (m : M A) (k : A -> M B) : M B :=
  match result m with
  | Return a => Run (result (k a)) (trace m ++ trace (k a))
  | Raise e => Run (Raise e) (trace m)
  end.

(** [try: body / except <class> as e: handler e] *)
Definition try_except {A} (catches : pyexc -> bool) (body : M A)
    (handler : pyexc -> M A) : M A :=
  match result body with
  | Return a => body
  | Raise e =>
      if catches e
      then Run (result (handler e)) (trace body ++ trace (handler e))
      else body
  end.

Definition Exception (e : pyexc) : bool := true.

Notation "'let!' x := e 'in' k" := (bind e (fun x => k))
  (at level 10, x pattern, e at level 100, k at level 200).

End Effects.
Export Effects.

(** ** The program: [app.py] *)

Definition nl : pystr := [10%N].

(** A double-quoted word of a source literal. *)
Definition q (s : string) : pystr := [34%N] ++ str s ++ [34%N].

(** [0.5], [0.3]: the binary64 values [2^52 * 2^-53] and
    [5404319552844595 * 2^-54]. *)
Definition float_0_5 : spec_float := S754_finite false 4503599627370496 (-53).
Definition float_0_3 : spec_float := S754_finite false 5404319552844595 (-54).

Section Pipeline.

(** The collaborators and the library decoder, as the run finds them. *)

(** [json.loads] *)
Variable json_loads : pystr -> outcome pyval.
(** [GoogleSearch(params).get_dict()] *)
Variable get_dict : search_params -> outcome pydict.
(** [client.chat.completions.create(...).choices[0].message.content]:
    the content of the first choice, or the exception that the call or
    the access to its reply raises. *)
Variable create : client -> chat_params -> outcome pyval.
(** [os.getenv], after [load_dotenv()] *)
Variable getenv : pystr -> option pystr.

Definition st_error (m : message) : M unit := emit (StError m).
Definition st_warning (m : message) : M unit := emit (StWarning m).
Definition st_success (m : message) : M unit := emit (StSuccess m).

Definition search_get_dict (p : search_params) : M pydict :=
  Run (get_dict p) [SearchRequest p].

Definition chat_completions_create (c : client) (p : chat_params) : M pyval :=
  Run (create c p) [ChatRequest c p].

(** *** [fetch_app_store_reviews], lines 58-79 *)

Definition no_reviews_error (app_id : pystr) : message :=
  [Text (str "No reviews found for app ID: " ++ app_id)].

Definition fetch_error (e : pyexc) : message :=
  [Text (str "Error fetching reviews: "); StrOf e].

Definition search_request (app_id : pystr) (api_key : pyval) (max_reviews : Z)
    : search_params :=
  {| engine := str "apple_reviews";
     product_id := app_id;
     api_key := api_key;
     num := max_reviews |}.

Definition fetch_app_store_reviews (app_id : pystr) (api_key : pyval)
    (max_reviews : Z) : M pyval :=
  try_except Exception
    (let! results :=
       search_get_dict (search_request app_id api_key max_reviews) in
     if negb (dict_has results (str "reviews")) then
       let! _ := st_error (no_reviews_error app_id) in
       ret (PList [])
     else
       let! reviews := lift (py_getitem (PDict results) (str "reviews")) in
       ret reviews)
    (fun e =>
       let! _ := st_error (fetch_error e) in
       ret (PList [])).

(** *** [analyze_reviews_with_openai], lines 81-181 *)

(** Lines 88-92, one turn of the loop. *)
Definition collect_review (review : pyval) (acc : list pyval * list pyval)
    : outcome (list pyval * list pyval) :=
  let '(review_texts, ratings) := acc in
  let? has_text := py_contains review (str "text") in
  let? text_ok :=
    (if has_text then let? t := py_getitem review (str "text") in Return (truthy t)
     else Return false) in
  let? review_texts :=
    (if text_ok then
       let? t := py_getitem review (str "text") in Return (review_texts ++ [t])
     else Return review_texts) in
  let? has_rating := py_contains review (str "rating") in
  let? ratings :=
    (if has_rating then
       let? r := py_getitem review (str "rating") in Return (ratings ++ [r])
     else Return ratings) in
  Return (review_texts, ratings).

(** Lines 85-92: [review_texts] and [ratings] after the loop. *)
Fixpoint collect (reviews : list pyval) (acc : list pyval * list pyval)
    : outcome (list pyval * list pyval) :=
  match reviews with
  | [] => Return acc
  | review :: rest =>
      let? acc := collect_review review acc in collect rest acc
  end.

(** Lines 98-123: the f-string, line by line. *)
Definition prompt_lines (n : nat) (app_name joined : pystr) : list pystr :=
  [ [];
    str "        Analyze the following " ++ of_nat n ++
      str " Apple App Store reviews for " ++ app_name ++ str ".";
    str "        ";
    str "        Reviews:";
    str "        " ++ joined ++
      str "  # Limit to first 50 reviews to avoid token limits";
    str "        ";
    str "        You must respond with ONLY valid JSON in this exact format:";
    str "        {";
    str "            " ++ q "overall_sentiment" ++ str ": " ++ q "positive" ++ str ",";
    str "            " ++ q "sentiment_score" ++ str ": 0.8,";
    str "            " ++ q "key_themes" ++ str ": [" ++ q "user interface" ++
      str ", " ++ q "performance" ++ str ", " ++ q "features" ++ str "],";
    str "            " ++ q "common_issues" ++ str ": [" ++ q "slow loading" ++
      str ", " ++ q "buggy" ++ str ", " ++ q "missing features" ++ str "],";
    str "            " ++ q "strengths" ++ str ": [" ++ q "easy to use" ++
      str ", " ++ q "reliable" ++ str ", " ++ q "good design" ++ str "],";
    str "            " ++ q "user_experience_feedback" ++ str ": " ++
      q "Users generally find the app intuitive but report performance issues" ++
      str ",";
    str "            " ++ q "feature_requests" ++ str ": [" ++ q "dark mode" ++
      str ", " ++ q "better search" ++ str ", " ++ q "offline support" ++ str "],";
    str "            " ++ q "rating_distribution" ++ str ": {";
    str "                " ++ q "1_star" ++ str ": 0,";
    str "                " ++ q "2_star" ++ str ": 0,";
    str "                " ++ q "3_star" ++ str ": 0,";
    str "                " ++ q "4_star" ++ str ": 0,";
    str "                " ++ q "5_star" ++ str ": 0";
    str "            }";
    str "        }";
    str "        ";
    str "        IMPORTANT: Respond with ONLY the JSON object, no additional text or explanations.";
    str "        " ].

Definition build_prompt (review_texts : list pyval) (app_name : pystr)
    : outcome pystr :=
  let? joined := py_join (str " ") (take 50 review_texts) in
  Return (join nl (prompt_lines (length review_texts) app_name joined)).

(** Lines 125-133: the request. *)
Definition chat_request (prompt : pystr) : chat_params :=
  {| model := str "gpt-4";
     messages :=
       [ (str "system",
          str "You are an expert app analyst specializing in user feedback analysis.");
         (str "user", prompt) ];
     temperature := float_0_3;
     max_tokens := 1000 |}.

(** Lines 140-145, on a reply that is a [str]. *)
Definition strip_fences (analysis_text : pystr) : pystr :=
  let cleaned_text := strip analysis_text in
  let cleaned_text :=
    if startswith cleaned_text (str "```json")
    then slice_from 7 cleaned_text else cleaned_text in
  let cleaned_text :=
    if endswith cleaned_text (str "```")
    then slice_to_neg 3 cleaned_text else cleaned_text in
  strip cleaned_text.

(** Lines 140-145: a reply without a [strip] method ([None] when the
    service sends no content) raises at line 140. *)
Definition clean_text (analysis_text : pyval) : outcome pystr :=
  match analysis_text with
  | PStr s => Return (strip_fences s)
  | _ => Raise (AttributeError (str "strip") analysis_text)
  end.

(** Lines 152-161: the object used when the reply does not decode. *)
Definition fallback_analysis : pyval :=
  PDict
    [ (str "overall_sentiment", PStr (str "neutral"));
      (str "sentiment_score", PFloat float_0_5);
      (str "key_themes", PList [PStr (str "User feedback analysis completed")]);
      (str "common_issues", PList [PStr (str "Review analysis available")]);
      (str "strengths", PList [PStr (str "User insights gathered")]);
      (str "user_experience_feedback", PStr (str "Analysis completed successfully"));
      (str "feature_requests", PList [PStr (str "User feedback processed")]);
      (str "rating_distribution",
       PDict [ (str "1_star", PInt 0); (str "2_star", PInt 0);
               (str "3_star", PInt 0); (str "4_star", PInt 0);
               (str "5_star", PInt 0) ]) ].

Definition formatting_warning : message :=
  [Text (str "Analysis completed but some formatting issues were encountered. Showing available insights.")].

(** Lines 138-161: the inner [try]. *)
Definition parse_reply (analysis_text : pyval) : M pyval :=
  try_except is_JSONDecodeError
    (lift (let? cleaned_text := clean_text analysis_text in
           json_loads cleaned_text))
    (fun e =>
       let! _ := st_warning formatting_warning in
       ret fallback_analysis).

(** Line 164: [rating_counts], a dict with the keys 1..5. *)
Definition rating_counts_init : gmap Z Z :=
  {[ 1 := 0; 2 := 0; 3 := 0; 4 := 0; 5 := 0 ]}.

(** The key of [rating_counts] that a value hashes and compares equal
    to; a list or a dict cannot be hashed. *)
Definition counts_key (rating : pyval) : outcome (option Z) :=
  match rating with
  | PList _ | PDict _ => Raise (TypeError OpHash rating)
  | _ => Return (as_int rating)
  end.

(** [rating in rating_counts] *)
Definition counts_contains (rating_counts : gmap Z Z) (rating : pyval)
    : outcome bool :=
  let? k := counts_key rating in
  Return (match k ≫= (rating_counts !!.) with
          | Some _ => true
          | None => false
          end).

(** [rating_counts[rating] += 1] *)
Definition counts_incr (rating_counts : gmap Z Z) (rating : pyval)
    : outcome (gmap Z Z) :=
  let? k := counts_key rating in
  match k with
  | Some k =>
      match rating_counts !! k with
      | Some c => Return (<[k := c + 1]> rating_counts)
      | None => Raise (KeyError rating)
      end
  | None => Raise (KeyError rating)
  end.

(** [rating_counts[n]] for a literal [n] *)
Definition counts_get (rating_counts : gmap Z Z) (n : Z) : outcome Z :=
  match rating_counts !! n with
  | Some c => Return c
  | None => Raise (KeyError (PInt n))
  end.

(** Lines 165-167. *)
Fixpoint count_ratings (ratings : list pyval) (rating_counts : gmap Z Z)
    : outcome (gmap Z Z) :=
  match ratings with
  | [] => Return rating_counts
  | rating :: rest =>
      let? present := counts_contains rating_counts rating in
      let? rating_counts :=
        (if present then counts_incr rating_counts rating
         else Return rating_counts) in
      count_ratings rest rating_counts
  end.

(** Lines 169-175, the right-hand side. *)
Definition rating_distribution (rating_counts : gmap Z Z) : outcome pyval :=
  let? c1 := counts_get rating_counts 1 in
  let? c2 := counts_get rating_counts 2 in
  let? c3 := counts_get rating_counts 3 in
  let? c4 := counts_get rating_counts 4 in
  let? c5 := counts_get rating_counts 5 in
  Return (PDict [ (str "1_star", PInt c1); (str "2_star", PInt c2);
                  (str "3_star", PInt c3); (str "4_star", PInt c4);
                  (str "5_star", PInt c5) ]).

(** Lines 137-177: from the reply to the returned pair. *)
Definition normalize (analysis_text : pyval) (ratings : list pyval)
    : M (pyval * pyval) :=
  let! analysis := parse_reply analysis_text in
  let! rating_counts := lift (count_ratings ratings rating_counts_init) in
  let! distribution := lift (rating_distribution rating_counts) in
  let! analysis :=
    lift (py_setitem analysis (str "rating_distribution") distribution) in
  ret (analysis, PList ratings).

(** Lines 84-177: the body of the outer [try]. *)
Definition analyze_body (reviews : pyval) (app_name : pystr)
    (openai_client : client) : M (pyval * pyval) :=
  let! items := lift (py_iter reviews) in
  let! (review_texts, ratings) := lift (collect items ([], [])) in
  if negb (truthy (PList review_texts)) then ret (PNone, PNone)
  else
    let! prompt := lift (build_prompt review_texts app_name) in
    let! analysis_text :=
      chat_completions_create openai_client (chat_request prompt) in
    normalize analysis_text ratings.

Definition analysis_error (e : pyexc) : message :=
  [Text (str "Error analyzing reviews with OpenAI: "); StrOf e].

Definition analyze_reviews_with_openai (reviews : pyval) (app_name : pystr)
    (openai_client : client) : M (pyval * pyval) :=
  try_except Exception
    (analyze_body reviews app_name openai_client)
    (fun e =>
       let! _ := st_error (analysis_error e) in
       ret (PNone, PNone)).

(** *** [main], lines 208-291 *)

(** What the sidebar widgets hold when the script runs (lines 220-234). *)
Record sidebar := Sidebar {
  openai_api_key_input : pystr;
  serpapi_key_input : pystr;
  run_analysis : bool
}.

(** [os.getenv(name)]: a [str], or [None] for an unset variable. *)
Definition os_getenv (name : pystr) : pyval :=
  match getenv name with
  | Some s => PStr s
  | None => PNone
  end.

(** Lines 245-248: [if not key: key = os.getenv(name)]. *)
Definition resolve_key (key : pyval) (name : pystr) : pyval :=
  if negb (truthy key) then os_getenv name else key.

Definition missing_keys_warning : message :=
  [Text ([9888%N; 65039%N] ++
         str " Please enter your API keys in the sidebar or set them in your .env file to begin analysis.")].

Definition fetch_failed_error : message :=
  [Text (str "Failed to fetch Teams reviews. Please check the app ID and API key.")].

Definition analysis_failed_error : message :=
  [Text (str "Failed to analyze reviews. Please check your OpenAI API key and try again.")].

Definition analysis_complete (n : nat) : message :=
  [Text ([9989%N] ++ str " Analysis complete! Analyzed " ++ of_nat n ++
         str " Microsoft Teams reviews.")].

(** The calls that only draw (header, sidebar, progress bar, status text)
    are left out; everything from line 293 on is the presentation layer
    and is recorded as the one event [Render]. *)
Definition main (ui : sidebar) : M unit :=
  let openai_api_key := PStr (openai_api_key_input ui) in
  let serpapi_key := PStr (serpapi_key_input ui) in
  let teams_app_id := str "1113153706" in
  let max_reviews := 25 in
  let openai_api_key := resolve_key openai_api_key (str "OPENAI_API_KEY") in
  let serpapi_key := resolve_key serpapi_key (str "SERPAPI_KEY") in
  if negb (truthy openai_api_key) || negb (truthy serpapi_key) then
    st_warning missing_keys_warning
  else if run_analysis ui then
    let openai_client := OpenAI openai_api_key in
    let! teams_reviews :=
      fetch_app_store_reviews teams_app_id serpapi_key max_reviews in
    if negb (truthy teams_reviews) then
      st_error fetch_failed_error
    else
      let! (teams_analysis, teams_ratings) :=
        analyze_reviews_with_openai teams_reviews (str "Microsoft Teams")
          openai_client in
      if negb (truthy teams_analysis) then
        st_error analysis_failed_error
      else
        let! n := lift (py_len teams_reviews) in
        let! _ := st_success (analysis_complete n) in
        emit (Render teams_analysis teams_ratings teams_reviews)
  else ret tt.

End Pipeline.

(** ** What the specification speaks of *)

Module Spec.

(** A value that can be a dict key. *)
Definition hashable (v : pyval) : bool :=
  match v with
  | PList _ | PDict _ => false
  | _ => true
  end.

(** [rating == k] for an [int] [k]. *)
Definition is_star (k : Z) (rating : pyval) : bool :=
  match as_int rating with
  | Some z => z =? k
  | None => false
  end.

(** [rating in {1, 2, 3, 4, 5}] *)
Definition in_1_to_5 (rating : pyval) : bool :=
  match as_int rating with
  | Some z => (1 <=? z) && (z <=? 5)
  | None => false
  end.

(** The number of ratings equal to [k]. *)
Definition count_of (k : Z) (ratings : list pyval) : Z :=
  Z.of_nat (length (List.filter (is_star k) ratings)).

(** The same on integers: [z in {1, 2, 3, 4, 5}] and the number of
    occurrences of [k]. *)
Definition in_range (z : Z) : bool := (1 <=? z) && (z <=? 5).
Definition occurrences (k : Z) (ratings : list Z) : Z :=
  Z.of_nat (count_occ Z.eq_dec ratings k).

(** The histogram of a list of ratings, in the shape of the
    [rating_distribution] field. *)
Definition histogram (ratings : list pyval) : pyval :=
  PDict [ (str "1_star", PInt (count_of 1 ratings));
          (str "2_star", PInt (count_of 2 ratings));
          (str "3_star", PInt (count_of 3 ratings));
          (str "4_star", PInt (count_of 4 ratings));
          (str "5_star", PInt (count_of 5 ratings)) ].

Definition is_dict (v : pyval) : bool :=
  match v with PDict _ => true | _ => false end.

(** An analysis object with its [rating_distribution] set to the histogram
    of [ratings]. *)
Definition with_histogram (analysis : pyval) (ratings : list pyval) : pyval :=
  match analysis with
  | PDict d => PDict (dict_set d (str "rating_distribution") (histogram ratings))
  | v => v
  end.

(** A field of a review record; none on a record that lacks it. *)
Definition field (name : pystr) (review : pyval) : option pyval :=
  match review with
  | PDict d => dict_get d name
  | _ => None
  end.

(** The text of a review that has a non-empty one. *)
Definition text_of (review : pyval) : option pyval :=
  match field (str "text") review with
  | Some t => if truthy t then Some t else None
  | None => None
  end.

Definition has_text (review : pyval) : bool :=
  match text_of review with Some _ => true | None => false end.

(** The non-empty texts and the ratings of the fetched reviews, in order. *)
Definition texts_of (reviews : list pyval) : list pyval := omap text_of reviews.
Definition ratings_of (reviews : list pyval) : list pyval :=
  omap (field (str "rating")) reviews.

Definition is_render (ev : event) : bool :=
  match ev with Render _ _ _ => true | _ => false end.

(** A key that neither the sidebar nor the environment supplies. *)
Definition absent (input : pystr) (env : option pystr) : Prop :=
  input = [] /\ env = None.

(** The content of the [user] message of a request. *)
Definition user_prompt (p : chat_params) : option pystr :=
  snd <$> List.find (fun m => bool_decide (fst m = str "user")) (messages p).

(** *** JSON texts (RFC 8259, and the constants Python adds) *)

(** The four white space characters of JSON. *)
Definition json_ws (c : N) : bool :=
  ((c =? 32) || (c =? 9) || (c =? 10) || (c =? 13))%N.

(** The characters a JSON value can start with and end with: an object,
    an array, a string, a number, [true], [false], [null], and Python's
    [NaN], [Infinity], [-Infinity]. *)
Definition value_first (c : N) : bool :=
  (c =? 34)%N || existsb (N.eqb c) (str "{[-0123456789tfnNI").
Definition value_last (c : N) : bool :=
  (c =? 34)%N || existsb (N.eqb c) (str "}]0123456789elNy").

(** A character that is neither white space nor a backtick; the
    characters above all are. *)
Definition plain (c : N) : bool := negb (isspace c) && negb (c =? 96)%N.

(** A text with a plain character at either end. *)
Definition delimited (body : pystr) : bool :=
  match head body, last body with
  | Some c, Some c' => plain c && plain c'
  | _, _ => false
  end.

Definition all_space (w : pystr) : bool := forallb isspace w.

(** What the development relies on about [json.loads]: a text it decodes
    is a value between runs of JSON white space, the value starts and ends
    with a plain character, and it decodes to the same object without the
    white space around it. *)
Definition decodes_json_texts (json_loads : pystr -> outcome pyval) : Prop :=
  forall s v, json_loads s = Return v ->
    exists a body b,
      s = a ++ body ++ b /\ forallb json_ws a = true /\ forallb json_ws b = true /\
      delimited body = true /\ json_loads body = Return v.

(** ... and a text that starts with a backtick is refused with a
    [JSONDecodeError]. *)
Definition refuses_backtick (json_loads : pystr -> outcome pyval) : Prop :=
  forall s, exists detail, json_loads (96%N :: s) = Raise (JSONDecodeError detail).

End Spec.
Export Spec.

(** ** Sample collaborators *)

Module Samples.

(** A decoder that knows finitely many JSON texts: it skips the JSON white
    space around the text and looks the value up. *)
Definition table_loads (table : list (pystr * pyval)) (s : pystr) : outcome pyval :=
  match dict_get table (strip_with json_ws s) with
  | Some v => Return v
  | None => Raise (JSONDecodeError (str "Expecting value"))
  end.

(** A reply with a tally of its own. *)
Definition reply_json : pystr :=
  str "{" ++ q "overall_sentiment" ++ str ": " ++ q "positive" ++ str ", " ++
  q "rating_distribution" ++ str ": {" ++ q "5_star" ++ str ": 40}}".

Definition reply_object : pyval :=
  PDict [ (str "overall_sentiment", PStr (str "positive"));
          (str "rating_distribution", PDict [(str "5_star", PInt 40)]) ].

Definition json_table : list (pystr * pyval) :=
  [ (reply_json, reply_object);
    (str "{}", PDict []);
    (str "[1, 2]", PList [PInt 1; PInt 2]);
    (str "7", PInt 7);
    (str "null", PNone) ].

Definition json_loads_sample : pystr -> outcome pyval := table_loads json_table.

(** The same reply between fences, with and without the language tag, and
    a reply cut short. *)
Definition fenced_reply : pystr :=
  str "```json" ++ nl ++ reply_json ++ nl ++ str "```".
Definition plain_fenced_reply : pystr :=
  str "```" ++ nl ++ reply_json ++ nl ++ str "```".
Definition truncated_reply : pystr :=
  str "{" ++ q "overall_sentiment" ++ str ": " ++ [34%N] ++ str "posi".

(** The reviews of the end-to-end scenario. *)
Definition scenario_reviews : list pyval :=
  [ PDict [(str "text", PStr (str "Great app")); (str "rating", PInt 5)];
    PDict [(str "text", PStr []); (str "rating", PInt 2)];
    PDict [(str "text", PStr (str "Crashes a lot")); (str "rating", PInt 1)] ].

Definition scenario_ratings : list pyval := [PInt 5; PInt 2; PInt 1].

(** The histogram of the scenario, and the one the scenario is said to
    have. *)
Definition scenario_distribution : pyval :=
  PDict [ (str "1_star", PInt 1); (str "2_star", PInt 1); (str "3_star", PInt 0);
          (str "4_star", PInt 0); (str "5_star", PInt 1) ].
Definition stated_distribution : pyval :=
  PDict [ (str "1_star", PInt 1); (str "2_star", PInt 1); (str "3_star", PInt 0);
          (str "4_star", PInt 0); (str "5_star", PInt 0) ].

(** What the scenario's prompt embeds. *)
Definition scenario_joined : pystr := str "Great app Crashes a lot".

(** Reviews without any text. *)
Definition silent_reviews : list pyval :=
  [ PDict [(str "text", PStr []); (str "rating", PInt 4)];
    PDict [(str "rating", PInt 3)] ].

(** A search service that finds [reviews], one that answers with an error
    field, and one that cannot be reached. *)
Definition search_finds (reviews : pyval) (p : search_params) : outcome pydict :=
  Return [(str "reviews", reviews)].
Definition search_error (p : search_params) : outcome pydict :=
  Return [(str "error", PStr (str "Invalid API key."))].
Definition search_down (p : search_params) : outcome pydict :=
  Raise (OtherError (str "ConnectionError") (str "Max retries exceeded")).

(** A generation service with a fixed reply. *)
Definition replies (text : pystr) (c : client) (p : chat_params) : outcome pyval :=
  Return (PStr text).

(** An environment without the keys, and one with both. *)
Definition env_empty (name : pystr) : option pystr := None.
Definition env_keys (name : pystr) : option pystr := Some (str "secret").

Definition sample_client : client := OpenAI (PStr (str "secret")).

End Samples.
Export Samples.

(** ** The diagnostic script: [debug_reviews.py] *)

Module Debug.

(** The pieces of a printed line.  What [str], [list] and [json.dumps]
    make of a value is not spelled out. *)
Inductive part :=
| Lit (s : pystr)
| Shown (v : pyval)                (* {v} *)
| ShownExc (e : pyexc)             (* {str(e)} *)
| KeyList (keys : list pystr)      (* {list(d.keys())} *)
| Dumped (d : pydict) (n : nat).   (* {json.dumps(d, indent=2)[:n]} *)

(** What the script does that the outside can see. *)
Inductive output :=
| Print (line : list part)
| Search (p : search_params).

Definition is_search (o : output) : bool :=
  match o with Search _ => true | Print _ => false end.

(** The requests among the outputs, in order. *)
Definition searches (out : list output) : list search_params :=
  omap (fun o => match o with Search p => Some p | Print _ => None end) out.

(** A computation of the script: its outcome and its outputs, in order. *)
Record IO (A : Type) := Out { value : outcome A; printed : list output }.
Arguments Out {A} value printed.
Arguments value {A} i.
Arguments printed {A} i.

Definition unit_io {A} (a : A) : IO A := Out (Return a) [].
Definition pure_io {A} (o : outcome A) : IO A := Out o [].
Definition print (line : list part) : IO unit := Out (Return tt) [Print line].

Definition bind_io {A B} (m : IO A) (k : A -> IO B) : IO B :=
  match value m with
  | Return a => Out (value (k a)) (printed m ++ printed (k a))
  | Raise e => Out (Raise e) (printed m)
  end.

(** [try: body / except Exception as e: handler e] *)
Definition try_io {A} (body : IO A) (handler : pyexc -> IO A) : IO A :=
  match value body with
  | Return _ => body
  | Raise e => Out (value (handler e)) (printed body ++ printed (handler e))
  end.

Notation "'let*' x := e 'in' k" := (bind_io e (fun x => k))
  (at level 10, x pattern, e at level 100, k at level 200).

(** [v.get(k, default)] *)
Definition py_get (v : pyval) (k : pystr) (default : pyval) : outcome pyval :=
  match v with
  | PDict d =>
      Return (match dict_get d k with Some x => x | None => default end)
  | _ => Raise (AttributeError (str "get") v)
  end.

(** [v.strip()] *)
Definition py_strip (v : pyval) : outcome pystr :=
  match v with
  | PStr s => Return (strip s)
  | _ => Raise (AttributeError (str "strip") v)
  end.

(** [v[:n]] *)
Definition py_slice_to (n : nat) (v : pyval) : outcome pyval :=
  match v with
  | PStr s => Return (PStr (take n s))
  | PList l => Return (PList (take n l))
  | _ => Raise (TypeError OpGetItem v)
  end.

Definition yes_no (b : bool) : pystr := if b then str "Yes" else str "No".

(** Line 52: [bool(review.get('text', '').strip())] *)
Definition has_text (review : pyval) : outcome bool :=
  let? text := py_get review (str "text") (PStr []) in
  let? stripped := py_strip text in
  Return (truthy (PStr stripped)).

(** Line 53: ['rating' in review and review['rating'] is not None] *)
Definition has_rating (review : pyval) : outcome bool :=
  let? present := py_contains review (str "rating") in
  if present then
    let? rating := py_getitem review (str "rating") in
    Return (match rating with PNone => false | _ => true end)
  else Return false.

(** The three counters of lines 47-49. *)
Record counters := Counters {
  valid_reviews : nat;
  empty_reviews : nat;
  no_rating_reviews : nat
}.

(** The number of reviews counted so far. *)
Definition total (c : counters) : nat :=
  valid_reviews c + empty_reviews c + no_rating_reviews c.

(** Lines 55-60. *)
Definition count_review (has_text has_rating : bool) (c : counters) : counters :=
  if has_text && has_rating then
    Counters (valid_reviews c + 1) (empty_reviews c) (no_rating_reviews c)
  else if negb has_text then
    Counters (valid_reviews c) (empty_reviews c + 1) (no_rating_reviews c)
  else if negb has_rating then
    Counters (valid_reviews c) (empty_reviews c) (no_rating_reviews c + 1)
  else c.

(** Lines 63-68: the details shown for the first three reviews. *)
Definition show_review (i : nat) (review : pyval) (has_text has_rating : bool)
    : IO unit :=
  if (i <? 3)%nat then
    let* _ := print [Lit (str "   Review " ++ of_nat (i + 1) ++ str ": Text: " ++
                          yes_no has_text ++ str ", Rating: " ++
                          yes_no has_rating)] in
    let* _ :=
      (if has_text then
         let* text := pure_io (py_get review (str "text") (PStr [])) in
         let* head := pure_io (py_slice_to 100 text) in
         print [Lit (str "      Text: "); Shown head; Lit (str "...")]
       else unit_io tt) in
    if has_rating then
      let* rating := pure_io (py_get review (str "rating") (PStr (str "N/A"))) in
      print [Lit (str "      Rating: "); Shown rating]
    else unit_io tt
  else unit_io tt.

(** Lines 51-68, one turn of the loop. *)
Definition review_step (i : nat) (review : pyval) (c : counters) : IO counters :=
  let* text := pure_io (has_text review) in
  let* rating := pure_io (has_rating review) in
  let c := count_review text rating c in
  let* _ := show_review i review text rating in
  unit_io c.

(** Lines 51-68: [for i, review in enumerate(reviews)], from index [i]. *)
Fixpoint review_loop (i : nat) (reviews : list pyval) (c : counters)
    : IO counters :=
  match reviews with
  | [] => unit_io c
  | review :: rest =>
      let* c := review_step i review c in review_loop (S i) rest c
  end.

Definition summary (c : counters) : list part :=
  [Lit (str "   " ++ [128200%N] ++ str " Summary: " ++ of_nat (valid_reviews c) ++
        str " valid, " ++ of_nat (empty_reviews c) ++ str " empty text, " ++
        of_nat (no_rating_reviews c) ++ str " no rating")].

(** Lines 42-70: a response with a [reviews] key. *)
Definition report_reviews (results : pydict) : IO unit :=
  let* reviews := pure_io (py_getitem (PDict results) (str "reviews")) in
  let* n := pure_io (py_len reviews) in
  let* _ := print [Lit (str "   " ++ [9989%N] ++ str " Found " ++ of_nat n ++
                        str " reviews")] in
  let* items := pure_io (py_iter reviews) in
  let* c := review_loop 0 items (Counters 0 0 0) in
  print (summary c).

(** Lines 72-76: a response without one. *)
Definition report_missing (results : pydict) : IO unit :=
  let* _ := print [Lit (str "   " ++ [10060%N] ++ str " No reviews found in response")] in
  let* _ :=
    (if dict_has results (str "error") then
       let* error := pure_io (py_getitem (PDict results) (str "error")) in
       print [Lit (str "   Error: "); Shown error]
     else unit_io tt) in
  print [Lit (str "   Full response: "); Dumped results 300; Lit (str "...")].

(** The request for [n] reviews of the app. *)
Definition request_of (api_key : pyval) (n : nat) : search_params :=
  search_request (str "1113153706") api_key (Z.of_nat n).

Definition banner : list output :=
  [ Print [Lit ([128027%N] ++ str " Review Count Debug Tool")];
    Print [Lit (repeat 61%N 60)] ].

Definition tips : list output :=
  [ Print [Lit ([10%N; 128161%N] ++ str " Troubleshooting Tips:")];
    Print [Lit (str "1. Check your SerpAPI plan limits")];
    Print [Lit (str "2. Verify the app ID is correct")];
    Print [Lit (str "3. Some reviews might be filtered out automatically")];
    Print [Lit (str "4. Empty or invalid reviews might be excluded")] ].

Section Script.
Variable get_dict : search_params -> outcome pydict.
Variable getenv : pystr -> option pystr.

Definition search_get_dict (p : search_params) : IO pydict :=
  Out (get_dict p) [Search p].

(** Lines 29-76: one turn of the loop over the review counts. *)
Definition request_block (app_id : pystr) (api_key : pyval) (num_reviews : nat)
    : IO unit :=
  let* _ := print [Lit ([10%N; 128202%N] ++ str " Requesting " ++
                        of_nat num_reviews ++ str " reviews...")] in
  let* results :=
    search_get_dict (search_request app_id api_key (Z.of_nat num_reviews)) in
  let* _ := print [Lit (str "   Response keys: "); KeyList (map fst results)] in
  if dict_has results (str "reviews") then report_reviews results
  else report_missing results.

(** Line 28: [for num_reviews in ...]. *)
Fixpoint request_loop (app_id : pystr) (api_key : pyval) (counts : list nat)
    : IO unit :=
  match counts with
  | [] => unit_io tt
  | num_reviews :: rest =>
      let* _ := request_block app_id api_key num_reviews in
      request_loop app_id api_key rest
  end.

Definition error_line (e : pyexc) : list part :=
  [Lit ([10060%N] ++ str " Error: "); ShownExc e].

Definition missing_key_line : list part :=
  [Lit ([10060%N] ++ str " SERPAPI_KEY not found in environment variables")].

(** [debug_review_fetching], lines 14-79. *)
Definition debug_review_fetching : IO unit :=
  let api_key := os_getenv getenv (str "SERPAPI_KEY") in
  if negb (truthy api_key) then print missing_key_line
  else
    let app_id := str "1113153706" in
    let* _ := print [Lit ([128269%N] ++
                          str " Debugging review fetch for American Express (ID: " ++
                          app_id ++ str ")")] in
    let* _ := print [Lit (repeat 61%N 60)] in
    try_io (request_loop app_id api_key [25; 50; 100]%nat)
      (fun e => print (error_line e)).

(** [main], lines 81-92. *)
Definition main : IO unit :=
  let* _ := print [Lit ([128027%N] ++ str " Review Count Debug Tool")] in
  let* _ := print [Lit (repeat 61%N 60)] in
  let* _ := debug_review_fetching in
  Out (Return tt) tips.

End Script.

End Debug.

(** Reviews as the diagnostic script sorts them: complete, without text
    (white space only), without rating ([null]), and one whose text is
    [null]. *)
Definition mixed_reviews : list pyval :=
  [ PDict [(str "text", PStr (str "Great app")); (str "rating", PInt 5)];
    PDict [(str "text", PStr (str "   ")); (str "rating", PInt 2)];
    PDict [(str "text", PStr (str "Slow")); (str "rating", PNone)];
    PDict [(str "rating", PInt 1)] ].

Definition null_text_reviews : list pyval :=
  [ PDict [(str "text", PStr (str "Great app")); (str "rating", PInt 5)];
    PDict [(str "text", PNone); (str "rating", PInt 4)] ].

(** More reviews than [main] asks for. *)
Definition thirty_reviews : list pyval :=
  repeat (PDict [(str "text", PStr (str "Fine")); (str "rating", PInt 4)]) 30.

(** A review whose text is a number. *)
Definition numbered_reviews : list pyval :=
  [ PDict [(str "text", PStr (str "Great app")); (str "rating", PInt 5)];
    PDict [(str "text", PInt 7); (str "rating", PInt 3)] ].

(** A key that is unusable: not typed in the sidebar, and unset or empty in
    the environment. *)
Definition missing (input : pystr) (env : option pystr) : Prop :=
  input = [] /\ (env = None \/ env = Some []).

Definition is_string (v : pyval) : bool :=
  match v with PStr _ => true | _ => false end.

Definition is_error (ev : event) : bool :=
  match ev with StError _ => true | _ => false end.

(** Lines 163-175 on a list of ratings. *)
Definition distribution_of (ratings : list pyval) : outcome pyval :=
  let? rating_counts := count_ratings ratings rating_counts_init in
  rating_distribution rating_counts.

(** A generation service that answers without content. *)
Definition replies_nothing (c : client) (p : chat_params) : outcome pyval :=
  Return PNone.

(** A search service that answers the request for 25 reviews with
    [mixed_reviews], the one for 50 with [null_text_reviews], and any
    other with an error field. *)
Definition search_staged (p : search_params) : outcome pydict :=
  if num p =? 25 then Return [(str "reviews", PList mixed_reviews)]
  else if num p =? 50 then Return [(str "reviews", PList null_text_reviews)]
  else Return [(str "error", PStr (str "Invalid API key."))].

(** ** Facts about strings *)

Section StripFacts.
Variable space : N -> bool.

Lemma lstrip_with_spaces (w s : pystr) :
  forallb space w = true -> lstrip_with space (w ++ s) = lstrip_with space s.
Proof.
  induction w as [|c w IH]; simpl; [done|].
  intros [Hc Hw]%andb_prop. rewrite Hc. auto.
Qed.

Lemma lstrip_with_head (c : N) (s : pystr) :
  space c = false -> lstrip_with space (c :: s) = c :: s.
Proof. simpl. by intros ->. Qed.

Lemma rstrip_with_cons (c : N) (s : pystr) :
  space c = false -> rstrip_with space (c :: s) = c :: rstrip_with space s.
Proof. simpl. intros ->. by destruct (rstrip_with space s). Qed.

Lemma rstrip_with_spaces_nil (w : pystr) :
  forallb space w = true -> rstrip_with space w = [].
Proof.
  induction w as [|c w IH]; simpl; [done|].
  intros [Hc Hw]%andb_prop. by rewrite IH, Hc.
Qed.

Lemma rstrip_with_snoc (s : pystr) (c : N) :
  space c = false -> rstrip_with space (s ++ [c]) = s ++ [c].
Proof.
  intros Hc. induction s as [|d s IH]; simpl.
  - by rewrite Hc.
  - rewrite IH. destruct (s ++ [c]) eqn:E; [by destruct s|done].
Qed.

Lemma rstrip_with_app_spaces (s w : pystr) :
  forallb space w = true -> rstrip_with space (s ++ w) = rstrip_with space s.
Proof.
  intros Hw. induction s as [|d s IH]; simpl.
  - by apply rstrip_with_spaces_nil.
  - by rewrite IH.
Qed.

Lemma lstrip_with_split (s : pystr) :
  exists a, s = a ++ lstrip_with space s /\ forallb space a = true.
Proof.
  induction s as [|c s (a & Hs & Ha)]; simpl.
  - by exists [].
  - destruct (space c) eqn:Hc.
    + exists (c :: a). simpl. rewrite Hc, Ha. split; [by f_equal|done].
    + by exists [].
Qed.

Lemma rstrip_with_split (s : pystr) :
  exists b, s = rstrip_with space s ++ b /\ forallb space b = true.
Proof.
  induction s as [|c s (b & Hs & Hb)]; simpl.
  - by exists [].
  - destruct (rstrip_with space s) as [|d r] eqn:Hr.
    + destruct (space c) eqn:Hc.
      * exists (c :: b). simpl in *. rewrite Hc, Hb. by subst.
      * exists b. simpl in *. by subst.
    + exists b. split; [|done]. simpl. by f_equal.
Qed.

Lemma lstrip_with_head_space (s t : pystr) (c : N) :
  lstrip_with space s = c :: t -> space c = false.
Proof.
  induction s as [|d s IH]; simpl; [done|].
  destruct (space d) eqn:Hd; [done|]. by intros [= <- _].
Qed.

(** A text between two runs of white space is what [strip] returns. *)
Lemma strip_with_core (a body b : pystr) (c c' : N) :
  forallb space a = true -> forallb space b = true ->
  head body = Some c -> last body = Some c' ->
  space c = false -> space c' = false ->
  strip_with space (a ++ body ++ b) = body.
Proof.
  intros Ha Hb Hh Hl Hc Hc'. unfold strip_with.
  rewrite lstrip_with_spaces by done.
  destruct body as [|c0 t]; [done|]. simpl in Hh. injection Hh as ->.
  change ((c :: t) ++ b) with (c :: (t ++ b)).
  rewrite lstrip_with_head by done.
  change (c :: (t ++ b)) with ((c :: t) ++ b).
  rewrite rstrip_with_app_spaces by done.
  apply last_Some in Hl as [l' ->]. by apply rstrip_with_snoc.
Qed.

Lemma strip_with_fixed (body : pystr) (c c' : N) :
  head body = Some c -> last body = Some c' ->
  space c = false -> space c' = false ->
  strip_with space body = body.
Proof.
  intros. rewrite <- (app_nil_r body) at 1.
  by apply (strip_with_core [] body [] c c').
Qed.

(** [strip] returns the text between two runs of white space. *)
Lemma strip_with_split (s : pystr) :
  exists a b, s = a ++ strip_with space s ++ b /\
              forallb space a = true /\ forallb space b = true.
Proof.
  destruct (lstrip_with_split s) as (a & Hs & Ha).
  destruct (rstrip_with_split (lstrip_with space s)) as (b & Ht & Hb).
  exists a, b. unfold strip_with. by rewrite <- Ht.
Qed.

End StripFacts.

Section AffixFacts.

Lemma startswith_app (p r : pystr) : startswith (p ++ r) p = true.
Proof. unfold startswith. apply bool_decide_eq_true. apply take_app_length. Qed.

Lemma endswith_app (y p : pystr) : endswith (y ++ p) p = true.
Proof.
  unfold endswith. rewrite length_app.
  apply andb_true_intro. split; apply bool_decide_eq_true; [lia|].
  replace (length y + length p - length p)%nat with (length y) by lia.
  apply drop_app_length.
Qed.

Lemma slice_to_neg_app (y p : pystr) : slice_to_neg (length p) (y ++ p) = y.
Proof.
  unfold slice_to_neg. rewrite length_app.
  replace (length y + length p - length p)%nat with (length y) by lia.
  apply take_app_length.
Qed.

Lemma startswith_head (s p : pystr) (c d : N) :
  head s = Some c -> head p = Some d -> c <> d -> startswith s p = false.
Proof.
  destruct s as [|c0 s], p as [|d0 p]; simpl; try done.
  intros [= ->] [= ->] Hne. unfold startswith.
  apply bool_decide_eq_false. simpl. by intros [= ?].
Qed.

Lemma endswith_last (s p : pystr) (c d : N) :
  last s = Some c -> last p = Some d -> c <> d -> endswith s p = false.
Proof.
  intros Hs Hp Hne. unfold endswith.
  apply andb_false_iff. right. apply bool_decide_eq_false. intros Hd.
  rewrite <- (take_drop (length s - length p) s), Hd in Hs.
  apply last_Some in Hp as [p' ->].
  rewrite app_assoc, last_snoc in Hs. congruence.
Qed.

(** Appending text that lacks the last character of [p] does not make
    [p] a prefix. *)
Lemma startswith_app_other (x y p : pystr) (c : N) :
  last p = Some c -> c ∉ y -> startswith (x ++ y) p = startswith x p.
Proof.
  intros Hl Hy. unfold startswith.
  destruct (decide (length p <= length x)%nat) as [Hle|Hgt].
  - by rewrite take_app_le.
  - rewrite (bool_decide_eq_false_2 (take (length p) x = p)).
    2:{ intros E. apply (f_equal length) in E. rewrite length_take in E. lia. }
    apply bool_decide_eq_false. intros E.
    apply last_Some in Hl as [p' Hp].
    assert (Hc : p !! length p' = Some c).
    { rewrite Hp. by apply list_lookup_middle. }
    rewrite <- E in Hc. apply lookup_take_Some in Hc as [Hc _].
    assert (length p = S (length p')) by (rewrite Hp, length_app; simpl; lia).
    rewrite lookup_app_r in Hc by lia.
    apply Hy. by eapply list_elem_of_lookup_2.
Qed.

End AffixFacts.

Section CharFacts.

Lemma json_ws_isspace (c : N) : json_ws c = true -> isspace c = true.
Proof.
  unfold json_ws. rewrite !orb_true_iff, !N.eqb_eq.
  by intros [[[-> | ->] | ->] | ->].
Qed.

Lemma json_ws_all_space (w : pystr) :
  forallb json_ws w = true -> all_space w = true.
Proof.
  unfold all_space. rewrite !forallb_forall.
  intros H c Hc. by apply json_ws_isspace, H.
Qed.

(** The characters at the ends of a JSON value are plain. *)
Lemma value_first_plain (c : N) : value_first c = true -> plain c = true.
Proof.
  unfold value_first. rewrite orb_true_iff, existsb_exists, N.eqb_eq.
  intros [-> | (x & Hin & ->%N.eqb_eq)]; [done|].
  vm_compute in Hin.
  repeat (destruct Hin as [<- | Hin]; [done|]). done.
Qed.

Lemma value_last_plain (c : N) : value_last c = true -> plain c = true.
Proof.
  unfold value_last. rewrite orb_true_iff, existsb_exists, N.eqb_eq.
  intros [-> | (x & Hin & ->%N.eqb_eq)]; [done|].
  vm_compute in Hin.
  repeat (destruct Hin as [<- | Hin]; [done|]). done.
Qed.

Lemma plain_spec (c : N) :
  plain c = true -> isspace c = false /\ json_ws c = false /\ c <> 96%N.
Proof.
  unfold plain. intros [Hs Hb]%andb_prop.
  apply negb_true_iff in Hs, Hb. apply N.eqb_neq in Hb.
  repeat split; try done.
  destruct (json_ws c) eqn:E; [|done]. apply json_ws_isspace in E. congruence.
Qed.

Lemma delimited_ends (body : pystr) :
  delimited body = true ->
  exists c c', head body = Some c /\ last body = Some c' /\
               plain c = true /\ plain c' = true.
Proof.
  unfold delimited.
  destruct (head body) as [c|], (last body) as [c'|]; try done.
  intros [? ?]%andb_prop. by exists c, c'.
Qed.

End CharFacts.

Section StripMore.
Variable space : N -> bool.

Lemma lstrip_with_app_head (s t : pystr) (c : N) :
  space c = false ->
  lstrip_with space (s ++ c :: t) = lstrip_with space s ++ c :: t.
Proof.
  intros Hc. induction s as [|d s IH]; simpl.
  - by rewrite Hc.
  - by destruct (space d).
Qed.

Lemma lstrip_with_idem (s : pystr) :
  lstrip_with space (lstrip_with space s) = lstrip_with space s.
Proof.
  destruct (lstrip_with space s) as [|c t] eqn:E; [done|].
  apply lstrip_with_head. by eapply lstrip_with_head_space.
Qed.

Lemma strip_with_app_spaces (s w : pystr) :
  forallb space w = true -> strip_with space (s ++ w) = strip_with space s.
Proof.
  intros Hw. unfold strip_with. induction s as [|d s IH]; simpl.
  - rewrite <- (app_nil_r w), lstrip_with_spaces by done. done.
  - destruct (space d); [done|].
    change (d :: s ++ w) with ((d :: s) ++ w).
    by apply rstrip_with_app_spaces.
Qed.

Lemma strip_with_rstrip (s : pystr) :
  strip_with space (rstrip_with space s) = strip_with space s.
Proof.
  destruct (rstrip_with_split space s) as (b & Hs & Hb).
  rewrite Hs at 2. by rewrite strip_with_app_spaces.
Qed.

Lemma strip_with_lstrip (s : pystr) :
  strip_with space (lstrip_with space s) = strip_with space s.
Proof. unfold strip_with. by rewrite lstrip_with_idem. Qed.
End StripMore.

Section FenceFacts.

Lemma fence_open_eq : str "```json" = [96; 96; 96; 106; 115; 111; 110]%N.
Proof. reflexivity. Qed.

Lemma fence_close_eq : str "```" = [96; 96; 96]%N.
Proof. reflexivity. Qed.

Lemma n_not_in_fence : 110%N ∉ str "```".
Proof. apply (bool_decide_unpack _). by vm_compute. Qed.

Lemma startswith_app_both (p y r : pystr) :
  startswith (p ++ y) (p ++ r) = startswith y r.
Proof.
  unfold startswith. apply bool_decide_ext.
  rewrite length_app, take_app_add. apply app_inv_head_iff.
Qed.

(** Between white space, a text from a backtick to a backtick is what
    the first [strip] leaves. *)
Lemma strip_backticks (w0 x w3 : pystr) :
  all_space w0 = true -> all_space w3 = true ->
  strip (w0 ++ (96%N :: x ++ [96%N]) ++ w3) = 96%N :: x ++ [96%N].
Proof.
  intros H0 H3.
  apply (strip_with_core isspace w0 _ w3 96%N 96%N); try done.
  change (96%N :: x ++ [96%N]) with ((96%N :: x) ++ [96%N]).
  apply last_snoc.
Qed.

(** Both fences present: both go, whatever lies between them. *)
Lemma strip_fences_fenced (w0 x w3 : pystr) :
  all_space w0 = true -> all_space w3 = true ->
  strip_fences (w0 ++ str "```json" ++ x ++ str "```" ++ w3) = strip x.
Proof.
  intros H0 H3. unfold strip_fences.
  replace (w0 ++ str "```json" ++ x ++ str "```" ++ w3)
    with (w0 ++ (96%N :: (([96; 96; 106; 115; 111; 110]%N ++ x) ++ [96; 96]%N)
                 ++ [96%N]) ++ w3)
    by (rewrite fence_open_eq, fence_close_eq; simpl; by rewrite <- !app_assoc).
  rewrite strip_backticks by done.
  replace (96%N :: (([96; 96; 106; 115; 111; 110]%N ++ x) ++ [96; 96]%N) ++ [96%N])
    with (str "```json" ++ x ++ str "```")
    by (rewrite fence_open_eq, fence_close_eq; simpl; by rewrite <- !app_assoc).
  rewrite startswith_app.
  replace (slice_from 7 (str "```json" ++ x ++ str "```")) with (x ++ str "```")
    by done.
  rewrite endswith_app.
  change 3%nat with (length (str "```")).
  by rewrite slice_to_neg_app.
Qed.

(** No fence: nothing but the surrounding white space goes. *)
Lemma strip_fences_bare (a body b : pystr) (c c' : N) :
  all_space a = true -> all_space b = true ->
  head body = Some c -> last body = Some c' ->
  isspace c = false -> isspace c' = false -> c <> 96%N -> c' <> 96%N ->
  strip_fences (a ++ body ++ b) = body.
Proof.
  intros Ha Hb Hh Hl Hc Hc' Hn Hn'. unfold strip_fences, strip.
  rewrite (strip_with_core isspace a body b c c') by done.
  rewrite (startswith_head body (str "```json") c 96%N) by done.
  rewrite (endswith_last body (str "```") c' 96%N) by done.
  by apply (strip_with_fixed isspace body c c').
Qed.

(** Plain fences: the opening one stays. *)
Lemma strip_fences_plain (w0 inner w3 : pystr) :
  all_space w0 = true -> all_space w3 = true ->
  startswith inner (str "json") = false ->
  strip_fences (w0 ++ str "```" ++ inner ++ str "```" ++ w3)
  = str "```" ++ rstrip inner.
Proof.
  intros H0 H3 Hj. unfold strip_fences.
  replace (w0 ++ str "```" ++ inner ++ str "```" ++ w3)
    with (w0 ++ (96%N :: (([96; 96]%N ++ inner) ++ [96; 96]%N) ++ [96%N]) ++ w3)
    by (rewrite fence_close_eq; simpl; by rewrite <- !app_assoc).
  rewrite strip_backticks by done.
  replace (96%N :: (([96; 96]%N ++ inner) ++ [96; 96]%N) ++ [96%N])
    with (str "```" ++ inner ++ str "```")
    by (rewrite fence_close_eq; simpl; by rewrite <- !app_assoc).
  assert (Hs : startswith (str "```" ++ inner ++ str "```") (str "```json") = false).
  { change (str "```json") with (str "```" ++ str "json").
    rewrite startswith_app_both.
    by rewrite (startswith_app_other inner (str "```") (str "json") 110%N)
      by (done || apply n_not_in_fence). }
  rewrite Hs.
  rewrite (app_assoc (str "```") inner), endswith_app.
  change 3%nat with (length (str "```")).
  rewrite slice_to_neg_app.
  unfold strip, strip_with, rstrip. rewrite fence_close_eq. simpl app.
  rewrite lstrip_with_head by done.
  by rewrite !rstrip_with_cons.
Qed.

(** Only the opening fence: it goes. *)
Lemma strip_fences_open_only (w0 body : pystr) :
  all_space w0 = true ->
  endswith (rstrip body) (str "```") = false ->
  strip_fences (w0 ++ str "```json" ++ body) = strip body.
Proof.
  intros H0 He. unfold strip_fences.
  assert (E : strip (w0 ++ str "```json" ++ body) = str "```json" ++ rstrip body).
  { unfold strip, strip_with, rstrip.
    rewrite lstrip_with_spaces by done.
    rewrite fence_open_eq. simpl app.
    rewrite lstrip_with_head by done.
    by rewrite !rstrip_with_cons. }
  rewrite E, startswith_app.
  replace (slice_from 7 (str "```json" ++ rstrip body)) with (rstrip body) by done.
  rewrite He. apply strip_with_rstrip.
Qed.

(** Only the closing fence: it goes. *)
Lemma strip_fences_close_only (body w3 : pystr) :
  all_space w3 = true ->
  startswith (lstrip body) (str "```json") = false ->
  strip_fences (body ++ str "```" ++ w3) = strip body.
Proof.
  intros H3 Hs. unfold strip_fences.
  assert (E : strip (body ++ str "```" ++ w3) = lstrip body ++ str "```").
  { unfold strip, strip_with, lstrip.
    rewrite fence_close_eq. simpl app.
    rewrite lstrip_with_app_head by done.
    change (lstrip_with isspace body ++ 96%N :: 96%N :: 96%N :: w3)
      with (lstrip_with isspace body ++ [96; 96; 96]%N ++ w3).
    rewrite app_assoc, rstrip_with_app_spaces by done.
    change [96; 96; 96]%N with ([96; 96]%N ++ [96%N]).
    rewrite app_assoc. by apply rstrip_with_snoc. }
  rewrite E.
  rewrite (startswith_app_other (lstrip body) (str "```") (str "```json") 110%N)
    by (done || apply n_not_in_fence).
  rewrite Hs, endswith_app.
  change 3%nat with (length (str "```")).
  rewrite slice_to_neg_app. apply strip_with_lstrip.
Qed.

End FenceFacts.

(** ** How the functions run *)

Section RunFacts.
Variable json_loads : pystr -> outcome pyval.
Variable get_dict : search_params -> outcome pydict.
Variable create : client -> chat_params -> outcome pyval.

Lemma dict_get_set_eq (d : pydict) (k : pystr) (v : pyval) :
  dict_get (dict_set d k v) k = Some v.
Proof.
  induction d as [|[k' v'] d IH]; simpl.
  - by rewrite bool_decide_eq_true_2.
  - destruct (bool_decide (k' = k)) eqn:E; simpl.
    + by rewrite bool_decide_eq_true_2.
    + by rewrite E.
Qed.

Lemma dict_get_set_ne (d : pydict) (k k' : pystr) (v : pyval) :
  k <> k' -> dict_get (dict_set d k v) k' = dict_get d k'.
Proof.
  intros Hne. induction d as [|[k0 v0] d IH]; simpl.
  - by rewrite bool_decide_eq_false_2.
  - destruct (bool_decide (k0 = k)) eqn:E; simpl.
    + apply bool_decide_eq_true in E as ->.
      by rewrite !bool_decide_eq_false_2.
    + by rewrite IH.
Qed.

Lemma dict_get_In (d : pydict) (k : pystr) (v : pyval) :
  dict_get d k = Some v -> In (k, v) d.
Proof.
  induction d as [|[k0 v0] d IH]; simpl; [done|].
  destruct (bool_decide (k0 = k)) eqn:E.
  - apply bool_decide_eq_true in E as ->. intros [= ->]. by left.
  - intros H. right. by apply IH.
Qed.

(** The inner [try] on a reply that is a string. *)
Lemma parse_reply_str (t : pystr) :
  parse_reply json_loads (PStr t) =
  match json_loads (strip_fences t) with
  | Return v => Run (Return v) []
  | Raise e =>
      if is_JSONDecodeError e
      then Run (Return fallback_analysis) [StWarning formatting_warning]
      else Run (Raise e) []
  end.
Proof.
  unfold parse_reply, try_except, lift. simpl.
  destruct (json_loads (strip_fences t)) as [v|e]; simpl; [done|].
  by destruct (is_JSONDecodeError e).
Qed.

(** Lines 137-177, outcome by outcome. *)
Lemma normalize_unfold (text : pyval) (ratings : list pyval) :
  normalize json_loads text ratings =
  let parsed := parse_reply json_loads text in
  match result parsed with
  | Raise e => Run (Raise e) (trace parsed)
  | Return analysis =>
      match count_ratings ratings rating_counts_init with
      | Raise e => Run (Raise e) (trace parsed)
      | Return rating_counts =>
          match rating_distribution rating_counts with
          | Raise e => Run (Raise e) (trace parsed)
          | Return distribution =>
              match py_setitem analysis (str "rating_distribution") distribution with
              | Raise e => Run (Raise e) (trace parsed)
              | Return analysis' =>
                  Run (Return (analysis', PList ratings)) (trace parsed)
              end
          end
      end
  end.
Proof.
  unfold normalize, bind, lift, ret. simpl.
  destruct (result (parse_reply json_loads text)) as [analysis|e]; simpl; [|done].
  destruct (count_ratings ratings rating_counts_init) as [m|e]; simpl;
    [|by rewrite app_nil_r].
  destruct (rating_distribution m) as [dist|e]; simpl; [|by rewrite !app_nil_r].
  destruct (py_setitem analysis (str "rating_distribution") dist) as [a'|e]; simpl;
    by rewrite !app_nil_r.
Qed.

(** The whole function, outcome by outcome. *)
Lemma analyze_unfold (reviews : pyval) (app_name : pystr) (c : client) :
  analyze_reviews_with_openai json_loads create reviews app_name c =
  match py_iter reviews with
  | Raise e => Run (Return (PNone, PNone)) [StError (analysis_error e)]
  | Return items =>
      match collect items ([], []) with
      | Raise e => Run (Return (PNone, PNone)) [StError (analysis_error e)]
      | Return (review_texts, ratings) =>
          if negb (truthy (PList review_texts))
          then Run (Return (PNone, PNone)) []
          else
            match build_prompt review_texts app_name with
            | Raise e => Run (Return (PNone, PNone)) [StError (analysis_error e)]
            | Return prompt =>
                let request := ChatRequest c (chat_request prompt) in
                match create c (chat_request prompt) with
                | Raise e =>
                    Run (Return (PNone, PNone)) [request; StError (analysis_error e)]
                | Return text =>
                    let n := normalize json_loads text ratings in
                    match result n with
                    | Return r => Run (Return r) (request :: trace n)
                    | Raise e =>
                        Run (Return (PNone, PNone))
                            (request :: trace n ++ [StError (analysis_error e)])
                    end
                end
            end
      end
  end.
Proof.
  unfold analyze_reviews_with_openai, analyze_body, try_except, bind, lift, ret,
    chat_completions_create, st_error, emit, Exception.
  destruct (py_iter reviews) as [items|e]; [|done].
  cbn -[collect build_prompt normalize chat_request truthy].
  destruct (collect items ([], [])) as [[review_texts ratings]|e]; [|done].
  cbn -[collect build_prompt normalize chat_request truthy].
  destruct (negb (truthy (PList review_texts))); [done|].
  destruct (build_prompt review_texts app_name) as [prompt|e]; [|done].
  cbn -[collect build_prompt normalize chat_request truthy].
  destruct (create c (chat_request prompt)) as [text|e]; [|done].
  cbn -[collect build_prompt normalize chat_request truthy].
  destruct (result (normalize json_loads text ratings)) as [r|e] eqn:E;
    cbn -[collect build_prompt normalize chat_request truthy]; done.
Qed.

End RunFacts.

(** ** The loops *)

Section LoopFacts.

(** One turn of the loop at lines 88-92 appends the review's text, if it
    has a non-empty one, and its rating, if it has one. *)
Lemma collect_review_spec (review : pyval) (ts rs ts' rs' : list pyval) :
  collect_review review (ts, rs) = Return (ts', rs') ->
  ts' = ts ++ option_list (text_of review) /\
  rs' = rs ++ option_list (field (str "rating") review).
Proof.
  unfold collect_review, text_of, field.
  destruct review as [| | | |s|l|d]; try done; cbn -[str dict_get truthy].
  - destruct (Str.contains s (str "text")); cbn -[str]; [done|].
    destruct (Str.contains s (str "rating")); cbn -[str]; [done|].
    intros [= <- <-]. by rewrite !app_nil_r.
  - destruct (existsb (is_str (str "text")) l); cbn -[str]; [done|].
    destruct (existsb (is_str (str "rating")) l); cbn -[str]; [done|].
    intros [= <- <-]. by rewrite !app_nil_r.
  - unfold dict_has.
    destruct (dict_get d (str "text")) as [t|]; cbn -[str dict_get truthy];
      [destruct (truthy t); cbn -[str dict_get truthy]|];
      (destruct (dict_get d (str "rating")) as [r|]; cbn -[str dict_get truthy];
       intros [= <- <-]; by rewrite ?app_nil_r).
Qed.

Lemma collect_spec (reviews ts rs ts' rs' : list pyval) :
  collect reviews (ts, rs) = Return (ts', rs') ->
  ts' = ts ++ texts_of reviews /\ rs' = rs ++ ratings_of reviews.
Proof.
  revert ts rs. induction reviews as [|review rest IH]; intros ts rs;
    cbn [collect].
  - intros [= <- <-]. by rewrite !app_nil_r.
  - destruct (collect_review review (ts, rs)) as [[ts1 rs1]|e] eqn:E;
      cbn [obind]; [|done].
    apply collect_review_spec in E as [-> ->].
    intros [-> ->]%IH. unfold texts_of, ratings_of. cbn [omap list_omap].
    split; rewrite <- app_assoc; f_equal.
    + by destruct (text_of review).
    + by destruct (field (str "rating") review).
Qed.

(** A review list without texts yields none, whatever else happens. *)
Lemma collect_no_text (reviews ts rs ts' rs' : list pyval) :
  forallb (fun r => negb (has_text r)) reviews = true ->
  collect reviews (ts, rs) = Return (ts', rs') -> ts' = ts.
Proof.
  intros Hno [-> _]%collect_spec.
  assert (texts_of reviews = []) as ->; [|by rewrite app_nil_r].
  induction reviews as [|r rest IH]; [done|].
  simpl in Hno. apply andb_prop in Hno as [Hr Hrest].
  unfold texts_of, has_text in *. simpl.
  destruct (text_of r); [done|]. by apply IH.
Qed.

(** *** Counting, lines 164-167 *)

Lemma is_star_cons (k : Z) (r : pyval) (rs : list pyval) :
  count_of k (r :: rs) = (if is_star k r then 1 else 0) + count_of k rs.
Proof.
  unfold count_of. simpl. destruct (is_star k r); simpl length; lia.
Qed.

(** The loop adds to every counter the number of ratings equal to its key. *)
Lemma count_ratings_spec (ratings : list pyval) (m : gmap Z Z) :
  forallb hashable ratings = true ->
  exists m', count_ratings ratings m = Return m' /\
             forall k, m' !! k = (fun c => c + count_of k ratings) <$> m !! k.
Proof.
  revert m. induction ratings as [|r rest IH]; intros m Hh.
  - exists m. split; [done|]. intros k. unfold count_of. simpl.
    destruct (m !! k); simpl; [f_equal; lia|done].
  - simpl in Hh. apply andb_prop in Hh as [Hr Hrest].
    assert (Hk : counts_key r = Return (as_int r)) by by destruct r.
    simpl. unfold counts_contains, counts_incr. rewrite Hk. simpl.
    destruct (as_int r) as [z|] eqn:Ez; simpl.
    + destruct (m !! z) as [c|] eqn:Emz; simpl.
      * destruct (IH (<[z:=c + 1]> m) Hrest) as (m' & Hm' & Hlook).
        exists m'. split; [done|]. intros k. rewrite Hlook, is_star_cons.
        unfold is_star at 1. rewrite Ez.
        destruct (Z.eqb_spec z k) as [->|Hne].
        -- rewrite lookup_insert_eq, Emz. simpl. f_equal. lia.
        -- rewrite lookup_insert_ne by done.
           destruct (m !! k); simpl; [f_equal; lia|done].
      * destruct (IH m Hrest) as (m' & Hm' & Hlook).
        exists m'. split; [done|]. intros k. rewrite Hlook, is_star_cons.
        unfold is_star at 1. rewrite Ez.
        destruct (Z.eqb_spec z k) as [->|Hne]; [by rewrite Emz|].
        destruct (m !! k); simpl; [f_equal; lia|done].
    + destruct (IH m Hrest) as (m' & Hm' & Hlook).
      exists m'. split; [done|]. intros k. rewrite Hlook, is_star_cons.
      unfold is_star at 1. rewrite Ez.
      destruct (m !! k); simpl; [f_equal; lia|done].
Qed.

(** From all-zero counters the loop and lines 169-175 build the
    histogram of the ratings. *)
Lemma distribution_spec (ratings : list pyval) :
  forallb hashable ratings = true ->
  exists m', count_ratings ratings rating_counts_init = Return m' /\
             rating_distribution m' = Return (histogram ratings).
Proof.
  intros Hh.
  destruct (count_ratings_spec ratings rating_counts_init Hh) as (m' & Hm' & Hlook).
  exists m'. split; [done|].
  unfold rating_distribution, counts_get, histogram.
  rewrite !Hlook. by cbn.
Qed.

(** A rating that cannot be hashed stops the loop with a [TypeError]. *)
Lemma count_ratings_unhashable (ratings : list pyval) (m : gmap Z Z) :
  forallb hashable ratings = false ->
  exists v, hashable v = false /\
            count_ratings ratings m = Raise (TypeError OpHash v).
Proof.
  revert m. induction ratings as [|r rest IH]; intros m Hh; [done|].
  simpl in Hh. destruct (hashable r) eqn:Hr.
  - simpl in Hh. assert (Hk : counts_key r = Return (as_int r)) by by destruct r.
    simpl. unfold counts_contains, counts_incr. rewrite Hk. simpl.
    destruct (as_int r) as [z|]; simpl; [destruct (m !! z); simpl|]; by apply IH.
  - exists r. split; [done|]. simpl. unfold counts_contains.
    by destruct r.
Qed.

(** The five counts add up to the number of ratings in 1..5. *)
Lemma count_of_sum (ratings : list pyval) :
  count_of 1 ratings + count_of 2 ratings + count_of 3 ratings +
  count_of 4 ratings + count_of 5 ratings
  = Z.of_nat (length (List.filter in_1_to_5 ratings)).
Proof.
  induction ratings as [|r rest IH]; [done|].
  rewrite !is_star_cons. simpl List.filter.
  unfold is_star, in_1_to_5 in *.
  destruct (as_int r) as [z|]; [|lia].
  destruct (Z.eqb_spec z 1), (Z.eqb_spec z 2), (Z.eqb_spec z 3),
    (Z.eqb_spec z 4), (Z.eqb_spec z 5), (Z.leb_spec 1 z), (Z.leb_spec z 5);
    simpl; simpl length; lia.
Qed.

End LoopFacts.

Section PromptFacts.

Lemma join_items_spec (items : list pyval) (i : nat) (ss : list pystr) :
  join_items i items = Return ss -> items = map PStr ss.
Proof.
  revert i ss. induction items as [|v rest IH]; intros i ss; simpl.
  - by intros [= <-].
  - destruct v; try done.
    destruct (join_items (S i) rest) as [ss'|e] eqn:E; simpl; [|done].
    intros [= <-]. simpl. f_equal. by eapply IH.
Qed.

(** The prompt is the template around the joined texts of the first 50
    entries of [review_texts], all of which are strings. *)
Lemma build_prompt_spec (review_texts : list pyval) (app_name prompt : pystr) :
  build_prompt review_texts app_name = Return prompt ->
  exists ss, take 50 review_texts = map PStr ss /\
             prompt = join nl (prompt_lines (length review_texts) app_name
                                 (join (str " ") ss)).
Proof.
  unfold build_prompt, py_join.
  destruct (join_items 0 (take 50 review_texts)) as [ss|e] eqn:E; simpl; [|done].
  intros [= <-]. exists ss. split; [|done]. by eapply join_items_spec.
Qed.

Lemma contains_unfold (s p : pystr) :
  contains s p =
  startswith s p || match s with [] => false | _ :: s' => contains s' p end.
Proof. by destruct s. Qed.

Lemma contains_intro (s a p b : pystr) : s = a ++ p ++ b -> contains s p = true.
Proof.
  intros ->. induction a as [|c a IH].
  - rewrite contains_unfold. cbn [app]. by rewrite startswith_app.
  - rewrite contains_unfold. cbn [app]. rewrite IH. apply orb_true_r.
Qed.

(** The template places the count, the subject and the joined texts. *)
Lemma prompt_shape (n : nat) (app_name joined : pystr) :
  exists a b c d,
    join nl (prompt_lines n app_name joined)
    = a ++ of_nat n ++ b ++ app_name ++ c ++ joined ++ d.
Proof.
  exists (nl ++ str "        Analyze the following "),
         (str " Apple App Store reviews for "),
         (str "." ++ nl ++ str "        " ++ nl ++ str "        Reviews:" ++ nl ++
          str "        ").
  eexists. unfold prompt_lines. cbn [join app].
  rewrite <- !app_assoc. reflexivity.
Qed.

Lemma prompt_contains (n : nat) (app_name joined : pystr) :
  let prompt := join nl (prompt_lines n app_name joined) in
  contains prompt (of_nat n) = true /\
  contains prompt app_name = true /\
  contains prompt joined = true.
Proof.
  destruct (prompt_shape n app_name joined) as (a & b & c & d & E).
  cbn zeta. rewrite E. repeat split.
  - by eapply contains_intro.
  - apply (contains_intro _ (a ++ of_nat n ++ b) _ (c ++ joined ++ d)).
    by rewrite <- !app_assoc.
  - apply (contains_intro _ (a ++ of_nat n ++ b ++ app_name ++ c) _ d).
    by rewrite <- !app_assoc.
Qed.

End PromptFacts.

Section DecoderFacts.
Variable table : list (pystr * pyval).
Hypothesis table_keys : forallb (fun kv => delimited (fst kv)) table = true.

Lemma table_key_delimited (k : pystr) (v : pyval) :
  dict_get table k = Some v -> delimited k = true.
Proof.
  intros Hin%dict_get_In.
  rewrite forallb_forall in table_keys. by apply (table_keys (k, v)).
Qed.

Lemma table_loads_decodes : decodes_json_texts (table_loads table).
Proof.
  intros s v. unfold table_loads at 1.
  destruct (dict_get table (strip_with json_ws s)) as [v'|] eqn:E; [|done].
  intros [= ->].
  destruct (strip_with_split json_ws s) as (a & b & Hs & Ha & Hb).
  exists a, (strip_with json_ws s), b.
  pose proof (table_key_delimited _ _ E) as Hd.
  repeat split; try done.
  destruct (delimited_ends _ Hd) as (c & c' & Hh & Hl & Hc & Hc').
  apply plain_spec in Hc as (_ & Hc & _).
  apply plain_spec in Hc' as (_ & Hc' & _).
  unfold table_loads.
  by rewrite (strip_with_fixed json_ws _ c c'), E.
Qed.

Lemma table_loads_refuses : refuses_backtick (table_loads table).
Proof.
  intros s. exists (str "Expecting value"). unfold table_loads.
  destruct (dict_get table (strip_with json_ws (96%N :: s))) as [v|] eqn:E; [|done].
  apply table_key_delimited, delimited_ends in E as (c0 & _ & Hh & _ & Hc0 & _).
  unfold strip_with in Hh. rewrite lstrip_with_head, rstrip_with_cons in Hh by done.
  simpl in Hh. injection Hh as <-. done.
Qed.
End DecoderFacts.

Section FetchFacts.
Variable json_loads : pystr -> outcome pyval.
Variable get_dict : search_params -> outcome pydict.
Variable create : client -> chat_params -> outcome pyval.
Variable getenv : pystr -> option pystr.

(** [fetch_app_store_reviews], outcome by outcome. *)
Lemma fetch_unfold (app_id : pystr) (api_key : pyval) (max_reviews : Z) :
  let request := search_request app_id api_key max_reviews in
  fetch_app_store_reviews get_dict app_id api_key max_reviews =
  match get_dict request with
  | Raise e =>
      Run (Return (PList [])) [SearchRequest request; StError (fetch_error e)]
  | Return results =>
      match dict_get results (str "reviews") with
      | None =>
          Run (Return (PList []))
              [SearchRequest request; StError (no_reviews_error app_id)]
      | Some reviews => Run (Return reviews) [SearchRequest request]
      end
  end.
Proof.
  unfold fetch_app_store_reviews, try_except, bind, search_get_dict, lift, ret,
    st_error, emit, Exception, dict_has.
  cbn -[str search_request dict_get].
  destruct (get_dict (search_request app_id api_key max_reviews)) as [results|e];
    cbn -[str search_request dict_get]; [|done].
  by destruct (dict_get results (str "reviews")); cbn -[str search_request dict_get].
Qed.

Lemma fetch_no_chat (app_id : pystr) (api_key : pyval) (max_reviews : Z) :
  forallb (fun ev => negb (is_chat ev))
    (trace (fetch_app_store_reviews get_dict app_id api_key max_reviews)) = true.
Proof.
  rewrite fetch_unfold. cbn zeta.
  destruct (get_dict _) as [results|e]; [|done].
  by destruct (dict_get results _).
Qed.

(** [fetch_app_store_reviews] and [analyze_reviews_with_openai] catch
    every exception. *)
Lemma fetch_returns (app_id : pystr) (api_key : pyval) (max_reviews : Z) :
  exists v,
    result (fetch_app_store_reviews get_dict app_id api_key max_reviews) = Return v.
Proof.
  rewrite fetch_unfold. cbn zeta.
  destruct (get_dict _) as [results|e]; [|by eexists].
  destruct (dict_get results _); by eexists.
Qed.

Lemma analyze_returns (reviews : pyval) (app_name : pystr) (c : client) :
  exists r,
    result (analyze_reviews_with_openai json_loads create reviews app_name c)
    = Return r.
Proof.
  rewrite analyze_unfold.
  destruct (py_iter reviews) as [items|e]; [|by eexists].
  destruct (collect items ([], [])) as [[ts rs]|e]; [|by eexists].
  destruct (negb (truthy (PList ts))); [by eexists|].
  destruct (build_prompt ts app_name) as [prompt|e]; [|by eexists].
  cbn zeta. destruct (create c (chat_request prompt)) as [text|e]; [|by eexists].
  destruct (result (normalize json_loads text rs)); by eexists.
Qed.

End FetchFacts.

Section BindFacts.
Context {A B : Type}.

Lemma bind_return (m : M A) (a : A) (k : A -> M B) :
  result m = Return a -> bind m k = Run (result (k a)) (trace m ++ trace (k a)).
Proof. unfold bind. by intros ->. Qed.

Lemma bind_raise (m : M A) (e : pyexc) (k : A -> M B) :
  result m = Raise e -> bind m k = Run (Raise e) (trace m).
Proof. unfold bind. by intros ->. Qed.
End BindFacts.

Section MainFacts.
Variable json_loads : pystr -> outcome pyval.
Variable get_dict : search_params -> outcome pydict.
Variable create : client -> chat_params -> outcome pyval.
Variable getenv : pystr -> option pystr.

(** [main], outcome by outcome. *)
Lemma main_unfold (ui : sidebar) :
  main json_loads get_dict create getenv ui =
  let openai_api_key :=
    resolve_key getenv (PStr (openai_api_key_input ui)) (str "OPENAI_API_KEY") in
  let serpapi_key :=
    resolve_key getenv (PStr (serpapi_key_input ui)) (str "SERPAPI_KEY") in
  if negb (truthy openai_api_key) || negb (truthy serpapi_key) then
    Run (Return tt) [StWarning missing_keys_warning]
  else if run_analysis ui then
    let f := fetch_app_store_reviews get_dict (str "1113153706") serpapi_key 25 in
    match result f with
    | Raise e => Run (Raise e) (trace f)
    | Return teams_reviews =>
        if negb (truthy teams_reviews) then
          Run (Return tt) (trace f ++ [StError fetch_failed_error])
        else
          let a := analyze_reviews_with_openai json_loads create teams_reviews
                     (str "Microsoft Teams") (OpenAI openai_api_key) in
          match result a with
          | Raise e => Run (Raise e) (trace f ++ trace a)
          | Return (teams_analysis, teams_ratings) =>
              if negb (truthy teams_analysis) then
                Run (Return tt) (trace f ++ trace a ++ [StError analysis_failed_error])
              else
                match py_len teams_reviews with
                | Raise e => Run (Raise e) (trace f ++ trace a)
                | Return n =>
                    Run (Return tt)
                        (trace f ++ trace a ++
                         [StSuccess (analysis_complete n);
                          Render teams_analysis teams_ratings teams_reviews])
                end
          end
    end
  else Run (Return tt) [].
Proof.
  unfold main. cbn zeta.
  destruct (negb (truthy _) || negb (truthy _)); [done|].
  destruct (run_analysis ui); [|done].
  destruct (result (fetch_app_store_reviews _ _ _ _)) as [teams_reviews|e] eqn:Ef;
    [|by rewrite (bind_raise _ _ _ Ef)].
  rewrite (bind_return _ _ _ Ef).
  destruct (negb (truthy teams_reviews)); [done|].
  destruct (result (analyze_reviews_with_openai _ _ _ _ _))
    as [[teams_analysis teams_ratings]|e] eqn:Ea;
    [|by rewrite (bind_raise _ _ _ Ea)].
  rewrite (bind_return _ _ _ Ea).
  destruct (negb (truthy teams_analysis)); [done|].
  unfold lift. destruct (py_len teams_reviews) as [n|e].
  - rewrite (bind_return _ n) by done. cbn. done.
  - rewrite (bind_raise _ e) by done. cbn. by rewrite app_nil_r.
Qed.

End MainFacts.

(** ** The rating histogram *)

Section Histogram.

Lemma rating_counts_init_lookup (k : Z) :
  rating_counts_init !! k = if (1 <=? k) && (k <=? 5) then Some 0 else None.
Proof.
  unfold rating_counts_init.
  destruct (decide (k = 1)) as [->|]; [done|].
  destruct (decide (k = 2)) as [->|]; [done|].
  destruct (decide (k = 3)) as [->|]; [done|].
  destruct (decide (k = 4)) as [->|]; [done|].
  destruct (decide (k = 5)) as [->|]; [done|].
  rewrite !lookup_insert_ne, lookup_singleton_ne by done.
  destruct (Z.leb_spec 1 k), (Z.leb_spec k 5); simpl; try done. lia.
Qed.

Lemma hashable_filter (f : pyval -> bool) (ratings : list pyval) :
  forallb hashable ratings = true ->
  forallb hashable (List.filter f ratings) = true.
Proof.
  rewrite !forallb_forall. intros H r [Hr _]%filter_In. by apply H.
Qed.

(** Dropping the ratings outside 1..5 changes no count of a key in 1..5. *)
Lemma count_of_filter (k : Z) (ratings : list pyval) :
  1 <= k <= 5 ->
  count_of k (List.filter in_1_to_5 ratings) = count_of k ratings.
Proof.
  intros Hk. induction ratings as [|r rest IH]; [done|].
  simpl List.filter. rewrite is_star_cons.
  destruct (in_1_to_5 r) eqn:Hr; [by rewrite is_star_cons, IH|].
  rewrite IH. unfold is_star, in_1_to_5 in *.
  destruct (as_int r) as [z|]; [|done].
  destruct (Z.eqb_spec z k) as [->|]; [|done].
  destruct (Z.leb_spec 1 k), (Z.leb_spec k 5); simpl in Hr; try done; lia.
Qed.

End Histogram.

(** For every list of ratings that can be looked up in [rating_counts]
    ([None], booleans, integers, floats, strings), the counting loop ends
    without an exception, the five counts it yields add up to the number of
    ratings equal to one of 1..5, and the loop yields the same counters
    with the other ratings left out of the list. *)
Lemma count_ratings_hashable (ratings : list pyval) :
  forallb hashable ratings = true ->
  exists rating_counts,
    count_ratings ratings rating_counts_init = Return rating_counts /\
    rating_distribution rating_counts = Return (histogram ratings) /\
    count_of 1 ratings + count_of 2 ratings + count_of 3 ratings +
    count_of 4 ratings + count_of 5 ratings
    = Z.of_nat (length (List.filter in_1_to_5 ratings)) /\
    count_ratings (List.filter in_1_to_5 ratings) rating_counts_init
    = Return rating_counts.
Proof.
  intros Hh.
  destruct (count_ratings_spec ratings rating_counts_init Hh) as (m & Hm & Hlook).
  destruct (distribution_spec ratings Hh) as (m1 & Hm1 & Hdist).
  assert (m1 = m) as -> by congruence.
  exists m. repeat split; try done; [apply count_of_sum|].
  destruct (count_ratings_spec _ rating_counts_init
              (hashable_filter in_1_to_5 ratings Hh)) as (m2 & Hm2 & Hlook2).
  rewrite Hm2. f_equal. apply map_eq. intros k.
  rewrite Hlook, Hlook2, rating_counts_init_lookup.
  destruct (Z.leb_spec 1 k), (Z.leb_spec k 5); simpl; try done.
  by rewrite count_of_filter by lia.
Qed.

Lemma count_of_ints (k : Z) (ratings : list Z) :
  count_of k (map PInt ratings) = occurrences k ratings.
Proof.
  unfold occurrences. induction ratings as [|z zs IH]; [done|].
  cbn [map]. rewrite is_star_cons, IH. unfold is_star. cbn [as_int count_occ].
  destruct (Z.eq_dec z k), (Z.eqb_spec z k); try done; lia.
Qed.

Lemma filter_ints (ratings : list Z) :
  List.filter in_1_to_5 (map PInt ratings) = map PInt (List.filter in_range ratings).
Proof.
  induction ratings as [|z zs IH]; [done|].
  cbn [map List.filter]. change (in_1_to_5 (PInt z)) with (in_range z).
  destruct (in_range z); cbn [map]; by rewrite IH.
Qed.

Lemma hashable_ints (ratings : list Z) : forallb hashable (map PInt ratings) = true.
Proof. by induction ratings. Qed.

(** C2. For every list of ratings, the recomputed counts [1_star] to
    [5_star] are the numbers of occurrences of 1 to 5 in the list and add
    up to the number of ratings whose value is in {1,2,3,4,5}; the loop
    raises nothing, and a rating outside that set takes part in no count:
    the loop ends with the same counters when those ratings are left out of
    the list.  Ratings are integers, as in the data model;
    [count_ratings_hashable] has the same for every value that can be a
    dict key. *)
Theorem C2_counts_sum_to_ratings_in_range (ratings : list Z) :
  exists rating_counts,
    count_ratings (map PInt ratings) rating_counts_init = Return rating_counts /\
    rating_distribution rating_counts
    = Return (PDict [ (str "1_star", PInt (occurrences 1 ratings));
                      (str "2_star", PInt (occurrences 2 ratings));
                      (str "3_star", PInt (occurrences 3 ratings));
                      (str "4_star", PInt (occurrences 4 ratings));
                      (str "5_star", PInt (occurrences 5 ratings)) ]) /\
    occurrences 1 ratings + occurrences 2 ratings + occurrences 3 ratings +
    occurrences 4 ratings + occurrences 5 ratings
    = Z.of_nat (length (List.filter in_range ratings)) /\
    count_ratings (map PInt (List.filter in_range ratings)) rating_counts_init
    = Return rating_counts.
Proof.
  destruct (count_ratings_hashable (map PInt ratings) (hashable_ints ratings))
    as (m & Hm & Hdist & Hsum & Hskip).
  exists m. unfold histogram in Hdist.
  rewrite !count_of_ints in Hdist, Hsum. rewrite filter_ints in Hsum, Hskip.
  by rewrite length_map in Hsum.
Qed.

(** The counts of a concrete list: two fives, one two, three ratings
    outside 1..5 that no counter saw. *)
Example histogram_example :
  (let? m := count_ratings [PInt 5; PInt 0; PInt 2; PNone; PInt 7; PInt 5]
               rating_counts_init in rating_distribution m)
  = Return (PDict [ (str "1_star", PInt 0); (str "2_star", PInt 1);
                    (str "3_star", PInt 0); (str "4_star", PInt 0);
                    (str "5_star", PInt 2) ]).
Proof. by vm_compute. Qed.

(** [True] and [5.0] are equal to the keys 1 and 5 and are counted there. *)
Example histogram_equal_keys :
  (let? m := count_ratings
               [PBool true; PFloat (S754_finite false 5 0); PStr (str "5")]
               rating_counts_init in rating_distribution m)
  = Return (PDict [ (str "1_star", PInt 1); (str "2_star", PInt 0);
                    (str "3_star", PInt 0); (str "4_star", PInt 0);
                    (str "5_star", PInt 1) ]).
Proof. by vm_compute. Qed.

(** A rating that is a list cannot be looked up: line 166 raises. *)
Example histogram_unhashable :
  count_ratings [PInt 5; PList [PInt 1]] rating_counts_init
  = Raise (TypeError OpHash (PList [PInt 1])).
Proof. by vm_compute. Qed.

(** ** The normalizer *)

Section Normalizer.
Variable json_loads : pystr -> outcome pyval.

(** When lines 137-177 return, they return the parsed or substituted
    object with the histogram of the ratings in it. *)
Lemma normalize_returns (text : pyval) (ratings : list pyval) (r : pyval * pyval) :
  result (normalize json_loads text ratings) = Return r ->
  exists d0,
    result (parse_reply json_loads text) = Return (PDict d0) /\
    r = (with_histogram (PDict d0) ratings, PList ratings).
Proof.
  rewrite normalize_unfold. cbn zeta.
  destruct (result (parse_reply json_loads text)) as [analysis|e]; [|done].
  destruct (forallb hashable ratings) eqn:Hh.
  - destruct (distribution_spec ratings Hh) as (m & -> & ->).
    destruct analysis as [| | | | | |d0]; try done.
    cbn -[str]. intros [= <-]. by exists d0.
  - by destruct (count_ratings_unhashable ratings rating_counts_init Hh)
      as (v & _ & ->).
Qed.

(** With ratings that can be counted, lines 137-177 fail only where the
    parsing or the assignment does. *)
Lemma normalize_hashable (text : pyval) (ratings : list pyval) :
  forallb hashable ratings = true ->
  normalize json_loads text ratings =
  let parsed := parse_reply json_loads text in
  match result parsed with
  | Raise e => Run (Raise e) (trace parsed)
  | Return (PDict d) =>
      Run (Return (with_histogram (PDict d) ratings, PList ratings)) (trace parsed)
  | Return v => Run (Raise (TypeError OpSetItem v)) (trace parsed)
  end.
Proof.
  intros Hh. rewrite normalize_unfold. cbn zeta.
  destruct (result (parse_reply json_loads text)) as [analysis|e]; [|done].
  destruct (distribution_spec ratings Hh) as (m & -> & ->).
  by destruct analysis.
Qed.

End Normalizer.

(** A returned analysis comes out of lines 137-177, run on the reply to the
    one request and on the ratings of the fetched reviews. *)
Lemma analyze_returns_normalized
    (json_loads : pystr -> outcome pyval)
    (create : client -> chat_params -> outcome pyval)
    (reviews : pyval) (app_name : pystr) (c : client)
    (analysis ratings : pyval) :
  result (analyze_reviews_with_openai json_loads create reviews app_name c)
  = Return (analysis, ratings) ->
  analysis <> PNone ->
  exists items prompt reply,
    py_iter reviews = Return items /\
    create c (chat_request prompt) = Return reply /\
    result (normalize json_loads reply (ratings_of items))
    = Return (analysis, ratings).
Proof.
  rewrite analyze_unfold. intros Hrun Hsome.
  destruct (py_iter reviews) as [items|e]; [|by injection Hrun as <- _].
  destruct (collect items ([], [])) as [[ts rs]|e] eqn:Ec; [|by injection Hrun as <- _].
  apply collect_spec in Ec as [_ Hrs]. simpl in Hrs. subst rs.
  destruct (negb (truthy (PList ts))); [by injection Hrun as <- _|].
  destruct (build_prompt ts app_name) as [prompt|e]; [|by injection Hrun as <- _].
  cbn zeta in Hrun.
  destruct (create c (chat_request prompt)) as [reply|e] eqn:Er;
    [|by injection Hrun as <- _].
  destruct (result (normalize json_loads reply (ratings_of items))) as [r|e] eqn:En;
    [|by injection Hrun as <- _].
  injection Hrun as ->. by exists items, prompt, reply.
Qed.

(** C1. Whenever [analyze_reviews_with_openai] returns an analysis that is
    not [None], the [rating_distribution] field of that analysis is the
    histogram of the ratings of the fetched reviews, for every reply of the
    text-generation service and every behaviour of the decoder: the object
    that was decoded from the reply, or the fallback object substituted for
    it, is returned with that one field overwritten. *)
Theorem C1_rating_distribution_recomputed
    (json_loads : pystr -> outcome pyval)
    (create : client -> chat_params -> outcome pyval)
    (reviews : pyval) (app_name : pystr) (c : client)
    (analysis ratings : pyval) :
  result (analyze_reviews_with_openai json_loads create reviews app_name c)
  = Return (analysis, ratings) ->
  analysis <> PNone ->
  exists items,
    py_iter reviews = Return items /\
    ratings = PList (ratings_of items) /\
    field (str "rating_distribution") analysis = Some (histogram (ratings_of items)) /\
    exists prompt reply d0,
      create c (chat_request prompt) = Return reply /\
      result (parse_reply json_loads reply) = Return (PDict d0) /\
      analysis = with_histogram (PDict d0) (ratings_of items) /\
      forall k, k <> str "rating_distribution" -> field k analysis = dict_get d0 k.
Proof.
  intros Hrun Hsome.
  destruct (analyze_returns_normalized _ _ _ _ _ _ _ Hrun Hsome)
    as (items & prompt & reply & Hiter & Hreply & Hnorm).
  apply normalize_returns in Hnorm as (d0 & Hparse & [= -> ->]).
  exists items. split; [done|]. split; [done|]. split.
  - cbn -[str histogram]. apply dict_get_set_eq.
  - exists prompt, reply, d0. do 3 (split; [done|]).
    intros k Hk. cbn -[str histogram]. by apply dict_get_set_ne.
Qed.

Lemma C1_witness :
  let run := analyze_reviews_with_openai json_loads_sample (replies fenced_reply)
               (PList scenario_reviews) (str "Microsoft Teams") sample_client in
  let analysis :=
    PDict [ (str "overall_sentiment", PStr (str "positive"));
            (str "rating_distribution", scenario_distribution) ] in
  result run = Return (analysis, PList scenario_ratings) /\
  field (str "rating_distribution") reply_object
  = Some (PDict [(str "5_star", PInt 40)]) /\
  exists items,
    py_iter (PList scenario_reviews) = Return items /\
    PList scenario_ratings = PList (ratings_of items) /\
    field (str "rating_distribution") analysis = Some (histogram (ratings_of items)) /\
    exists prompt reply d0,
      replies fenced_reply sample_client (chat_request prompt) = Return reply /\
      result (parse_reply json_loads_sample reply) = Return (PDict d0) /\
      analysis = with_histogram (PDict d0) (ratings_of items) /\
      forall k, k <> str "rating_distribution" -> field k analysis = dict_get d0 k.
Proof.
  cbn zeta. split; [by vm_compute|]. split; [by vm_compute|].
  apply (C1_rating_distribution_recomputed json_loads_sample (replies fenced_reply)
           (PList scenario_reviews) (str "Microsoft Teams") sample_client).
  - by vm_compute.
  - discriminate.
Defined.

(** C3. For every reply whose text, after the fences are stripped, the
    decoder refuses with a [JSONDecodeError], the inner [try] returns
    instead of raising: it yields the fixed fallback object, whose
    [overall_sentiment] is "neutral", whose [sentiment_score] is 0.5 and
    whose list fields hold fixed placeholder strings, and it shows one
    warning.  When the ratings can be counted, lines 137-177 as a whole
    return that object with the histogram written into it. *)
Theorem C3_fallback_on_decode_error
    (json_loads : pystr -> outcome pyval) (reply detail : pystr) :
  json_loads (strip_fences reply) = Raise (JSONDecodeError detail) ->
  parse_reply json_loads (PStr reply)
  = Run (Return fallback_analysis) [StWarning formatting_warning] /\
  field (str "overall_sentiment") fallback_analysis = Some (PStr (str "neutral")) /\
  field (str "sentiment_score") fallback_analysis = Some (PFloat float_0_5) /\
  field (str "key_themes") fallback_analysis
  = Some (PList [PStr (str "User feedback analysis completed")]) /\
  field (str "common_issues") fallback_analysis
  = Some (PList [PStr (str "Review analysis available")]) /\
  field (str "strengths") fallback_analysis
  = Some (PList [PStr (str "User insights gathered")]) /\
  field (str "feature_requests") fallback_analysis
  = Some (PList [PStr (str "User feedback processed")]) /\
  forall ratings, forallb hashable ratings = true ->
    normalize json_loads (PStr reply) ratings
    = Run (Return (with_histogram fallback_analysis ratings, PList ratings))
          [StWarning formatting_warning].
Proof.
  intros Hdec.
  assert (Hp : parse_reply json_loads (PStr reply)
               = Run (Return fallback_analysis) [StWarning formatting_warning])
    by by rewrite parse_reply_str, Hdec.
  repeat split; try done.
  intros ratings Hh. by rewrite normalize_hashable, Hp.
Qed.

Lemma C3_witness :
  json_loads_sample (strip_fences truncated_reply)
  = Raise (JSONDecodeError (str "Expecting value")) /\
  parse_reply json_loads_sample (PStr truncated_reply)
  = Run (Return fallback_analysis) [StWarning formatting_warning].
Proof.
  split; [by vm_compute|].
  apply (C3_fallback_on_decode_error json_loads_sample truncated_reply
           (str "Expecting value")).
  by vm_compute.
Defined.

(** [float_0_5] is one half: twice it is [1.0], in binary64 arithmetic. *)
Example float_0_5_doubled :
  SFadd 53 1024 float_0_5 float_0_5 = S754_finite false 4503599627370496 (-52) /\
  float_as_int (S754_finite false 4503599627370496 (-52)) = Some 1.
Proof. by vm_compute. Qed.

(** ** Code fences *)

Lemma json_table_keys :
  forallb (fun kv => delimited (fst kv)) json_table = true.
Proof. by vm_compute. Qed.

(** C4. For every text [J] that the decoder accepts, the reply that wraps
    [J] in a leading [```json] and a trailing [```] (with any white space
    around the fences and around [J]) is parsed by the inner [try] exactly
    as the reply [J] itself is, and both yield the object that decoding [J]
    directly yields.  The decoder is any function that, like [json.loads],
    accepts a value between runs of JSON white space and decodes it to the
    same object without them ([decodes_json_texts]). *)
Theorem C4_fenced_reply_parses_like_bare
    (json_loads : pystr -> outcome pyval)
    (J w0 w1 w2 w3 : pystr) (v : pyval) :
  decodes_json_texts json_loads ->
  all_space w0 = true -> all_space w1 = true ->
  all_space w2 = true -> all_space w3 = true ->
  json_loads J = Return v ->
  parse_reply json_loads
    (PStr (w0 ++ str "```json" ++ w1 ++ J ++ w2 ++ str "```" ++ w3))
  = parse_reply json_loads (PStr J) /\
  parse_reply json_loads (PStr J) = Run (Return v) [] /\
  strip_fences (w0 ++ str "```json" ++ w1 ++ J ++ w2 ++ str "```" ++ w3)
  = strip_fences J.
Proof.
  intros Hjson H0 H1 H2 H3 HJ.
  destruct (Hjson J v HJ) as (a & body & b & -> & Ha & Hb & Hd & Hbody).
  destruct (delimited_ends body Hd) as (c & c' & Hh & Hl & Hc & Hc').
  apply plain_spec in Hc as (Hc & _ & Hn).
  apply plain_spec in Hc' as (Hc' & _ & Hn').
  apply json_ws_all_space in Ha, Hb.
  assert (Hbare : strip_fences (a ++ body ++ b) = body)
    by by apply (strip_fences_bare a body b c c').
  assert (Hfenced :
            strip_fences (w0 ++ str "```json" ++ w1 ++ (a ++ body ++ b) ++ w2 ++
                          str "```" ++ w3) = body).
  { replace (w0 ++ str "```json" ++ w1 ++ (a ++ body ++ b) ++ w2 ++ str "```" ++ w3)
      with (w0 ++ str "```json" ++ ((w1 ++ a) ++ body ++ (b ++ w2)) ++ str "```" ++ w3)
      by by rewrite <- !app_assoc.
    rewrite strip_fences_fenced by done.
    apply (strip_with_core isspace (w1 ++ a) body (b ++ w2) c c'); try done;
      unfold all_space in *; rewrite forallb_app; by apply andb_true_intro. }
  rewrite !parse_reply_str, Hfenced, Hbare, Hbody. done.
Qed.

Lemma C4_witness :
  parse_reply json_loads_sample (PStr fenced_reply)
  = parse_reply json_loads_sample (PStr reply_json) /\
  parse_reply json_loads_sample (PStr reply_json) = Run (Return reply_object) [] /\
  strip_fences fenced_reply = strip_fences reply_json.
Proof.
  apply (C4_fenced_reply_parses_like_bare json_loads_sample reply_json
           [] nl nl [] reply_object).
  - apply table_loads_decodes, json_table_keys.
  - reflexivity.
  - reflexivity.
  - reflexivity.
  - reflexivity.
  - by vm_compute.
Defined.

(** C9. The fence stripping removes the seven characters [```json] from
    the front and, independently, the three characters [```] from the
    back, and nothing else but white space.  A reply between plain [```]
    fences, without the language tag, keeps its opening fence; the decoder
    refuses a text that starts with a backtick, so the fallback object is
    used.  A reply with only the opening fence, or only the closing one,
    has that fence removed.  The decoder is any function that, like
    [json.loads], raises [JSONDecodeError] on a text that starts with a
    backtick ([refuses_backtick]). *)
Theorem C9_fence_stripping_is_exact (json_loads : pystr -> outcome pyval) :
  refuses_backtick json_loads ->
  (forall w0 inner w3,
      all_space w0 = true -> all_space w3 = true ->
      startswith inner (str "json") = false ->
      strip_fences (w0 ++ str "```" ++ inner ++ str "```" ++ w3)
      = str "```" ++ rstrip inner /\
      parse_reply json_loads (PStr (w0 ++ str "```" ++ inner ++ str "```" ++ w3))
      = Run (Return fallback_analysis) [StWarning formatting_warning]) /\
  (forall w0 body,
      all_space w0 = true -> endswith (rstrip body) (str "```") = false ->
      strip_fences (w0 ++ str "```json" ++ body) = strip body) /\
  (forall body w3,
      all_space w3 = true -> startswith (lstrip body) (str "```json") = false ->
      strip_fences (body ++ str "```" ++ w3) = strip body).
Proof.
  intros Hjson. repeat split.
  - by apply strip_fences_plain.
  - rewrite parse_reply_str, strip_fences_plain by done.
    rewrite fence_close_eq. simpl app.
    by destruct (Hjson (96%N :: 96%N :: rstrip inner)) as [detail ->].
  - intros. by apply strip_fences_open_only.
  - intros. by apply strip_fences_close_only.
Qed.

Lemma C9_witness :
  (strip_fences plain_fenced_reply = str "```" ++ rstrip (nl ++ reply_json ++ nl) /\
   parse_reply json_loads_sample (PStr plain_fenced_reply)
   = Run (Return fallback_analysis) [StWarning formatting_warning]) /\
  strip_fences (str "```json" ++ nl ++ reply_json) = strip (nl ++ reply_json) /\
  strip_fences (reply_json ++ nl ++ str "```") = strip (reply_json ++ nl).
Proof.
  destruct (C9_fence_stripping_is_exact json_loads_sample
              (table_loads_refuses json_table json_table_keys))
    as (Hplain & Hopen & Hclose).
  split; [|split].
  - exact (Hplain [] (nl ++ reply_json ++ nl) [] eq_refl eq_refl eq_refl).
  - exact (Hopen [] (nl ++ reply_json) eq_refl eq_refl).
  - exact (Hclose (reply_json ++ nl) [] eq_refl eq_refl).
Defined.

(** Fenced replies run through lines 140-145; an upper-case language tag
    is no [```json]. *)
Example fences_examples :
  strip_fences (str "```json" ++ nl ++ str "{}" ++ nl ++ str "```") = str "{}" /\
  strip_fences (str "```" ++ nl ++ str "{}" ++ nl ++ str "```")
  = str "```" ++ nl ++ str "{}" /\
  strip_fences (str "```json" ++ nl ++ str "{}") = str "{}" /\
  strip_fences (str "{}" ++ nl ++ str "```") = str "{}" /\
  strip_fences (str "```JSON" ++ nl ++ str "{}" ++ nl ++ str "```")
  = str "```JSON" ++ nl ++ str "{}".
Proof. by vm_compute. Qed.

(** ** Failures that halt the run *)

(** C5. When the search service's response has no [reviews] key, and when
    the request raises, [fetch_app_store_reviews] returns the empty list
    and reports the failure with [st.error]; it raises nothing.  Whenever
    the fetch in [main] returns an empty (falsy) result, [main] ends with
    the error "Failed to fetch Teams reviews..." and the run contains no
    request to the text-generation service and no rendering. *)
Theorem C5_failed_fetch_is_empty_and_halts
    (json_loads : pystr -> outcome pyval)
    (get_dict : search_params -> outcome pydict)
    (create : client -> chat_params -> outcome pyval)
    (getenv : pystr -> option pystr) :
  (forall app_id api_key max_reviews results,
      get_dict (search_request app_id api_key max_reviews) = Return results ->
      dict_get results (str "reviews") = None ->
      fetch_app_store_reviews get_dict app_id api_key max_reviews
      = Run (Return (PList []))
            [SearchRequest (search_request app_id api_key max_reviews);
             StError (no_reviews_error app_id)]) /\
  (forall app_id api_key max_reviews e,
      get_dict (search_request app_id api_key max_reviews) = Raise e ->
      fetch_app_store_reviews get_dict app_id api_key max_reviews
      = Run (Return (PList []))
            [SearchRequest (search_request app_id api_key max_reviews);
             StError (fetch_error e)]) /\
  (forall ui teams_reviews,
      let fetched :=
        fetch_app_store_reviews get_dict (str "1113153706")
          (resolve_key getenv (PStr (serpapi_key_input ui)) (str "SERPAPI_KEY")) 25 in
      let run := main json_loads get_dict create getenv ui in
      result fetched = Return teams_reviews ->
      truthy teams_reviews = false ->
      (run = Run (Return tt) [StWarning missing_keys_warning] \/
       run = Run (Return tt) [] \/
       run = Run (Return tt) (trace fetched ++ [StError fetch_failed_error])) /\
      forallb (fun ev => negb (is_chat ev)) (trace run) = true /\
      forallb (fun ev => negb (is_render ev)) (trace run) = true).
Proof.
  split; [|split].
  - intros app_id api_key max_reviews results Hres Hnone.
    rewrite fetch_unfold. cbn zeta. by rewrite Hres, Hnone.
  - intros app_id api_key max_reviews e Hres.
    rewrite fetch_unfold. cbn zeta. by rewrite Hres.
  - intros ui teams_reviews fetched run Hf Hempty. subst run.
    rewrite main_unfold. cbn zeta.
    destruct (negb (truthy _) || negb (truthy _)); [by auto|].
    destruct (run_analysis ui); [|by auto].
    fold fetched. rewrite Hf, Hempty. cbn [negb].
    split; [by auto|]. cbn [trace].
    pose proof (fetch_no_chat get_dict (str "1113153706")
                  (resolve_key getenv (PStr (serpapi_key_input ui))
                     (str "SERPAPI_KEY")) 25) as Hchat.
    fold fetched in Hchat.
    rewrite !forallb_app, Hchat. split; [done|].
    subst fetched. rewrite fetch_unfold. cbn zeta.
    destruct (get_dict _) as [results|e]; [|done].
    by destruct (dict_get results _).
Qed.

Lemma C5_witness :
  fetch_app_store_reviews search_error (str "1113153706") (PStr (str "secret")) 25
  = Run (Return (PList []))
        [SearchRequest (search_request (str "1113153706") (PStr (str "secret")) 25);
         StError (no_reviews_error (str "1113153706"))] /\
  fetch_app_store_reviews search_down (str "1113153706") (PStr (str "secret")) 25
  = Run (Return (PList []))
        [SearchRequest (search_request (str "1113153706") (PStr (str "secret")) 25);
         StError (fetch_error
                    (OtherError (str "ConnectionError") (str "Max retries exceeded")))] /\
  forallb (fun ev => negb (is_chat ev))
    (trace (main json_loads_sample search_error (replies reply_json) env_keys
              (Sidebar [] [] true))) = true.
Proof.
  destruct (C5_failed_fetch_is_empty_and_halts json_loads_sample search_error
              (replies reply_json) env_keys) as (Hmissing & _ & Hmain).
  destruct (C5_failed_fetch_is_empty_and_halts json_loads_sample search_down
              (replies reply_json) env_keys) as (_ & Hraise & _).
  split; [|split].
  - by apply (Hmissing _ _ _ [(str "error", PStr (str "Invalid API key."))]).
  - by apply Hraise.
  - by apply (Hmain (Sidebar [] [] true) (PList [])).
Defined.

(** C6. For every review list in which no review has a non-empty text,
    [analyze_reviews_with_openai] returns [(None, None)] and its run
    contains no request to the text-generation service. *)
Theorem C6_no_text_no_request
    (json_loads : pystr -> outcome pyval)
    (create : client -> chat_params -> outcome pyval)
    (reviews : list pyval) (app_name : pystr) (c : client) :
  forallb (fun review => negb (has_text review)) reviews = true ->
  let run := analyze_reviews_with_openai json_loads create (PList reviews)
               app_name c in
  result run = Return (PNone, PNone) /\
  forallb (fun ev => negb (is_chat ev)) (trace run) = true.
Proof.
  intros Hno run. subst run. rewrite analyze_unfold. cbn [py_iter].
  destruct (collect reviews ([], [])) as [[ts rs]|e] eqn:Ec; [|done].
  by rewrite (collect_no_text reviews [] [] ts rs Hno Ec).
Qed.

Lemma C6_witness :
  forallb (fun review => negb (has_text review)) silent_reviews = true /\
  result (analyze_reviews_with_openai json_loads_sample (replies reply_json)
            (PList silent_reviews) (str "Microsoft Teams") sample_client)
  = Return (PNone, PNone) /\
  forallb (fun ev => negb (is_chat ev))
    (trace (analyze_reviews_with_openai json_loads_sample (replies reply_json)
              (PList silent_reviews) (str "Microsoft Teams") sample_client)) = true.
Proof.
  split; [reflexivity|].
  apply (C6_no_text_no_request json_loads_sample (replies reply_json)
           silent_reviews (str "Microsoft Teams") sample_client).
  reflexivity.
Defined.

(** C8. When the generation-service key or the search-service key is given
    neither in the sidebar nor in the environment, [main] shows the
    warning "Please enter your API keys..." and returns: the run contains
    nothing else, so neither service is contacted. *)
Theorem C8_missing_key_halts_before_any_call
    (json_loads : pystr -> outcome pyval)
    (get_dict : search_params -> outcome pydict)
    (create : client -> chat_params -> outcome pyval)
    (getenv : pystr -> option pystr) (ui : sidebar) :
  absent (openai_api_key_input ui) (getenv (str "OPENAI_API_KEY")) \/
  absent (serpapi_key_input ui) (getenv (str "SERPAPI_KEY")) ->
  let run := main json_loads get_dict create getenv ui in
  run = Run (Return tt) [StWarning missing_keys_warning] /\
  forallb (fun ev => negb (is_network ev)) (trace run) = true.
Proof.
  intros Habsent run. subst run. rewrite main_unfold. cbn zeta.
  assert (negb (truthy (resolve_key getenv (PStr (openai_api_key_input ui))
                          (str "OPENAI_API_KEY")))
          || negb (truthy (resolve_key getenv (PStr (serpapi_key_input ui))
                             (str "SERPAPI_KEY"))) = true) as ->; [|done].
  apply orb_true_iff. unfold resolve_key, os_getenv.
  destruct Habsent as [[-> ->] | [-> ->]]; [by left | by right].
Qed.

Lemma C8_witness :
  (absent (openai_api_key_input (Sidebar [] (str "key") true))
     (env_empty (str "OPENAI_API_KEY")) \/
   absent (serpapi_key_input (Sidebar [] (str "key") true))
     (env_empty (str "SERPAPI_KEY"))) /\
  main json_loads_sample (search_finds (PList scenario_reviews))
    (replies reply_json) env_empty (Sidebar [] (str "key") true)
  = Run (Return tt) [StWarning missing_keys_warning].
Proof.
  assert (H : absent (openai_api_key_input (Sidebar [] (str "key") true))
                (env_empty (str "OPENAI_API_KEY")) \/
              absent (serpapi_key_input (Sidebar [] (str "key") true))
                (env_empty (str "SERPAPI_KEY")))
    by (left; split; reflexivity).
  split; [exact H|].
  exact (proj1 (C8_missing_key_halts_before_any_call json_loads_sample
                  (search_finds (PList scenario_reviews)) (replies reply_json)
                  env_empty (Sidebar [] (str "key") true) H)).
Defined.

(** ** A reply that is JSON but no object *)

Section NonObject.
Variable json_loads : pystr -> outcome pyval.
Variable create : client -> chat_params -> outcome pyval.
Variables (reply : pystr) (v : pyval).
Hypothesis decoded : json_loads (strip_fences reply) = Return v.
Hypothesis not_object : is_dict v = false.

Lemma parse_non_object : parse_reply json_loads (PStr reply) = Run (Return v) [].
Proof. by rewrite parse_reply_str, decoded. Qed.

(** Lines 137-177 raise, and show nothing. *)
Lemma normalize_non_object (ratings : list pyval) :
  exists e, normalize json_loads (PStr reply) ratings = Run (Raise e) [].
Proof.
  rewrite normalize_unfold, parse_non_object. cbn zeta. cbn [result trace].
  destruct (count_ratings ratings rating_counts_init) as [m|e]; [|by eexists].
  destruct (rating_distribution m) as [dist|e]; [|by eexists].
  destruct v; try done; by eexists.
Qed.

Lemma analyze_non_object (reviews : pyval) (app_name : pystr) (c : client) :
  (forall c p, create c p = Return (PStr reply)) ->
  let run := analyze_reviews_with_openai json_loads create reviews app_name c in
  result run = Return (PNone, PNone) /\
  forallb (fun ev => negb (is_render ev)) (trace run) = true /\
  (forall m, ~ In (StWarning m) (trace run)) /\
  (forallb (fun ev => negb (is_chat ev)) (trace run) = true \/
   exists prompt e,
     trace run = [ChatRequest c (chat_request prompt); StError (analysis_error e)]).
Proof.
  intros Hreply run. subst run. rewrite analyze_unfold.
  destruct (py_iter reviews) as [items|e];
    [|by repeat split; auto; intros m [|[]]].
  destruct (collect items ([], [])) as [[ts rs]|e];
    [|by repeat split; auto; intros m [|[]]].
  destruct (negb (truthy (PList ts))); [by repeat split; auto|].
  destruct (build_prompt ts app_name) as [prompt|e];
    [|by repeat split; auto; intros m [|[]]].
  cbn zeta. rewrite Hreply.
  destruct (normalize_non_object rs) as [e ->]. cbn [result trace app].
  repeat split; [by intros m [|[|[]]] | right; by exists prompt, e].
Qed.
End NonObject.

(** C10. When the service's reply decodes to a JSON value that is not an
    object (an array, a number, a string, [true], [false], [null]),
    [analyze_reviews_with_openai] returns [(None, None)] and not the
    fallback object: no formatting warning is shown, since only a
    [JSONDecodeError] is caught by the inner [try]; with ratings that can
    be counted, what lines 137-177 raise is the [TypeError] of the
    assignment [analysis["rating_distribution"] = ...]; the outer handler
    reports it with [st.error] after the one request, and [main] then
    stops with an error without rendering anything. *)
Theorem C10_non_object_reply_yields_none
    (json_loads : pystr -> outcome pyval)
    (get_dict : search_params -> outcome pydict)
    (create : client -> chat_params -> outcome pyval)
    (getenv : pystr -> option pystr)
    (reply : pystr) (v : pyval) :
  (forall c p, create c p = Return (PStr reply)) ->
  json_loads (strip_fences reply) = Return v ->
  is_dict v = false ->
  (forall reviews app_name c,
      let run := analyze_reviews_with_openai json_loads create reviews app_name c in
      result run = Return (PNone, PNone) /\
      (forall m, ~ In (StWarning m) (trace run)) /\
      (forallb (fun ev => negb (is_chat ev)) (trace run) = true \/
       exists prompt e,
         trace run = [ChatRequest c (chat_request prompt);
                      StError (analysis_error e)])) /\
  (forall ratings, forallb hashable ratings = true ->
      normalize json_loads (PStr reply) ratings
      = Run (Raise (TypeError OpSetItem v)) []) /\
  (forall ui,
      forallb (fun ev => negb (is_render ev))
        (trace (main json_loads get_dict create getenv ui)) = true).
Proof.
  intros Hreply Hdec Hobj. split; [|split].
  - intros reviews app_name c run.
    by destruct (analyze_non_object json_loads create reply v Hdec Hobj
                   reviews app_name c Hreply) as (? & _ & ? & ?).
  - intros ratings Hh.
    rewrite normalize_hashable, (parse_non_object json_loads reply v Hdec) by done.
    cbn zeta. cbn [result trace]. by destruct v.
  - intros ui. rewrite main_unfold. cbn zeta.
    destruct (negb (truthy _) || negb (truthy _)); [done|].
    destruct (run_analysis ui); [|done].
    pose proof (fetch_unfold get_dict (str "1113153706")
                  (resolve_key getenv (PStr (serpapi_key_input ui))
                     (str "SERPAPI_KEY")) 25) as Hf.
    cbn zeta in Hf. rewrite Hf. clear Hf.
    set (openai_client := OpenAI _).
    assert (Hhalt : forall teams_reviews ftrace,
               forallb (fun ev => negb (is_render ev)) ftrace = true ->
               forallb (fun ev => negb (is_render ev))
                 (trace
                    (if negb (truthy teams_reviews) then
                       Run (Return tt) (ftrace ++ [StError fetch_failed_error])
                     else
                       let a := analyze_reviews_with_openai json_loads create
                                  teams_reviews (str "Microsoft Teams")
                                  openai_client in
                       match result a with
                       | Raise e => Run (Raise e) (ftrace ++ trace a)
                       | Return (teams_analysis, teams_ratings) =>
                           if negb (truthy teams_analysis) then
                             Run (Return tt)
                                 (ftrace ++ trace a ++ [StError analysis_failed_error])
                           else
                             match py_len teams_reviews with
                             | Raise e => Run (Raise e) (ftrace ++ trace a)
                             | Return n =>
                                 Run (Return tt)
                                     (ftrace ++ trace a ++
                                      [StSuccess (analysis_complete n);
                                       Render teams_analysis teams_ratings
                                         teams_reviews])
                             end
                       end)) = true).
    { intros teams_reviews ftrace Hft.
      destruct (negb (truthy teams_reviews)).
      - cbn [trace]. by rewrite forallb_app, Hft.
      - destruct (analyze_non_object json_loads create reply v Hdec Hobj
                    teams_reviews (str "Microsoft Teams") openai_client Hreply)
          as (Hres & Hrender & _).
        cbn zeta. rewrite Hres. cbn [truthy negb trace].
        by rewrite !forallb_app, Hft, Hrender. }
    destruct (get_dict _) as [results|e]; cbn [result trace].
    + destruct (dict_get results (str "reviews")) as [teams_reviews|];
        cbn [result trace]; by apply Hhalt.
    + by apply Hhalt.
Qed.

Lemma C10_witness :
  (forall c p, replies (str "[1, 2]") c p = Return (PStr (str "[1, 2]"))) /\
  json_loads_sample (strip_fences (str "[1, 2]")) = Return (PList [PInt 1; PInt 2]) /\
  analyze_reviews_with_openai json_loads_sample (replies (str "[1, 2]"))
    (PList scenario_reviews) (str "Microsoft Teams") sample_client
  = Run (Return (PNone, PNone))
        [ChatRequest sample_client
           (chat_request (join nl (prompt_lines 2 (str "Microsoft Teams")
                                     scenario_joined)));
         StError (analysis_error (TypeError OpSetItem (PList [PInt 1; PInt 2])))] /\
  normalize json_loads_sample (PStr (str "[1, 2]")) scenario_ratings
  = Run (Raise (TypeError OpSetItem (PList [PInt 1; PInt 2]))) [].
Proof.
  assert (Hreply : forall c p, replies (str "[1, 2]") c p = Return (PStr (str "[1, 2]")))
    by reflexivity.
  assert (Hdec : json_loads_sample (strip_fences (str "[1, 2]"))
                 = Return (PList [PInt 1; PInt 2])) by by vm_compute.
  destruct (C10_non_object_reply_yields_none json_loads_sample
              (search_finds (PList scenario_reviews)) (replies (str "[1, 2]"))
              env_keys (str "[1, 2]") (PList [PInt 1; PInt 2]) Hreply Hdec eq_refl)
    as (_ & Hnorm & _).
  split; [exact Hreply|]. split; [exact Hdec|]. split; [by vm_compute|].
  by apply Hnorm.
Defined.

(** ** The prompt *)

Section Prompt.
Variable json_loads : pystr -> outcome pyval.
Variable create : client -> chat_params -> outcome pyval.

Lemma parse_reply_trace (text : pyval) (ev : event) :
  In ev (trace (parse_reply json_loads text)) -> ev = StWarning formatting_warning.
Proof.
  destruct text as [| | | |t| |]; try done.
  rewrite parse_reply_str.
  destruct (json_loads (strip_fences t)) as [v|e]; [done|].
  destruct (is_JSONDecodeError e); [|done]. by intros [<-|[]].
Qed.

Lemma normalize_trace (text : pyval) (ratings : list pyval) (ev : event) :
  In ev (trace (normalize json_loads text ratings)) ->
  ev = StWarning formatting_warning.
Proof.
  rewrite normalize_unfold. cbn zeta. intros Hin. apply (parse_reply_trace text).
  destruct (result (parse_reply json_loads text)) as [analysis|e]; [|done].
  destruct (count_ratings ratings rating_counts_init) as [m|e]; [|done].
  destruct (rating_distribution m) as [dist|e]; [|done].
  by destruct (py_setitem analysis _ dist).
Qed.

(** A request in the run is the one request of line 125, with the prompt
    built from the collected texts. *)
Lemma analyze_chat_request (reviews : pyval) (app_name : pystr) (c c' : client)
    (p : chat_params) :
  In (ChatRequest c' p)
     (trace (analyze_reviews_with_openai json_loads create reviews app_name c)) ->
  exists items ts rs prompt,
    py_iter reviews = Return items /\ collect items ([], []) = Return (ts, rs) /\
    build_prompt ts app_name = Return prompt /\
    c' = c /\ p = chat_request prompt.
Proof.
  rewrite analyze_unfold.
  destruct (py_iter reviews) as [items|e]; [|by intros [|[]]].
  destruct (collect items ([], [])) as [[ts rs]|e] eqn:Ec; [|by intros [|[]]].
  destruct (negb (truthy (PList ts))); [done|].
  destruct (build_prompt ts app_name) as [prompt|e] eqn:Ep; [|by intros [|[]]].
  cbn zeta. intros Hin. exists items, ts, rs, prompt.
  do 3 (split; [done|]).
  destruct (create c (chat_request prompt)) as [text|e];
    [|by destruct Hin as [[= -> ->]|[|[]]]].
  destruct (result (normalize json_loads text rs)); cbn [trace] in Hin;
    destruct Hin as [[= -> ->]|Hin]; try done.
  - by apply normalize_trace in Hin.
  - apply in_app_or in Hin as [Hin|[|[]]]; [|done].
    by apply normalize_trace in Hin.
Qed.

Lemma collect_review_dict (d : pydict) (acc : list pyval * list pyval) :
  exists acc', collect_review (PDict d) acc = Return acc'.
Proof.
  destruct acc as [ts rs]. unfold collect_review. cbn -[str dict_get truthy].
  unfold dict_has.
  destruct (dict_get d (str "text")) as [t|]; cbn -[str dict_get truthy];
    [destruct (truthy t); cbn -[str dict_get truthy]|];
    destruct (dict_get d (str "rating")); by eexists.
Qed.

(** On review records the loop at lines 88-92 raises nothing. *)
Lemma collect_dicts (reviews : list pyval) (acc : list pyval * list pyval) :
  forallb is_dict reviews = true -> exists acc', collect reviews acc = Return acc'.
Proof.
  revert acc. induction reviews as [|r rest IH]; intros acc Hd; cbn [collect].
  - by eexists.
  - simpl in Hd. apply andb_prop in Hd as [Hr Hrest].
    destruct r; try done.
    destruct (collect_review_dict d acc) as [acc' ->]. cbn [obind]. by apply IH.
Qed.

Lemma join_items_strs (ss : list pystr) (i : nat) :
  join_items i (map PStr ss) = Return ss.
Proof.
  revert i. induction ss as [|s ss IH]; intros i; simpl; [done|].
  by rewrite IH.
Qed.

(** With review records whose first 50 non-empty texts are strings, the
    run starts with the request. *)
Lemma analyze_sends_prompt (reviews : list pyval) (app_name : pystr) (c : client)
    (ss : list pystr) :
  forallb is_dict reviews = true ->
  texts_of reviews <> [] ->
  take 50 (texts_of reviews) = map PStr ss ->
  head (trace (analyze_reviews_with_openai json_loads create (PList reviews)
                 app_name c))
  = Some (ChatRequest c
            (chat_request
               (join nl (prompt_lines (length (texts_of reviews)) app_name
                           (join (str " ") ss))))).
Proof.
  intros Hd Hne Hss. rewrite analyze_unfold. cbn [py_iter].
  destruct (collect_dicts reviews ([], []) Hd) as [[ts rs] Hc]. rewrite Hc.
  apply collect_spec in Hc as [-> ->]. cbn [app].
  destruct (texts_of reviews) as [|t ts] eqn:Et; [done|]. cbn [truthy negb].
  unfold build_prompt, py_join. rewrite Hss, join_items_strs. cbn [obind].
  cbn zeta. destruct (create c _) as [text|e]; [|done].
  by destruct (result (normalize json_loads text _)).
Qed.

End Prompt.

(** The scenario of the specification, run with a service that replies
    [{}]: the histogram has one 5-star rating, where the scenario is said
    to have none. *)
Lemma C7_counterexample :
  let analysis := PDict [(str "rating_distribution", scenario_distribution)] in
  result (analyze_reviews_with_openai json_loads_sample (replies (str "{}"))
            (PList scenario_reviews) (str "Microsoft Teams") sample_client)
  = Return (analysis, PList scenario_ratings) /\
  field (str "rating_distribution") analysis <> Some stated_distribution.
Proof. split; [by vm_compute|discriminate]. Qed.

(** C7, amended.  Every request that a run of
    [analyze_reviews_with_openai] on a review list sends carries the
    prompt built from the template, which states the number of reviews
    with a non-empty text and the subject name and embeds, joined by single
    spaces, the texts of the first 50 such reviews at most, and of no other
    review; on review records whose texts are strings that request is sent.
    For the scenario [{"text":"Great app","rating":5}, {"text":"",
    "rating":2}, {"text":"Crashes a lot","rating":1}] the prompt embeds
    "Great app Crashes a lot", and the [rating_distribution] of any
    analysis returned is [{1_star:1, 2_star:1, 3_star:0, 4_star:0,
    5_star:1}]: the rating 2 of the review without text is counted, and
    so is the rating 5. *)
Theorem C7_prompt_and_scenario
    (json_loads : pystr -> outcome pyval)
    (create : client -> chat_params -> outcome pyval)
    (app_name : pystr) (c : client) :
  (forall reviews c' p,
      In (ChatRequest c' p)
         (trace (analyze_reviews_with_openai json_loads create (PList reviews)
                   app_name c)) ->
      exists ss,
        take 50 (texts_of reviews) = map PStr ss /\
        (length ss <= 50)%nat /\
        let prompt := join nl (prompt_lines (length (texts_of reviews)) app_name
                                 (join (str " ") ss)) in
        c' = c /\ p = chat_request prompt /\
        user_prompt p = Some prompt /\
        contains prompt (of_nat (length (texts_of reviews))) = true /\
        contains prompt app_name = true /\
        contains prompt (join (str " ") ss) = true) /\
  (forall reviews ss,
      forallb is_dict reviews = true ->
      texts_of reviews <> [] ->
      take 50 (texts_of reviews) = map PStr ss ->
      head (trace (analyze_reviews_with_openai json_loads create (PList reviews)
                     app_name c))
      = Some (ChatRequest c
                (chat_request
                   (join nl (prompt_lines (length (texts_of reviews)) app_name
                               (join (str " ") ss)))))) /\
  texts_of scenario_reviews = [PStr (str "Great app"); PStr (str "Crashes a lot")] /\
  head (trace (analyze_reviews_with_openai json_loads create (PList scenario_reviews)
                 app_name c))
  = Some (ChatRequest c
            (chat_request (join nl (prompt_lines 2 app_name scenario_joined)))) /\
  (forall analysis ratings,
      result (analyze_reviews_with_openai json_loads create (PList scenario_reviews)
                app_name c) = Return (analysis, ratings) ->
      analysis <> PNone ->
      field (str "rating_distribution") analysis = Some scenario_distribution /\
      ratings = PList scenario_ratings).
Proof.
  split; [|split; [|split; [|split]]].
  - intros reviews c' p Hin.
    apply analyze_chat_request in Hin
      as (items & ts & rs & prompt & [= <-] & Hc & Hp & -> & ->).
    apply collect_spec in Hc as [-> _]. cbn [app] in Hp.
    apply build_prompt_spec in Hp as (ss & Hss & ->).
    exists ss. split; [done|]. split.
    { apply (f_equal length) in Hss. rewrite length_map in Hss.
      rewrite <- Hss, length_take. lia. }
    cbn zeta. do 3 (split; [done|]). apply prompt_contains.
  - intros reviews ss. by apply analyze_sends_prompt.
  - by vm_compute.
  - by apply (analyze_sends_prompt json_loads create scenario_reviews app_name c
                [str "Great app"; str "Crashes a lot"]).
  - intros analysis ratings Hrun Hsome.
    destruct (analyze_returns_normalized _ _ _ _ _ _ _ Hrun Hsome)
      as (items & prompt & reply & [= <-] & _ & Hnorm).
    apply normalize_returns in Hnorm as (d0 & _ & [= -> ->]).
    split; [|done]. cbn -[str histogram]. by rewrite dict_get_set_eq.
Qed.

Lemma C7_witness :
  head (trace (analyze_reviews_with_openai json_loads_sample (replies fenced_reply)
                 (PList scenario_reviews) (str "Microsoft Teams") sample_client))
  = Some (ChatRequest sample_client
            (chat_request (join nl (prompt_lines 2 (str "Microsoft Teams")
                                      scenario_joined)))) /\
  field (str "rating_distribution")
    (PDict [ (str "overall_sentiment", PStr (str "positive"));
             (str "rating_distribution", scenario_distribution) ])
  = Some scenario_distribution.
Proof.
  destruct (C7_prompt_and_scenario json_loads_sample (replies fenced_reply)
              (str "Microsoft Teams") sample_client)
    as (_ & _ & _ & Hhead & Hdist).
  split; [exact Hhead|].
  apply (Hdist _ (PList scenario_ratings)); [by vm_compute|discriminate].
Defined.

(** ** The diagnostic script *)

Section DebugFacts.
Import Debug.

Lemma bind_io_return {A B} (m : IO A) (a : A) (k : A -> IO B) :
  value m = Return a -> bind_io m k = Out (value (k a)) (printed m ++ printed (k a)).
Proof. unfold bind_io. by intros ->. Qed.

Lemma bind_io_raise {A B} (m : IO A) (e : pyexc) (k : A -> IO B) :
  value m = Raise e -> bind_io m k = Out (Raise e) (printed m).
Proof. unfold bind_io. by intros ->. Qed.

Lemma searches_app (out out' : list output) :
  searches (out ++ out') = searches out ++ searches out'.
Proof. unfold searches. apply omap_app. Qed.

(** Lines 63-68 print three lines at most, and only for the first three
    reviews. *)
Lemma show_review_lines (i : nat) (review : pyval) (text rating : bool) :
  (length (printed (show_review i review text rating))
   <= if (i <? 3)%nat then 3 else 0)%nat /\
  searches (printed (show_review i review text rating)) = [].
Proof.
  unfold show_review. destruct (i <? 3)%nat; [|done].
  unfold bind_io, pure_io, print, unit_io. cbn -[str of_nat py_get py_slice_to].
  destruct text, rating; cbn -[str of_nat py_get py_slice_to];
    repeat (match goal with
            | |- context [match ?o with Return _ => _ | Raise _ => _ end] =>
                destruct o; cbn -[str of_nat py_get py_slice_to]
            end); split; (done || lia).
Qed.

(** One turn of the loop, outcome by outcome. *)
Lemma review_step_unfold (i : nat) (review : pyval) (c : counters) :
  review_step i review c =
  match has_text review with
  | Raise e => Out (Raise e) []
  | Return text =>
      match has_rating review with
      | Raise e => Out (Raise e) []
      | Return rating =>
          let shown := show_review i review text rating in
          match value shown with
          | Return _ => Out (Return (count_review text rating c)) (printed shown)
          | Raise e => Out (Raise e) (printed shown)
          end
      end
  end.
Proof.
  unfold review_step, pure_io.
  destruct (has_text review) as [text|e]; [|done].
  rewrite (bind_io_return _ text) by done.
  destruct (has_rating review) as [rating|e]; [|done].
  rewrite (bind_io_return _ rating) by done. cbn zeta. cbn [value printed app].
  destruct (value (show_review i review text rating)) as [[]|e] eqn:E.
  - rewrite (bind_io_return _ tt) by done. cbn. by rewrite app_nil_r.
  - by rewrite (bind_io_raise _ e).
Qed.

Lemma count_review_total (text rating : bool) (c : counters) :
  total (count_review text rating c) = S (total c).
Proof. unfold total, count_review. destruct text, rating; simpl; lia. Qed.

Lemma count_review_with_text (text rating : bool) (c : counters) :
  (valid_reviews (count_review text rating c)
   + no_rating_reviews (count_review text rating c)
   = valid_reviews c + no_rating_reviews c + if text then 1 else 0)%nat /\
  (valid_reviews (count_review text rating c)
   = valid_reviews c + if text && rating then 1 else 0)%nat.
Proof. unfold count_review. destruct text, rating; simpl; lia. Qed.

(** Each review is counted once. *)
Lemma review_loop_total (reviews : list pyval) (i : nat) (c c' : counters) :
  value (review_loop i reviews c) = Return c' ->
  total c' = (total c + length reviews)%nat.
Proof.
  revert i c. induction reviews as [|review rest IH]; intros i c; cbn [review_loop].
  - intros [= <-]. simpl. lia.
  - destruct (value (review_step i review c)) as [c1|e] eqn:E.
    + rewrite (bind_io_return _ c1) by done. cbn [value]. intros ->%IH.
      rewrite review_step_unfold in E.
      destruct (has_text review) as [text|]; [|done].
      destruct (has_rating review) as [rating|]; [|done]. cbn zeta in E.
      destruct (value (show_review i review text rating)); [|done].
      injection E as <-. rewrite count_review_total. simpl. lia.
    + by rewrite (bind_io_raise _ e).
Qed.

(** The loop prints nine lines at most and sends nothing. *)
Lemma review_loop_lines (reviews : list pyval) (i : nat) (c : counters) :
  (length (printed (review_loop i reviews c)) <= 3 * (3 - i))%nat /\
  searches (printed (review_loop i reviews c)) = [].
Proof.
  revert i c. induction reviews as [|review rest IH]; intros i c; cbn [review_loop].
  - split; [simpl; lia|done].
  - assert (Hstep : (length (printed (review_step i review c))
                     <= if (i <? 3)%nat then 3 else 0)%nat /\
                    searches (printed (review_step i review c)) = []).
    { rewrite review_step_unfold.
      destruct (has_text review) as [text|]; [|split; [simpl; lia|done]].
      destruct (has_rating review) as [rating|]; [|split; [simpl; lia|done]].
      cbn zeta. pose proof (show_review_lines i review text rating).
      by destruct (value (show_review i review text rating)). }
    destruct Hstep as [Hlen Hs].
    assert (Hi : ((if (i <? 3)%nat then 3 else 0) + 3 * (3 - S i) <= 3 * (3 - i))%nat).
    { destruct (Nat.ltb_spec i 3); lia. }
    destruct (value (review_step i review c)) as [c1|e] eqn:E.
    + rewrite (bind_io_return _ c1) by done. cbn [printed].
      destruct (IH (S i) c1) as [Hlen' Hs'].
      rewrite length_app, searches_app, Hs, Hs'. split; [lia|done].
    + rewrite (bind_io_raise _ e) by done. cbn [printed]. split; [lia|done].
Qed.

(** A review that the script counts as having text has a non-empty text
    for [analyze_reviews_with_openai], and one it counts as rated has a
    rating there. *)
Lemma has_text_app (review : pyval) :
  Debug.has_text review = Return true -> Spec.has_text review = true.
Proof.
  unfold Debug.has_text, Spec.has_text, text_of, field, py_get, py_strip.
  destruct review as [| | | | | |d]; try done. cbn -[str dict_get].
  destruct (dict_get d (str "text")) as [t|]; cbn -[str dict_get]; [|done].
  destruct t as [| | | |s| |]; try done. cbn -[str dict_get].
  destruct s as [|ch s]; [done|]. done.
Qed.

Lemma has_rating_app (review : pyval) :
  Debug.has_rating review = Return true ->
  is_Some (field (str "rating") review).
Proof.
  unfold Debug.has_rating, field.
  destruct review as [| | | |s|l|d]; try done; cbn -[str dict_get].
  - by destruct (Str.contains s (str "rating")).
  - by destruct (existsb (is_str (str "rating")) l).
  - unfold dict_has. by destruct (dict_get d (str "rating")).
Qed.

Lemma review_loop_with_text (reviews : list pyval) (i : nat) (c c' : counters) :
  value (review_loop i reviews c) = Return c' ->
  (valid_reviews c' + no_rating_reviews c'
   <= valid_reviews c + no_rating_reviews c + length (texts_of reviews))%nat /\
  (valid_reviews c' <= valid_reviews c + length (ratings_of reviews))%nat.
Proof.
  revert i c. induction reviews as [|review rest IH]; intros i c; cbn [review_loop].
  - intros [= <-]. simpl. lia.
  - destruct (value (review_step i review c)) as [c1|e] eqn:E;
      [|by rewrite (bind_io_raise _ e)].
    rewrite (bind_io_return _ c1) by done. cbn [value]. intros [H1 H2]%IH.
    rewrite review_step_unfold in E.
    destruct (has_text review) as [text|] eqn:Et; [|done].
    destruct (has_rating review) as [rating|] eqn:Er; [|done]. cbn zeta in E.
    destruct (value (show_review i review text rating)); [|done].
    injection E as <-.
    destruct (count_review_with_text text rating c) as [E1 E2].
    unfold texts_of, ratings_of in *. cbn [omap list_omap].
    assert (Ht : text = true -> is_Some (text_of review)).
    { intros ->. apply has_text_app in Et. unfold Spec.has_text in Et.
      by destruct (text_of review). }
    assert (Hr : rating = true -> is_Some (field (str "rating") review)).
    { intros ->. by apply has_rating_app. }
    split.
    + destruct text; [destruct (Ht eq_refl) as [t ->]; simpl; lia|].
      destruct (text_of review); simpl; lia.
    + destruct text, rating; cbn [andb] in E2;
        try (destruct (Hr eq_refl) as [r ->]; simpl; lia);
        destruct (field (str "rating") review); simpl; lia.
Qed.

End DebugFacts.

Section DebugRuns.
Import Debug.
Variable get_dict : search_params -> outcome pydict.
Variable getenv : pystr -> option pystr.

(** Lines 72-76 raise nothing and send nothing. *)
Lemma report_missing_returns (results : pydict) :
  value (report_missing results) = Return tt /\
  searches (printed (report_missing results)) = [] /\
  forall e, ~ In (Print (error_line e)) (printed (report_missing results)).
Proof.
  unfold report_missing, dict_has, bind_io, print, pure_io, unit_io.
  cbn -[str dict_get].
  destruct (dict_get results (str "error")) as [v|]; cbn -[str dict_get];
    repeat split; try done; intros e H;
    repeat (destruct H as [H|H]; [discriminate H|]); done.
Qed.

Lemma report_reviews_searches (results : pydict) :
  searches (printed (report_reviews results)) = [].
Proof.
  unfold report_reviews, pure_io.
  destruct (py_getitem (PDict results) (str "reviews")) as [reviews|e]; [|done].
  rewrite (bind_io_return _ reviews) by done. cbn [printed app].
  destruct (py_len reviews) as [n|e]; [|done].
  rewrite (bind_io_return _ n) by done. cbn [printed app].
  rewrite (bind_io_return _ tt) by done. cbn -[str of_nat review_loop].
  destruct (py_iter reviews) as [items|e]; [|done].
  rewrite (bind_io_return _ items) by done. cbn -[str of_nat review_loop].
  destruct (review_loop_lines items 0 (Counters 0 0 0)) as [_ Hs].
  destruct (value (review_loop 0 items (Counters 0 0 0))) as [c|e] eqn:E.
  - rewrite (bind_io_return _ c) by done. cbn -[str of_nat review_loop].
    by rewrite searches_app, Hs.
  - by rewrite (bind_io_raise _ e).
Qed.

(** One turn of the loop over the counts, outcome by outcome: it sends its
    one request whatever happens next. *)
Lemma request_block_unfold (app_id : pystr) (api_key : pyval) (n : nat) :
  let request := search_request app_id api_key (Z.of_nat n) in
  let asking := Print [Lit ([10%N; 128202%N] ++ str " Requesting " ++ of_nat n ++
                            str " reviews...")] in
  request_block get_dict app_id api_key n =
  match get_dict request with
  | Raise e => Out (Raise e) [asking; Search request]
  | Return results =>
      let report := if dict_has results (str "reviews")
                    then report_reviews results else report_missing results in
      Out (value report)
          ([asking; Search request;
            Print [Lit (str "   Response keys: "); KeyList (map fst results)]]
           ++ printed report)
  end.
Proof.
  unfold request_block, search_get_dict. cbn zeta.
  rewrite (bind_io_return _ tt) by done. cbn [print printed app].
  destruct (get_dict _) as [results|e] eqn:E.
  - rewrite (bind_io_return _ results) by done. cbn [printed app value].
    rewrite (bind_io_return _ tt) by done. cbn [print printed app value].
    by destruct (dict_has results (str "reviews")).
  - by rewrite (bind_io_raise _ e).
Qed.

Lemma request_block_searches (app_id : pystr) (api_key : pyval) (n : nat) :
  searches (printed (request_block get_dict app_id api_key n))
  = [search_request app_id api_key (Z.of_nat n)].
Proof.
  rewrite request_block_unfold. cbn zeta.
  destruct (get_dict _) as [results|e]; [|done].
  cbn [printed]. rewrite searches_app.
  destruct (dict_has results (str "reviews")).
  - by rewrite report_reviews_searches.
  - by rewrite (proj1 (proj2 (report_missing_returns results))).
Qed.

(** The loop sends the requests in order until a turn raises. *)
Lemma request_loop_runs (app_id : pystr) (api_key : pyval) (counts : list nat) :
  let run := request_loop get_dict app_id api_key counts in
  let requests := map (fun n => search_request app_id api_key (Z.of_nat n)) counts in
  searches (printed run) `prefix_of` requests /\
  (value run = Return tt -> searches (printed run) = requests).
Proof.
  induction counts as [|n rest [IHp IHr]]; cbn [request_loop map]; cbn zeta.
  - by split.
  - pose proof (request_block_searches app_id api_key n) as Hs.
    destruct (value (request_block get_dict app_id api_key n)) as [[]|e] eqn:E.
    + rewrite (bind_io_return _ tt) by done. cbn [value printed].
      rewrite searches_app, Hs. split.
      * by apply prefix_cons.
      * intros Hv. cbn [app]. f_equal. by apply IHr.
    + rewrite (bind_io_raise _ e) by done. cbn [value printed]. rewrite Hs.
      split; [|done]. apply prefix_cons, prefix_nil.
Qed.

(** A turn that raises ends the loop. *)
Lemma request_loop_raises (app_id : pystr) (api_key : pyval)
    (pre post : list nat) (n : nat) (e : pyexc) :
  (forall m, In m pre -> value (request_block get_dict app_id api_key m) = Return tt) ->
  value (request_block get_dict app_id api_key n) = Raise e ->
  let run := request_loop get_dict app_id api_key (pre ++ n :: post) in
  value run = Raise e /\
  searches (printed run)
  = map (fun n => search_request app_id api_key (Z.of_nat n)) (pre ++ [n]).
Proof.
  intros Hpre Hn. cbn zeta. induction pre as [|m pre IH]; cbn [app request_loop map].
  - rewrite (bind_io_raise _ e) by done. cbn [value printed].
    by rewrite request_block_searches.
  - rewrite (bind_io_return _ tt) by (apply Hpre; by left). cbn [value printed].
    rewrite searches_app, request_block_searches.
    destruct IH as [-> ->]; [intros m' Hm'; apply Hpre; by right|]. done.
Qed.

(** Turns that end well make a loop that ends well. *)
Lemma request_loop_clean (app_id : pystr) (api_key : pyval) (counts : list nat) :
  (forall n, In n counts ->
     value (request_block get_dict app_id api_key n) = Return tt /\
     forall e, ~ In (Print (error_line e))
                 (printed (request_block get_dict app_id api_key n))) ->
  value (request_loop get_dict app_id api_key counts) = Return tt /\
  forall e, ~ In (Print (error_line e))
              (printed (request_loop get_dict app_id api_key counts)).
Proof.
  induction counts as [|n rest IH]; intros Hall; cbn [request_loop].
  - split; [done|]. by intros e [].
  - destruct (Hall n) as [Hv Hno]; [by left|].
    destruct IH as [IHv IHno]; [intros m Hm; apply Hall; by right|].
    rewrite (bind_io_return _ tt) by done. cbn [value printed].
    split; [done|]. intros e [H|H]%in_app_or; [by apply (Hno e)|by apply (IHno e)].
Qed.

(** [debug_review_fetching], outcome by outcome. *)
Lemma debug_unfold :
  let api_key := os_getenv getenv (str "SERPAPI_KEY") in
  let heading :=
    [ Print [Lit ([128269%N] ++
                  str " Debugging review fetch for American Express (ID: " ++
                  str "1113153706" ++ str ")")];
      Print [Lit (repeat 61%N 60)] ] in
  let loop := request_loop get_dict (str "1113153706") api_key [25; 50; 100]%nat in
  debug_review_fetching get_dict getenv =
  if negb (truthy api_key) then Out (Return tt) [Print missing_key_line]
  else
    match value loop with
    | Return _ => Out (Return tt) (heading ++ printed loop)
    | Raise e => Out (Return tt) (heading ++ printed loop ++ [Print (error_line e)])
    end.
Proof.
  unfold debug_review_fetching. cbn zeta.
  destruct (negb (truthy _)); [done|].
  rewrite (bind_io_return _ tt) by done. cbn [print printed value app].
  rewrite (bind_io_return _ tt) by done. cbn [print printed value app].
  unfold try_io.
  destruct (value (request_loop _ _ _ _)) as [[]|e] eqn:E; [by rewrite E|done].
Qed.

(** [debug_review_fetching] catches every exception. *)
Lemma debug_returns : value (debug_review_fetching get_dict getenv) = Return tt.
Proof.
  rewrite debug_unfold. cbn zeta.
  destruct (negb (truthy _)); [done|].
  by destruct (value (request_loop _ _ _ _)).
Qed.

End DebugRuns.

(** X1. When the script has gone through the reviews of a response
    without an exception, the summary it prints last counts every review
    exactly once: valid, empty-text and no-rating reviews add up to the
    number of reviews.  Details are shown for the first three reviews
    only: the report has eleven lines at most, however long the list. *)
Theorem debug_summary_counts_every_review (results : pydict) :
  Debug.value (Debug.report_reviews results) = Return tt ->
  exists reviews items c,
    dict_get results (str "reviews") = Some reviews /\
    py_iter reviews = Return items /\
    last (Debug.printed (Debug.report_reviews results))
    = Some (Debug.Print (Debug.summary c)) /\
    Debug.total c = length items /\
    (length (Debug.printed (Debug.report_reviews results)) <= 11)%nat.
Proof.
  unfold Debug.report_reviews, Debug.pure_io, py_getitem.
  destruct (dict_get results (str "reviews")) as [reviews|]; [|done].
  rewrite (bind_io_return _ reviews) by done. cbn [Debug.printed Debug.value app].
  destruct (py_len reviews) as [n|e]; [|done].
  rewrite (bind_io_return _ n) by done. cbn [Debug.printed Debug.value app].
  rewrite (bind_io_return _ tt) by done.
  cbn [Debug.print Debug.printed Debug.value app].
  destruct (py_iter reviews) as [items|e] eqn:Ei; [|done].
  rewrite (bind_io_return _ items) by done. cbn [Debug.printed Debug.value app].
  destruct (review_loop_lines items 0 (Debug.Counters 0 0 0)) as [Hlen _].
  destruct (Debug.value (Debug.review_loop 0 items (Debug.Counters 0 0 0)))
    as [c|e] eqn:E; [|by rewrite (bind_io_raise _ e)].
  rewrite (bind_io_return _ c) by done. cbn [Debug.print Debug.printed Debug.value].
  intros _. exists reviews, items, c. do 2 (split; [done|]). repeat split.
  - rewrite app_comm_cons. apply last_snoc.
  - by rewrite (review_loop_total items 0 (Debug.Counters 0 0 0) c E).
  - cbn [length]. rewrite length_app. simpl in *. lia.
Qed.

Lemma debug_summary_witness :
  Debug.value (Debug.report_reviews [(str "reviews", PList mixed_reviews)])
  = Return tt /\
  exists reviews items c,
    dict_get [(str "reviews", PList mixed_reviews)] (str "reviews") = Some reviews /\
    py_iter reviews = Return items /\
    last (Debug.printed (Debug.report_reviews [(str "reviews", PList mixed_reviews)]))
    = Some (Debug.Print (Debug.summary c)) /\
    Debug.total c = length items /\
    (length (Debug.printed
               (Debug.report_reviews [(str "reviews", PList mixed_reviews)]))
     <= 11)%nat.
Proof.
  split; [by vm_compute|].
  apply (debug_summary_counts_every_review [(str "reviews", PList mixed_reviews)]).
  by vm_compute.
Defined.

(** X2. [debug_review_fetching] raises nothing; the requests it sends are
    the requests for 25, 50 and 100 reviews of the app, in that order, or
    the first ones of them; and without a [SERPAPI_KEY] in the environment
    (unset or empty) it prints one line and sends nothing. *)
Theorem debug_requests_in_order
    (get_dict : search_params -> outcome pydict) (getenv : pystr -> option pystr) :
  let run := Debug.debug_review_fetching get_dict getenv in
  let api_key := os_getenv getenv (str "SERPAPI_KEY") in
  Debug.value run = Return tt /\
  Debug.searches (Debug.printed run)
    `prefix_of` map (Debug.request_of api_key) [25; 50; 100]%nat /\
  (truthy api_key = false ->
   Debug.printed run = [Debug.Print Debug.missing_key_line]).
Proof.
  cbn zeta. rewrite debug_unfold. cbn zeta.
  destruct (truthy (os_getenv getenv (str "SERPAPI_KEY"))) eqn:Ek; cbn [negb].
  - destruct (request_loop_runs get_dict (str "1113153706")
                (os_getenv getenv (str "SERPAPI_KEY")) [25; 50; 100]%nat)
      as [Hp _].
    cbn zeta in Hp.
    destruct (Debug.value (Debug.request_loop _ _ _ _)) as [[]|e];
      cbn [Debug.value Debug.printed]; (split; [done|]); (split; [|done]).
    + by rewrite searches_app.
    + rewrite !searches_app. cbn [Debug.searches omap list_omap app].
      by rewrite app_nil_r.
  - split; [done|]. split; [|done]. apply prefix_nil.
Qed.

Lemma debug_requests_witness :
  truthy (os_getenv env_empty (str "SERPAPI_KEY")) = false /\
  Debug.printed (Debug.debug_review_fetching search_staged env_empty)
  = [Debug.Print Debug.missing_key_line].
Proof.
  split; [reflexivity|].
  apply (debug_requests_in_order search_staged env_empty). reflexivity.
Defined.

(** X3. An exception while a response is handled ends the run of
    [debug_review_fetching]: the requests for the larger counts are not
    sent, the last line printed is the error, and the function returns
    normally. *)
Theorem debug_stops_at_first_exception
    (get_dict : search_params -> outcome pydict) (getenv : pystr -> option pystr)
    (pre post : list nat) (n : nat) (e : pyexc) :
  let api_key := os_getenv getenv (str "SERPAPI_KEY") in
  let run := Debug.debug_review_fetching get_dict getenv in
  truthy api_key = true ->
  pre ++ n :: post = [25; 50; 100]%nat ->
  (forall m, In m pre ->
     Debug.value (Debug.request_block get_dict (str "1113153706") api_key m)
     = Return tt) ->
  Debug.value (Debug.request_block get_dict (str "1113153706") api_key n) = Raise e ->
  Debug.value run = Return tt /\
  Debug.searches (Debug.printed run) = map (Debug.request_of api_key) (pre ++ [n]) /\
  last (Debug.printed run) = Some (Debug.Print (Debug.error_line e)).
Proof.
  cbn zeta. intros Hk Hcounts Hpre Hn. rewrite debug_unfold. cbn zeta.
  rewrite Hk. cbn [negb]. rewrite <- Hcounts.
  destruct (request_loop_raises get_dict (str "1113153706")
              (os_getenv getenv (str "SERPAPI_KEY")) pre post n e Hpre Hn)
    as [Hv Hs].
  cbn zeta in Hv, Hs. rewrite Hv. cbn [Debug.value Debug.printed].
  split; [done|]. split.
  - rewrite !searches_app, Hs. cbn [Debug.searches omap list_omap app].
    by rewrite app_nil_r.
  - rewrite app_assoc. apply last_snoc.
Qed.

Lemma debug_stops_witness :
  let run := Debug.debug_review_fetching search_staged env_keys in
  Debug.value run = Return tt /\
  Debug.searches (Debug.printed run)
  = map (Debug.request_of (PStr (str "secret"))) [25; 50]%nat /\
  last (Debug.printed run)
  = Some (Debug.Print (Debug.error_line (AttributeError (str "strip") PNone))).
Proof.
  apply (debug_stops_at_first_exception search_staged env_keys [25%nat] [100%nat]
           50%nat (AttributeError (str "strip") PNone)).
  - reflexivity.
  - reflexivity.
  - intros m [<-|[]]. by vm_compute.
  - by vm_compute.
Defined.

(** X4. A response without a [reviews] key does not end the run: when the
    three responses all lack it, the three requests are all sent and no
    error line is printed. *)
Theorem debug_continues_without_reviews
    (get_dict : search_params -> outcome pydict) (getenv : pystr -> option pystr) :
  let api_key := os_getenv getenv (str "SERPAPI_KEY") in
  let run := Debug.debug_review_fetching get_dict getenv in
  truthy api_key = true ->
  (forall n, In n [25; 50; 100]%nat ->
     exists results, get_dict (Debug.request_of api_key n) = Return results /\
                     dict_get results (str "reviews") = None) ->
  Debug.value run = Return tt /\
  Debug.searches (Debug.printed run)
  = map (Debug.request_of api_key) [25; 50; 100]%nat /\
  forall e, ~ In (Debug.Print (Debug.error_line e)) (Debug.printed run).
Proof.
  cbn zeta. intros Hk Hres. rewrite debug_unfold. cbn zeta. rewrite Hk. cbn [negb].
  set (api_key := os_getenv getenv (str "SERPAPI_KEY")) in *.
  assert (Hblock : forall n, In n [25; 50; 100]%nat ->
            Debug.value (Debug.request_block get_dict (str "1113153706") api_key n)
            = Return tt /\
            forall e, ~ In (Debug.Print (Debug.error_line e))
                        (Debug.printed (Debug.request_block get_dict
                                          (str "1113153706") api_key n))).
  { intros n Hn. destruct (Hres n Hn) as (results & Hget & Hnone).
    rewrite request_block_unfold. cbn zeta. unfold Debug.request_of in Hget.
    rewrite Hget. unfold dict_has. rewrite Hnone.
    destruct (report_missing_returns results) as (Hv & _ & Hno).
    cbn [Debug.value Debug.printed]. split; [done|].
    intros e [H|[H|[H|H]]]; try discriminate H. by apply (Hno e). }
  destruct (request_loop_clean get_dict (str "1113153706") api_key
              [25; 50; 100]%nat Hblock) as [Hv Hno].
  destruct (request_loop_runs get_dict (str "1113153706") api_key [25; 50; 100]%nat)
    as [_ Hs].
  cbn zeta in Hs.
  rewrite Hv. cbn [Debug.value Debug.printed]. split; [done|]. split.
  - rewrite searches_app. cbn [Debug.searches omap list_omap app]. by apply Hs.
  - intros e [H|[H|H]]; try discriminate H. by apply (Hno e).
Qed.

Lemma debug_continues_witness :
  let run := Debug.debug_review_fetching search_error env_keys in
  Debug.value run = Return tt /\
  Debug.searches (Debug.printed run)
  = map (Debug.request_of (PStr (str "secret"))) [25; 50; 100]%nat /\
  forall e, ~ In (Debug.Print (Debug.error_line e)) (Debug.printed run).
Proof.
  apply (debug_continues_without_reviews search_error env_keys).
  - reflexivity.
  - intros n _. by exists [(str "error", PStr (str "Invalid API key."))].
Defined.

(** X5. The reviews that the script reports as having text (valid ones
    and ones without rating) are among those whose text
    [analyze_reviews_with_openai] sends for analysis, and the valid ones
    among those whose rating it counts: the script's numbers never exceed
    the app's.  The app can use more, for it does not strip a text before
    testing it. *)
Theorem debug_counts_below_app (reviews : list pyval) (c : Debug.counters) :
  Debug.value (Debug.review_loop 0 reviews (Debug.Counters 0 0 0)) = Return c ->
  (Debug.valid_reviews c + Debug.no_rating_reviews c
   <= length (texts_of reviews))%nat /\
  (Debug.valid_reviews c <= length (ratings_of reviews))%nat.
Proof. intros H. by apply review_loop_with_text in H. Qed.

Lemma debug_counts_below_app_witness :
  Debug.value (Debug.review_loop 0 mixed_reviews (Debug.Counters 0 0 0))
  = Return (Debug.Counters 1 2 1) /\
  length (texts_of mixed_reviews) = 3%nat /\
  (Debug.valid_reviews (Debug.Counters 1 2 1)
   + Debug.no_rating_reviews (Debug.Counters 1 2 1)
   <= length (texts_of mixed_reviews))%nat /\
  (Debug.valid_reviews (Debug.Counters 1 2 1)
   <= length (ratings_of mixed_reviews))%nat.
Proof.
  split; [by vm_compute|]. split; [by vm_compute|].
  apply (debug_counts_below_app mixed_reviews (Debug.Counters 1 2 1)).
  by vm_compute.
Defined.

(** X6. The script's [main] raises nothing and always ends with the five
    lines of troubleshooting tips, after the banner and whatever
    [debug_review_fetching] printed, also when the key is missing or a
    request failed. *)
Theorem debug_main_always_prints_tips
    (get_dict : search_params -> outcome pydict) (getenv : pystr -> option pystr) :
  Debug.main get_dict getenv
  = Debug.Out (Return tt)
      (Debug.banner
       ++ Debug.printed (Debug.debug_review_fetching get_dict getenv)
       ++ Debug.tips).
Proof.
  unfold Debug.main.
  rewrite (bind_io_return _ tt) by done. cbn [Debug.print Debug.printed Debug.value].
  rewrite (bind_io_return _ tt) by done. cbn [Debug.print Debug.printed Debug.value].
  by rewrite (bind_io_return _ tt) by apply debug_returns.
Qed.

(** ** Runs of the app *)

Section AppRuns.
Variable json_loads : pystr -> outcome pyval.
Variable get_dict : search_params -> outcome pydict.
Variable create : client -> chat_params -> outcome pyval.
Variable getenv : pystr -> option pystr.

Lemma parse_reply_shape (text : pyval) :
  trace (parse_reply json_loads text) = [] \/
  (trace (parse_reply json_loads text) = [StWarning formatting_warning] /\
   result (parse_reply json_loads text) = Return fallback_analysis).
Proof.
  destruct text as [| | | |t| |]; try by left.
  rewrite parse_reply_str.
  destruct (json_loads (strip_fences t)) as [v|e]; [by left|].
  destruct (is_JSONDecodeError e); [by right|by left].
Qed.

Lemma normalize_trace_eq (text : pyval) (ratings : list pyval) :
  trace (normalize json_loads text ratings) = trace (parse_reply json_loads text).
Proof.
  rewrite normalize_unfold. cbn zeta.
  destruct (result (parse_reply json_loads text)) as [analysis|e]; [|done].
  destruct (count_ratings ratings rating_counts_init) as [m|e]; [|done].
  destruct (rating_distribution m) as [dist|e]; [|done].
  by destruct (py_setitem analysis _ dist).
Qed.

(** The run of [analyze_reviews_with_openai] is empty, or one error, or
    the request followed by at most the formatting warning and at most one
    error; an analysis is returned exactly when there is a request and no
    error. *)
Lemma analyze_shape (reviews : pyval) (app_name : pystr) (c : client) :
  let run := analyze_reviews_with_openai json_loads create reviews app_name c in
  (result run = Return (PNone, PNone) /\
   (trace run = [] \/ exists e, trace run = [StError (analysis_error e)])) \/
  exists prompt shown,
    (shown = [] \/ shown = [StWarning formatting_warning]) /\
    ((exists e, result run = Return (PNone, PNone) /\
                trace run = ChatRequest c (chat_request prompt) :: shown
                            ++ [StError (analysis_error e)]) \/
     (exists analysis ratings,
        result run = Return (analysis, ratings) /\ analysis <> PNone /\
        trace run = ChatRequest c (chat_request prompt) :: shown)).
Proof.
  cbn zeta. rewrite analyze_unfold.
  destruct (py_iter reviews) as [items|e]; [|left; split; [done|right; by eexists]].
  destruct (collect items ([], [])) as [[ts rs]|e];
    [|left; split; [done|right; by eexists]].
  destruct (negb (truthy (PList ts))); [left; split; [done|by left]|].
  destruct (build_prompt ts app_name) as [prompt|e];
    [|left; split; [done|right; by eexists]].
  cbn zeta. right. exists prompt.
  destruct (create c (chat_request prompt)) as [text|e].
  2:{ exists []. split; [by left|]. left. by exists e. }
  exists (trace (normalize json_loads text rs)). split.
  { rewrite normalize_trace_eq.
    destruct (parse_reply_shape text) as [->|[-> _]]; [by left|by right]. }
  destruct (result (normalize json_loads text rs)) as [[analysis ratings]|e] eqn:En.
  - right. exists analysis, ratings. repeat split; try done.
    apply normalize_returns in En as (d0 & _ & [= -> _]). done.
  - left. by exists e.
Qed.

Lemma analyze_network (reviews : pyval) (app_name : pystr) (c : client) :
  let run := analyze_reviews_with_openai json_loads create reviews app_name c in
  List.filter is_network (trace run) = [] \/
  exists prompt,
    List.filter is_network (trace run) = [ChatRequest c (chat_request prompt)].
Proof.
  cbn zeta.
  destruct (analyze_shape reviews app_name c)
    as [[_ [->|[e ->]]]|(prompt & shown & Hshown & H)]; try by left.
  right. exists prompt.
  destruct H as [(e & _ & ->)|(a & r & _ & _ & ->)];
    destruct Hshown as [->| ->]; done.
Qed.

Lemma truthy_with_histogram (d : pydict) (ratings : list pyval) :
  truthy (with_histogram (PDict d) ratings) = true.
Proof.
  unfold with_histogram. destruct d as [|[k v] d]; cbn [dict_set truthy]; [done|].
  by destruct (bool_decide _).
Qed.

Lemma py_iter_len (v : pyval) (items : list pyval) :
  py_iter v = Return items -> py_len v = Return (length items).
Proof.
  destruct v; try done; intros [= <-]; simpl; by rewrite ?length_map.
Qed.

Lemma fetch_network (app_id : pystr) (api_key : pyval) (max_reviews : Z) :
  List.filter is_network
    (trace (fetch_app_store_reviews get_dict app_id api_key max_reviews))
  = [SearchRequest (search_request app_id api_key max_reviews)].
Proof.
  rewrite fetch_unfold. cbn zeta.
  destruct (get_dict _) as [results|e]; [|done].
  by destruct (dict_get results _).
Qed.

Lemma fetch_no_render (app_id : pystr) (api_key : pyval) (max_reviews : Z) :
  forall ev, In ev (trace (fetch_app_store_reviews get_dict app_id api_key
                             max_reviews)) ->
             is_render ev = false /\ is_chat ev = false.
Proof.
  rewrite fetch_unfold. cbn zeta.
  destruct (get_dict _) as [results|e];
    [destruct (dict_get results _)|]; intros ev H;
    repeat (destruct H as [<-|H]; [done|]); done.
Qed.

Lemma analyze_no_render (reviews : pyval) (app_name : pystr) (c : client) :
  forall ev, In ev (trace (analyze_reviews_with_openai json_loads create reviews
                             app_name c)) ->
             is_render ev = false.
Proof.
  destruct (analyze_shape reviews app_name c)
    as [[_ [->|[e ->]]]|(prompt & shown & Hshown & H)]; intros ev Hin.
  - done.
  - by destruct Hin as [<-|[]].
  - destruct H as [(e & _ & Ht)|(a & r & _ & _ & Ht)]; rewrite Ht in Hin;
      destruct Hshown as [->| ->]; cbn in Hin;
      repeat (destruct Hin as [<-|Hin]; [done|]); done.
Qed.

(** [main] after a fetch that found something, outcome by outcome. *)
Lemma main_after_fetch (ui : sidebar) (teams_reviews : pyval) :
  let openai_api_key :=
    resolve_key getenv (PStr (openai_api_key_input ui)) (str "OPENAI_API_KEY") in
  let serpapi_key :=
    resolve_key getenv (PStr (serpapi_key_input ui)) (str "SERPAPI_KEY") in
  let f := fetch_app_store_reviews get_dict (str "1113153706") serpapi_key 25 in
  let a := analyze_reviews_with_openai json_loads create teams_reviews
             (str "Microsoft Teams") (OpenAI openai_api_key) in
  truthy openai_api_key = true -> truthy serpapi_key = true ->
  run_analysis ui = true ->
  result f = Return teams_reviews -> truthy teams_reviews = true ->
  (result a = Return (PNone, PNone) /\
   main json_loads get_dict create getenv ui
   = Run (Return tt) (trace f ++ trace a ++ [StError analysis_failed_error])) \/
  (exists analysis ratings items,
     result a = Return (analysis, ratings) /\ analysis <> PNone /\
     py_iter teams_reviews = Return items /\
     main json_loads get_dict create getenv ui
     = Run (Return tt)
           (trace f ++ trace a ++
            [StSuccess (analysis_complete (length items));
             Render analysis ratings teams_reviews])).
Proof.
  cbn zeta. intros Ho Hs Hrun Hf Ht. rewrite main_unfold. cbn zeta.
  rewrite Ho, Hs, Hrun, Hf, Ht. cbn [negb orb].
  destruct (analyze_returns json_loads create teams_reviews (str "Microsoft Teams")
              (OpenAI (resolve_key getenv (PStr (openai_api_key_input ui))
                         (str "OPENAI_API_KEY")))) as [[analysis ratings] Ha].
  rewrite Ha.
  destruct (truthy analysis) eqn:Hta; cbn [negb].
  - right.
    assert (Hsome : analysis <> PNone) by by intros ->.
    destruct (analyze_returns_normalized _ _ _ _ _ _ _ Ha Hsome)
      as (items & _ & _ & Hiter & _).
    exists analysis, ratings, items. rewrite (py_iter_len _ _ Hiter). done.
  - left. split; [|done].
    assert (analysis = PNone \/ analysis <> PNone) as [->|Hne]
      by (destruct analysis; (by left) || (by right)).
    + destruct (analyze_shape teams_reviews (str "Microsoft Teams")
                  (OpenAI (resolve_key getenv (PStr (openai_api_key_input ui))
                             (str "OPENAI_API_KEY"))))
        as [[Hr _]|(prompt & shown & _ & [(e & Hr & _)|(a' & r' & Hr & Hne & _)])];
        cbn zeta in Hr; rewrite Ha in Hr; by simplify_eq.
    + destruct (analyze_returns_normalized _ _ _ _ _ _ _ Ha Hne)
        as (items & p & reply & _ & _ & Hn).
      apply normalize_returns in Hn as (d0 & _ & [= -> _]).
      change (truthy (with_histogram (PDict d0) (ratings_of items)) = false) in Hta.
      by rewrite truthy_with_histogram in Hta.
Qed.

End AppRuns.

Section MainRuns.
Variable json_loads : pystr -> outcome pyval.
Variable get_dict : search_params -> outcome pydict.
Variable create : client -> chat_params -> outcome pyval.
Variable getenv : pystr -> option pystr.
Variable ui : sidebar.

Let openai_api_key :=
  resolve_key getenv (PStr (openai_api_key_input ui)) (str "OPENAI_API_KEY").
Let serpapi_key :=
  resolve_key getenv (PStr (serpapi_key_input ui)) (str "SERPAPI_KEY").
Let fetched :=
  fetch_app_store_reviews get_dict (str "1113153706") serpapi_key 25.
Let request := search_request (str "1113153706") serpapi_key 25.

Lemma fetched_starts_with_request :
  exists later, trace fetched = SearchRequest request :: later.
Proof.
  unfold fetched. rewrite fetch_unfold. cbn zeta. fold request.
  destruct (get_dict request) as [results|e]; [|by eexists].
  destruct (dict_get results _); by eexists.
Qed.

(** The four ways a run of [main] goes. *)
Lemma main_cases :
  let run := main json_loads get_dict create getenv ui in
  (negb (truthy openai_api_key) || negb (truthy serpapi_key) = true /\
   run = Run (Return tt) [StWarning missing_keys_warning]) \/
  (truthy openai_api_key = true /\ truthy serpapi_key = true /\
   run_analysis ui = false /\ run = Run (Return tt) []) \/
  (truthy openai_api_key = true /\ truthy serpapi_key = true /\
   run_analysis ui = true /\
   exists teams_reviews,
     result fetched = Return teams_reviews /\
     ((truthy teams_reviews = false /\
       run = Run (Return tt) (trace fetched ++ [StError fetch_failed_error])) \/
      (truthy teams_reviews = true /\
       let a := analyze_reviews_with_openai json_loads create teams_reviews
                  (str "Microsoft Teams") (OpenAI openai_api_key) in
       ((result a = Return (PNone, PNone) /\
         run = Run (Return tt)
                   (trace fetched ++ trace a ++ [StError analysis_failed_error])) \/
        (exists analysis ratings items,
           result a = Return (analysis, ratings) /\ analysis <> PNone /\
           py_iter teams_reviews = Return items /\
           run = Run (Return tt)
                     (trace fetched ++ trace a ++
                      [StSuccess (analysis_complete (length items));
                       Render analysis ratings teams_reviews])))))).
Proof.
  cbn zeta.
  destruct (truthy openai_api_key) eqn:Ho; cbn [negb orb].
  2:{ left. split; [done|]. rewrite main_unfold. cbn zeta.
      fold openai_api_key. by rewrite Ho. }
  destruct (truthy serpapi_key) eqn:Hs; cbn [negb].
  2:{ left. split; [done|]. rewrite main_unfold. cbn zeta.
      fold openai_api_key serpapi_key. by rewrite Ho, Hs. }
  right. destruct (run_analysis ui) eqn:Hrun.
  2:{ left. repeat split. rewrite main_unfold. cbn zeta.
      fold openai_api_key serpapi_key. by rewrite Ho, Hs, Hrun. }
  right. repeat split.
  destruct (fetch_returns get_dict (str "1113153706") serpapi_key 25)
    as [teams_reviews Hf].
  exists teams_reviews. split; [done|].
  destruct (truthy teams_reviews) eqn:Ht.
  - right. split; [done|].
    by apply (main_after_fetch json_loads get_dict create getenv ui teams_reviews).
  - left. split; [done|]. rewrite main_unfold. cbn zeta.
    fold openai_api_key serpapi_key. unfold fetched.
    by rewrite Ho, Hs, Hrun, Hf, Ht.
Qed.

End MainRuns.

Section FetchRuns.
Variable get_dict : search_params -> outcome pydict.

(** X7. [fetch_app_store_reviews] never raises and always sends exactly one
    search request, the first thing it does, built from its three arguments;
    when the service answers with a [reviews] entry the function returns that
    value as the service gave it, with nothing else shown: the list is not cut
    down to [max_reviews], and a value that is no list is passed on too. *)
Theorem fetch_sends_one_request_and_passes_reviews_on
    (app_id : pystr) (api_key : pyval) (max_reviews : Z) :
  let request := search_request app_id api_key max_reviews in
  let run := fetch_app_store_reviews get_dict app_id api_key max_reviews in
  (exists v, result run = Return v) /\
  head (trace run) = Some (SearchRequest request) /\
  List.filter is_network (trace run) = [SearchRequest request] /\
  (forall results reviews,
     get_dict request = Return results ->
     dict_get results (str "reviews") = Some reviews ->
     run = Run (Return reviews) [SearchRequest request]) /\
  (result run <> Return (PList []) -> List.filter is_error (trace run) = []).
Proof.
  cbn zeta. rewrite fetch_unfold. cbn zeta.
  destruct (get_dict _) as [results|e] eqn:Hget.
  - destruct (dict_get results _) as [reviews|] eqn:Hreviews.
    + split; [by eexists|]. do 2 (split; [done|]).
      split; [|done]. by intros ?? [= <-]; rewrite Hreviews; intros [= <-].
    + split; [by eexists|]. do 2 (split; [done|]).
      split; [|done]. intros ?? [= <-]. by rewrite Hreviews.
  - split; [by eexists|]. by do 2 (split; [done|]).
Qed.

End FetchRuns.

Lemma fetch_passes_reviews_on_witness :
  let run := fetch_app_store_reviews (search_finds (PList thirty_reviews))
               (str "1113153706") (PStr (str "secret")) 25 in
  result run = Return (PList thirty_reviews) /\
  length thirty_reviews = 30%nat /\
  List.filter is_error (trace run) = [].
Proof.
  pose proof (fetch_sends_one_request_and_passes_reviews_on
                (search_finds (PList thirty_reviews))
                (str "1113153706") (PStr (str "secret")) 25) as H.
  cbn zeta in H. destruct H as (_ & _ & _ & Hpass & Hquiet).
  specialize (Hpass [(str "reviews", PList thirty_reviews)] (PList thirty_reviews)
                eq_refl eq_refl).
  cbn zeta. rewrite Hpass. split; [reflexivity|]. split; [reflexivity|].
  reflexivity.
Defined.

Section AnalyzeRuns.
Variable json_loads : pystr -> outcome pyval.
Variable create : client -> chat_params -> outcome pyval.

(** X8. [analyze_reviews_with_openai] never raises: whatever goes wrong inside
    its [try] block ends as the pair [(None, None)].  It sends at most one chat
    request and nothing else over the network.  An error message, when one is
    shown, is the last thing shown, reports the exception caught, and comes
    with the result [(None, None)].  A run that returns an analysis has shown
    the chat request and at most the formatting warning after it. *)
Theorem analyze_never_raises_and_asks_once
    (reviews : pyval) (app_name : pystr) (c : client) :
  let run := analyze_reviews_with_openai json_loads create reviews app_name c in
  (exists r, result run = Return r) /\
  (List.filter is_network (trace run) = [] \/
   exists prompt,
     List.filter is_network (trace run) = [ChatRequest c (chat_request prompt)]) /\
  (forall shown, In (StError shown) (trace run) ->
     result run = Return (PNone, PNone) /\
     last (trace run) = Some (StError shown) /\
     exists e, shown = analysis_error e) /\
  (forall analysis ratings,
     result run = Return (analysis, ratings) -> analysis <> PNone ->
     exists prompt,
       trace run = [ChatRequest c (chat_request prompt)] \/
       trace run = [ChatRequest c (chat_request prompt);
                    StWarning formatting_warning]).
Proof.
  cbn zeta. split; [apply analyze_returns|]. split; [apply analyze_network|].
  destruct (analyze_shape json_loads create reviews app_name c)
    as [[Hres [Htr|[e Htr]]]|(prompt & shown & Hshown & [(e & Hres & Htr)|
         (analysis & ratings & Hres & Hne & Htr)])];
    rewrite Htr, Hres.
  - split; [by intros ? []|]. by intros ?? [= <- <-].
  - split; [|by intros ?? [= <- <-]].
    intros ? [[= <-]|[]]. split; [done|]. split; [done|by exists e].
  - split; [|by intros ?? [= <- <-]].
    intros m [[=]|Hin]. split; [done|].
    assert (m = analysis_error e) as ->.
    { apply in_app_or in Hin as [Hin|[[= <-]|[]]]; [|done].
      by destruct Hshown as [->| ->]; [destruct Hin|destruct Hin as [[=]|[]]]. }
    split; [|by exists e].
    change (last ((ChatRequest c (chat_request prompt) :: shown)
                  ++ [StError (analysis_error e)]) = Some (StError (analysis_error e))).
    apply last_snoc.
  - split.
    + intros m [[=]|Hin].
      by destruct Hshown as [->| ->]; [destruct Hin|destruct Hin as [[=]|[]]].
    + intros ?? [= <- <-] _. exists prompt.
      destruct Hshown as [->| ->]; [by left|by right].
Qed.

(** X9. A reply whose content is not a string (the [None] of a refusal, say)
    is no formatting problem to the function: [.strip()] raises, the outer
    handler catches it, and the run shows the request and one error message and
    returns [(None, None)], with neither the formatting warning nor the
    fallback analysis.  The same holds when the decoder raises anything that is
    no [JSONDecodeError]. *)
Theorem analyze_reports_what_is_no_decode_error
    (reviews : list pyval) (app_name : pystr) (c : client) (ss : list pystr)
    (reply : pyval) :
  let prompt := join nl (prompt_lines (length (texts_of reviews)) app_name
                           (join (str " ") ss)) in
  forallb is_dict reviews = true ->
  texts_of reviews <> [] ->
  take 50 (texts_of reviews) = map PStr ss ->
  create c (chat_request prompt) = Return reply ->
  (is_string reply = false \/
   exists s e, reply = PStr s /\ json_loads (strip_fences s) = Raise e /\
               is_JSONDecodeError e = false) ->
  exists e,
    is_JSONDecodeError e = false /\
    analyze_reviews_with_openai json_loads create (PList reviews) app_name c
    = Run (Return (PNone, PNone))
          [ChatRequest c (chat_request prompt); StError (analysis_error e)].
Proof.
  intros prompt Hd Hne Hss Hreply Hbad. rewrite analyze_unfold. cbn [py_iter].
  destruct (collect_dicts reviews ([], []) Hd) as [[ts rs] Hc]. rewrite Hc.
  apply collect_spec in Hc as [-> ->]. cbn [app].
  destruct (texts_of reviews) as [|t ts] eqn:Et; [done|]. cbn [truthy negb].
  unfold build_prompt, py_join. rewrite Hss, join_items_strs. cbn [obind].
  cbn zeta. fold prompt. rewrite Hreply. rewrite normalize_unfold. cbn zeta.
  destruct Hbad as [Hbad|(s & e & -> & Hloads & He)].
  - exists (AttributeError (str "strip") reply). split; [done|].
    by destruct reply.
  - exists e. split; [done|]. by rewrite parse_reply_str, Hloads, He.
Qed.

Lemma join_items_stops (ss : list pystr) (t : pyval) (rest : list pyval) (i : nat) :
  is_string t = false ->
  join_items i (map PStr ss ++ t :: rest)
  = Raise (TypeError (OpJoin (i + length ss)) t).
Proof.
  intros Ht. revert i. induction ss as [|s ss IH]; intros i; simpl.
  - rewrite Nat.add_0_r. by destruct t.
  - rewrite IH. simpl. do 3 f_equal. lia.
Qed.

(** X10. The texts are joined before anything is sent.  When one of the first
    50 non-empty texts is not a string (a number, say), [' '.join] raises a
    [TypeError] naming the first such item; the run shows that one error,
    returns [(None, None)] and has asked the generation service nothing. *)
Theorem analyze_joins_before_asking
    (reviews : list pyval) (app_name : pystr) (c : client) (ss : list pystr)
    (t : pyval) (rest : list pyval) :
  forallb is_dict reviews = true ->
  take 50 (texts_of reviews) = map PStr ss ++ t :: rest ->
  is_string t = false ->
  analyze_reviews_with_openai json_loads create (PList reviews) app_name c
  = Run (Return (PNone, PNone))
        [StError (analysis_error (TypeError (OpJoin (length ss)) t))].
Proof.
  intros Hd Htake Ht. rewrite analyze_unfold. cbn [py_iter].
  destruct (collect_dicts reviews ([], []) Hd) as [[ts rs] Hc]. rewrite Hc.
  apply collect_spec in Hc as [-> ->]. cbn [app].
  destruct (texts_of reviews) as [|t0 ts] eqn:Et.
  { by destruct ss. }
  cbn [truthy negb]. unfold build_prompt, py_join.
  by rewrite Htake, join_items_stops.
Qed.

End AnalyzeRuns.

Lemma analyze_reports_refusal_witness :
  exists prompt e,
    analyze_reviews_with_openai json_loads_sample replies_nothing
      (PList scenario_reviews) (str "Microsoft Teams") sample_client
    = Run (Return (PNone, PNone))
          [ChatRequest sample_client (chat_request prompt);
           StError (analysis_error e)].
Proof.
  destruct (analyze_reports_what_is_no_decode_error json_loads_sample
              replies_nothing scenario_reviews (str "Microsoft Teams")
              sample_client [str "Great app"; str "Crashes a lot"] PNone)
    as (e & _ & Hrun).
  - reflexivity.
  - discriminate.
  - reflexivity.
  - reflexivity.
  - left. reflexivity.
  - eexists _, e. exact Hrun.
Defined.

Lemma analyze_joins_before_asking_witness :
  analyze_reviews_with_openai json_loads_sample (replies reply_json)
    (PList numbered_reviews) (str "Microsoft Teams") sample_client
  = Run (Return (PNone, PNone))
        [StError (analysis_error (TypeError (OpJoin 1) (PInt 7)))].
Proof.
  apply (analyze_joins_before_asking json_loads_sample (replies reply_json)
           numbered_reviews (str "Microsoft Teams") sample_client
           [str "Great app"] (PInt 7) []); reflexivity.
Defined.

Lemma resolve_key_missing (getenv : pystr -> option pystr) (input name : pystr) :
  truthy (resolve_key getenv (PStr input) name) = false <->
  missing input (getenv name).
Proof.
  unfold resolve_key, os_getenv, missing. cbn [truthy].
  destruct input as [|ch input].
  - rewrite bool_decide_eq_true_2 by done. cbn [negb].
    destruct (getenv name) as [[|ch s]|]; cbn [truthy].
    + rewrite bool_decide_eq_true_2 by done. cbn [negb]. intuition congruence.
    + rewrite bool_decide_eq_false_2 by done. cbn [negb]. intuition congruence.
    + intuition congruence.
  - rewrite bool_decide_eq_false_2 by done. cbn [negb truthy].
    rewrite bool_decide_eq_false_2 by done. cbn [negb]. intuition congruence.
Qed.

Lemma no_render_forallb (evs : list event) :
  (forall ev, In ev evs -> is_render ev = false) ->
  forallb (fun ev => negb (is_render ev)) evs = true.
Proof.
  intros H. apply forallb_forall. intros ev Hin. by rewrite (H ev Hin).
Qed.

Section MainFlow.
Variable json_loads : pystr -> outcome pyval.
Variable get_dict : search_params -> outcome pydict.
Variable create : client -> chat_params -> outcome pyval.
Variable getenv : pystr -> option pystr.

(** X11. Up to the point where the results are handed to the display code,
    [main] never raises, and what it sends over the network is nothing, or one
    search request, or one search request followed by one chat request: the
    search is for product 1113153706 with at most 25 reviews and the resolved
    SerpAPI key, and the chat request goes through a client built from the
    resolved OpenAI key.  No generation request is ever sent before or without
    the search. *)
Theorem main_searches_then_asks (ui : sidebar) :
  let openai_api_key :=
    resolve_key getenv (PStr (openai_api_key_input ui)) (str "OPENAI_API_KEY") in
  let serpapi_key :=
    resolve_key getenv (PStr (serpapi_key_input ui)) (str "SERPAPI_KEY") in
  let request := search_request (str "1113153706") serpapi_key 25 in
  let run := main json_loads get_dict create getenv ui in
  result run = Return tt /\
  (List.filter is_network (trace run) = [] \/
   List.filter is_network (trace run) = [SearchRequest request] \/
   exists prompt,
     List.filter is_network (trace run)
     = [SearchRequest request;
        ChatRequest (OpenAI openai_api_key) (chat_request prompt)]).
Proof.
  intros openai_api_key serpapi_key request run.
  pose proof (fetch_network get_dict (str "1113153706") serpapi_key 25) as Hf.
  fold request in Hf.
  destruct (main_cases json_loads get_dict create getenv ui)
    as [[_ Hrun]|[(_ & _ & _ & Hrun)|(_ & _ & _ & v & _ &
          [[_ Hrun]|[_ [[_ Hrun]|(a & r & items & _ & _ & _ & Hrun)]]])]];
    fold run in Hrun; rewrite Hrun; (split; [done|]); cbn [trace].
  - by left.
  - by left.
  - right; left. fold serpapi_key. by rewrite List.filter_app, Hf.
  - fold serpapi_key openai_api_key.
    rewrite !List.filter_app, Hf. cbn [List.filter is_network].
    rewrite app_nil_r.
    destruct (analyze_network json_loads create v (str "Microsoft Teams")
                (OpenAI openai_api_key)) as [->|[prompt ->]].
    + by right; left.
    + right; right. by exists prompt.
  - fold serpapi_key openai_api_key.
    rewrite !List.filter_app, Hf. cbn [List.filter is_network].
    rewrite app_nil_r.
    destruct (analyze_network json_loads create v (str "Microsoft Teams")
                (OpenAI openai_api_key)) as [->|[prompt ->]].
    + by right; left.
    + right; right. by exists prompt.
Qed.

(** X12. Whatever [main] hands to the display code is consistent with what was
    fetched: the reviews are the fetched value, the ratings are the ratings of
    those reviews in order, and the analysis carries under
    [rating_distribution] the histogram of exactly those ratings, whatever the
    generation service wrote there.  The hand-over happens at most once, last,
    right after the success message that counts the fetched reviews. *)
Theorem main_renders_recomputed_histogram
    (ui : sidebar) (analysis ratings reviews : pyval) :
  let serpapi_key :=
    resolve_key getenv (PStr (serpapi_key_input ui)) (str "SERPAPI_KEY") in
  let fetched :=
    fetch_app_store_reviews get_dict (str "1113153706") serpapi_key 25 in
  let run := main json_loads get_dict create getenv ui in
  In (Render analysis ratings reviews) (trace run) ->
  exists items before,
    result fetched = Return reviews /\
    py_iter reviews = Return items /\
    ratings = PList (ratings_of items) /\
    field (str "rating_distribution") analysis
    = Some (histogram (ratings_of items)) /\
    trace run = before ++ [StSuccess (analysis_complete (length items));
                           Render analysis ratings reviews] /\
    forallb (fun ev => negb (is_render ev)) before = true.
Proof.
  intros serpapi_key fetched run.
  pose proof (fetch_no_render get_dict (str "1113153706") serpapi_key 25) as Hf.
  fold fetched in Hf.
  destruct (main_cases json_loads get_dict create getenv ui)
    as [[_ Hrun]|[(_ & _ & _ & Hrun)|(_ & _ & _ & v & Hv &
          [[_ Hrun]|[_ [[_ Hrun]|(a & r & items & Ha & Hne & Hitems & Hrun)]]])]];
    fold run in Hrun; rewrite Hrun; cbn [trace]; fold serpapi_key fetched.
  - by intros [[=]|[]].
  - by intros [].
  - intros [Hin|[[=]|[]]]%in_app_or. by destruct (Hf _ Hin).
  - intros [Hin|[Hin|[[=]|[]]]%in_app_or]%in_app_or.
    + by destruct (Hf _ Hin).
    + by apply analyze_no_render in Hin.
  - fold fetched in Hv.
    intros [Hin|[Hin|[[=]|[[= <- <- <-]|[]]]]%in_app_or]%in_app_or.
    + by destruct (Hf _ Hin).
    + by apply analyze_no_render in Hin.
    + destruct (analyze_returns_normalized _ _ _ _ _ _ _ Ha Hne)
        as (items' & p & reply & Hitems' & _ & Hn).
      rewrite Hitems in Hitems'. injection Hitems' as <-.
      apply normalize_returns in Hn as (d0 & _ & [= -> ->]).
      exists items, (trace fetched ++
                     trace (analyze_reviews_with_openai json_loads create v
                              (str "Microsoft Teams")
                              (OpenAI (resolve_key getenv
                                         (PStr (openai_api_key_input ui))
                                         (str "OPENAI_API_KEY"))))).
      do 3 (split; [done|]). split; [apply dict_get_set_eq|].
      split; [by rewrite <- app_assoc|].
      apply no_render_forallb. intros ev [Hin|Hin]%in_app_or.
      * by destruct (Hf _ Hin).
      * by apply analyze_no_render in Hin.
Qed.

(** X13. The three ways [main] begins, told apart by the keys and the button
    alone.  A key counts as missing when the sidebar field is empty and the
    environment variable is unset or set to the empty string.  With a key
    missing the run is the warning and nothing else; with both keys and the
    button not pressed the run shows nothing at all; with both keys and the
    button pressed the run starts with the search request.  Each of the three
    holds in no other case. *)
Theorem main_begins_by_keys_and_button (ui : sidebar) :
  let serpapi_key :=
    resolve_key getenv (PStr (serpapi_key_input ui)) (str "SERPAPI_KEY") in
  let request := search_request (str "1113153706") serpapi_key 25 in
  let run := main json_loads get_dict create getenv ui in
  let no_key :=
    missing (openai_api_key_input ui) (getenv (str "OPENAI_API_KEY")) \/
    missing (serpapi_key_input ui) (getenv (str "SERPAPI_KEY")) in
  (no_key <-> run = Run (Return tt) [StWarning missing_keys_warning]) /\
  (~ no_key /\ run_analysis ui = false <-> run = Run (Return tt) []) /\
  (~ no_key /\ run_analysis ui = true <->
   head (trace run) = Some (SearchRequest request)).
Proof.
  intros serpapi_key request run no_key.
  set (openai_api_key :=
         resolve_key getenv (PStr (openai_api_key_input ui)) (str "OPENAI_API_KEY")).
  assert (no_key <-> negb (truthy openai_api_key) || negb (truthy serpapi_key) = true)
    as Hkey.
  { unfold no_key. rewrite <- !resolve_key_missing.
    fold openai_api_key serpapi_key.
    destruct (truthy openai_api_key), (truthy serpapi_key); cbn [negb orb];
      intuition congruence. }
  assert (truthy openai_api_key = true -> truthy serpapi_key = true -> ~ no_key)
    as Hboth.
  { intros Ho Hs. rewrite Hkey, Ho, Hs. done. }
  destruct (fetched_starts_with_request get_dict getenv ui) as [later Hstart].
  destruct (main_cases json_loads get_dict create getenv ui)
    as [[Hno Hrun]|[(Ho & Hs & Hb & Hrun)|(Ho & Hs & Hb & v & _ & Hrest)]];
    try fold run in Hrun.
  - apply Hkey in Hno. rewrite Hrun. cbn [trace head].
    split; [done|]. split; split; try done; intuition congruence.
  - specialize (Hboth Ho Hs). rewrite Hrun. cbn [trace head].
    split; [split; [done|discriminate]|].
    split; split; try done. rewrite Hb. intuition congruence.
  - specialize (Hboth Ho Hs).
    assert (exists more, run = Run (Return tt) (SearchRequest request :: more))
      as [more Hrun].
    { destruct Hrest as [[_ Hrun]|[_ [[_ Hrun]|(a & r & items & _ & _ & _ & Hrun)]]];
        fold run in Hrun; rewrite Hrun, Hstart; by eexists. }
    rewrite Hrun. cbn [trace head].
    split; [split; [done|discriminate]|].
    split; split; try done. rewrite Hb. intuition congruence.
Qed.

End MainFlow.

Lemma main_renders_recomputed_histogram_witness :
  let analysis :=
    PDict [ (str "overall_sentiment", PStr (str "positive"));
            (str "rating_distribution", scenario_distribution) ] in
  let run := main json_loads_sample (search_finds (PList scenario_reviews))
               (replies fenced_reply) env_keys (Sidebar [] [] true) in
  In (Render analysis (PList scenario_ratings) (PList scenario_reviews))
     (trace run) /\
  field (str "rating_distribution") analysis
  = Some (histogram scenario_ratings).
Proof.
  intros analysis run.
  assert (Hin : In (Render analysis (PList scenario_ratings)
                      (PList scenario_reviews)) (trace run)).
  { vm_compute. do 3 right. left. reflexivity. }
  split; [exact Hin|].
  destruct (main_renders_recomputed_histogram json_loads_sample
              (search_finds (PList scenario_reviews)) (replies fenced_reply)
              env_keys (Sidebar [] [] true) _ _ _ Hin)
    as (items & before & _ & Hitems & _ & Hfield & _).
  injection Hitems as <-. exact Hfield.
Defined.

Section MainStops.
Variable json_loads : pystr -> outcome pyval.
Variable get_dict : search_params -> outcome pydict.
Variable create : client -> chat_params -> outcome pyval.
Variable getenv : pystr -> option pystr.

Lemma texts_of_no_text (reviews : list pyval) :
  forallb (fun review => negb (has_text review)) reviews = true ->
  texts_of reviews = [].
Proof.
  induction reviews as [|r rest IH]; [done|].
  cbn [forallb]. intros [Hr Hrest]%andb_prop.
  unfold texts_of in *. unfold has_text in Hr.
  change (omap text_of (r :: rest))
    with (match text_of r with
          | Some t => t :: omap text_of rest
          | None => omap text_of rest
          end).
  destruct (text_of r); [done|]. by apply IH.
Qed.

(** X14. Reviews that were fetched but carry no text end the run of [main]
    after the search: with both keys present and the button pressed, a
    non-empty list of review records none of which has a non-empty text makes
    [main] show the search request and the message that the analysis failed,
    and nothing else; no generation request is sent and no other error is
    shown. *)
Theorem main_stops_on_reviews_without_text
    (ui : sidebar) (results : pydict) (reviews : list pyval) :
  let serpapi_key :=
    resolve_key getenv (PStr (serpapi_key_input ui)) (str "SERPAPI_KEY") in
  let request := search_request (str "1113153706") serpapi_key 25 in
  ~ missing (openai_api_key_input ui) (getenv (str "OPENAI_API_KEY")) ->
  ~ missing (serpapi_key_input ui) (getenv (str "SERPAPI_KEY")) ->
  run_analysis ui = true ->
  get_dict request = Return results ->
  dict_get results (str "reviews") = Some (PList reviews) ->
  reviews <> [] ->
  forallb is_dict reviews = true ->
  forallb (fun review => negb (has_text review)) reviews = true ->
  main json_loads get_dict create getenv ui
  = Run (Return tt) [SearchRequest request; StError analysis_failed_error].
Proof.
  intros serpapi_key request Ho Hs Hrun Hget Hreviews Hne Hd Hsilent.
  subst serpapi_key request.
  apply (not_iff_compat (resolve_key_missing getenv _ _)) in Ho, Hs.
  apply not_false_is_true in Ho, Hs.
  rewrite main_unfold. cbn zeta.
  rewrite Ho, Hs, Hrun. cbn [negb orb].
  rewrite fetch_unfold. cbn zeta. rewrite Hget, Hreviews.
  cbn [result trace].
  destruct reviews as [|r rest] eqn:Er; [done|]. cbn [truthy negb].
  rewrite <- Er in *. clear Er.
  rewrite analyze_unfold. cbn [py_iter].
  destruct (collect_dicts reviews ([], []) Hd) as [[ts rs] Hc]. rewrite Hc.
  apply collect_spec in Hc as [-> ->]. cbn [app].
  by rewrite (texts_of_no_text reviews Hsilent).
Qed.

End MainStops.

Lemma main_stops_on_reviews_without_text_witness :
  main json_loads_sample (search_finds (PList silent_reviews))
    (replies reply_json) env_keys (Sidebar [] [] true)
  = Run (Return tt)
        [SearchRequest (search_request (str "1113153706") (PStr (str "secret")) 25);
         StError analysis_failed_error].
Proof.
  apply (main_stops_on_reviews_without_text json_loads_sample
           (search_finds (PList silent_reviews)) (replies reply_json) env_keys
           (Sidebar [] [] true) [(str "reviews", PList silent_reviews)]
           silent_reviews).
  - intros [_ [H|H]]; discriminate H.
  - intros [_ [H|H]]; discriminate H.
  - reflexivity.
  - reflexivity.
  - reflexivity.
  - discriminate.
  - reflexivity.
  - reflexivity.
Defined.

Section LateFailures.
Variable json_loads : pystr -> outcome pyval.
Variable create : client -> chat_params -> outcome pyval.

(** X15. The ratings are looked at only after the reply has come back.  When a
    fetched rating cannot be a dict key (a list or an object), the histogram
    loop raises a [TypeError] on it; the request has been sent by then and the
    reply, however good, is dropped: the run returns [(None, None)] and shows
    the request, whatever the decoding showed, and the error. *)
Theorem analyze_drops_reply_on_unhashable_rating
    (reviews : list pyval) (app_name : pystr) (c : client) (ss : list pystr)
    (reply analysis : pyval) :
  let prompt := join nl (prompt_lines (length (texts_of reviews)) app_name
                           (join (str " ") ss)) in
  forallb is_dict reviews = true ->
  texts_of reviews <> [] ->
  take 50 (texts_of reviews) = map PStr ss ->
  forallb hashable (ratings_of reviews) = false ->
  create c (chat_request prompt) = Return reply ->
  result (parse_reply json_loads reply) = Return analysis ->
  exists rating,
    hashable rating = false /\
    analyze_reviews_with_openai json_loads create (PList reviews) app_name c
    = Run (Return (PNone, PNone))
          (ChatRequest c (chat_request prompt)
           :: trace (parse_reply json_loads reply)
           ++ [StError (analysis_error (TypeError OpHash rating))]).
Proof.
  intros prompt Hd Hne Hss Hbad Hreply Hparse. rewrite analyze_unfold.
  cbn [py_iter].
  destruct (collect_dicts reviews ([], []) Hd) as [[ts rs] Hc]. rewrite Hc.
  apply collect_spec in Hc as [-> ->]. cbn [app].
  destruct (texts_of reviews) as [|t ts] eqn:Et; [done|]. cbn [truthy negb].
  unfold build_prompt, py_join. rewrite Hss, join_items_strs. cbn [obind].
  cbn zeta. fold prompt. rewrite Hreply. rewrite normalize_unfold. cbn zeta.
  rewrite Hparse.
  destruct (count_ratings_unhashable (ratings_of reviews) rating_counts_init Hbad)
    as (rating & Hrating & ->).
  by exists rating.
Qed.

End LateFailures.

Lemma analyze_drops_reply_witness :
  exists rating,
    analyze_reviews_with_openai json_loads_sample (replies reply_json)
      (PList [PDict [(str "text", PStr (str "Great app"));
                     (str "rating", PList [PInt 5])]])
      (str "Microsoft Teams") sample_client
    = Run (Return (PNone, PNone))
          [ChatRequest sample_client
             (chat_request
                (join nl (prompt_lines 1 (str "Microsoft Teams") (str "Great app"))));
           StError (analysis_error (TypeError OpHash rating))].
Proof.
  destruct (analyze_drops_reply_on_unhashable_rating json_loads_sample
              (replies reply_json)
              [PDict [(str "text", PStr (str "Great app"));
                      (str "rating", PList [PInt 5])]]
              (str "Microsoft Teams") sample_client [str "Great app"]
              (PStr reply_json) reply_object)
    as (rating & _ & Hrun).
  - reflexivity.
  - discriminate.
  - reflexivity.
  - reflexivity.
  - reflexivity.
  - reflexivity.
  - exists rating. exact Hrun.
Defined.

Section OrderFacts.

Lemma count_of_Permutation (k : Z) (ratings ratings' : list pyval) :
  Permutation ratings ratings' -> count_of k ratings = count_of k ratings'.
Proof.
  induction 1 as [|r l l' _ IH|r r' l|l l' l'' _ IH1 _ IH2].
  - done.
  - by rewrite !is_star_cons, IH.
  - rewrite !is_star_cons. lia.
  - by rewrite IH1.
Qed.

Lemma hashable_Permutation (ratings ratings' : list pyval) :
  Permutation ratings ratings' ->
  forallb hashable ratings = forallb hashable ratings'.
Proof.
  induction 1 as [|r l l' _ IH|r r' l|l l' l'' _ IH1 _ IH2]; cbn [forallb].
  - done.
  - by rewrite IH.
  - by destruct (hashable r), (hashable r').
  - by rewrite IH1.
Qed.

(** X16. The recomputed distribution depends on the ratings only as a bag:
    two lists of ratings that can be dict keys and differ only in their order
    give the same [rating_distribution], the histogram of either; and the
    distribution of two batches of ratings put together has, under each key,
    the sum of the two batches' counts. *)
Theorem distribution_ignores_order (ratings ratings' : list pyval) :
  forallb hashable ratings = true ->
  Permutation ratings ratings' ->
  distribution_of ratings' = distribution_of ratings /\
  distribution_of ratings = Return (histogram ratings) /\
  forall k more,
    count_of k (ratings ++ more) = count_of k ratings + count_of k more.
Proof.
  intros Hh Hperm.
  assert (Hh' : forallb hashable ratings' = true)
    by by rewrite <- (hashable_Permutation _ _ Hperm).
  destruct (distribution_spec ratings Hh) as (m & Hm & Hdist).
  destruct (distribution_spec ratings' Hh') as (m' & Hm' & Hdist').
  unfold distribution_of. rewrite Hm, Hm'. cbn [obind].
  rewrite Hdist, Hdist'. split; [|split; [done|]].
  - unfold histogram. by rewrite !(count_of_Permutation _ _ _ Hperm).
  - intros k more. unfold count_of.
    rewrite List.filter_app, length_app. lia.
Qed.

End OrderFacts.

Lemma distribution_ignores_order_witness :
  distribution_of [PInt 1; PInt 5; PInt 2] = distribution_of scenario_ratings.
Proof.
  apply (distribution_ignores_order scenario_ratings [PInt 1; PInt 5; PInt 2]).
  - reflexivity.
  - apply perm_trans with [PInt 5; PInt 1; PInt 2].
    + apply perm_skip, perm_swap.
    + apply perm_swap.
Defined.

Section FenceEnds.
Variable space : N -> bool.

Lemma rstrip_with_last (s : pystr) (c : N) :
  last (rstrip_with space s) = Some c -> space c = false.
Proof.
  induction s as [|d s IH]; [done|]. cbn [rstrip_with].
  destruct (rstrip_with space s) as [|e r] eqn:Er.
  - destruct (space d) eqn:Hd; [done|]. by intros [= <-].
  - intros Hl. apply IH. by rewrite <- Hl.
Qed.

Lemma strip_with_head (s : pystr) (c : N) :
  head (strip_with space s) = Some c -> space c = false.
Proof.
  unfold strip_with.
  destruct (rstrip_with_split space (lstrip_with space s)) as (b & Hs & _).
  destruct (rstrip_with space (lstrip_with space s)) as [|d r]; [done|].
  intros [= ->]. by eapply lstrip_with_head_space.
Qed.

End FenceEnds.

Lemma startswith_split (s p : pystr) :
  startswith s p = true -> s = p ++ slice_from (length p) s.
Proof.
  unfold startswith, slice_from. intros H%bool_decide_eq_true.
  transitivity (take (length p) s ++ drop (length p) s);
    [by rewrite take_drop|by rewrite H].
Qed.

Lemma endswith_split (s p : pystr) :
  endswith s p = true -> s = slice_to_neg (length p) s ++ p.
Proof.
  unfold endswith, slice_to_neg.
  intros [_ H%bool_decide_eq_true]%andb_prop.
  transitivity (take (length s - length p) s ++ drop (length s - length p) s);
    [by rewrite take_drop|by rewrite H].
Qed.

(** X17. The fence stripping only ever removes text from the two ends of the
    reply: for every reply, the cleaned text is a contiguous piece of it, and
    it neither starts nor ends with white space.  A reply that, once stripped,
    neither starts with [```json] nor ends with [```] is cleaned to its
    stripped self. *)
Theorem strip_fences_keeps_a_piece (reply : pystr) :
  (exists before after, reply = before ++ strip_fences reply ++ after) /\
  (forall c, head (strip_fences reply) = Some c -> isspace c = false) /\
  (forall c, last (strip_fences reply) = Some c -> isspace c = false) /\
  (startswith (strip reply) (str "```json") = false ->
   endswith (strip reply) (str "```") = false ->
   strip_fences reply = strip reply /\ strip_fences (strip_fences reply)
                                      = strip_fences reply).
Proof.
  split; [|split; [|split]].
  - unfold strip_fences. cbn zeta.
    destruct (strip_with_split isspace reply) as (a & b & Hreply & _).
    fold strip in Hreply.
    set (t1 := if startswith (strip reply) (str "```json")
               then slice_from 7 (strip reply) else strip reply).
    assert (exists a1, strip reply = a1 ++ t1) as [a1 H1].
    { unfold t1. destruct (startswith _ _) eqn:E; [|by exists []].
      exists (str "```json"). by apply startswith_split in E. }
    set (t2 := if endswith t1 (str "```") then slice_to_neg 3 t1 else t1).
    assert (exists b2, t1 = t2 ++ b2) as [b2 H2].
    { unfold t2. destruct (endswith _ _) eqn:E.
      - exists (str "```"). by apply endswith_split in E.
      - exists []. by rewrite app_nil_r. }
    destruct (strip_with_split isspace t2) as (a3 & b3 & H3 & _).
    fold strip in H3.
    exists (a ++ a1 ++ a3), (b3 ++ b2 ++ b).
    rewrite Hreply at 1. rewrite H1, H2. rewrite H3 at 1.
    by rewrite <- !app_assoc.
  - intros c. unfold strip_fences. cbn zeta. apply strip_with_head.
  - intros c. unfold strip_fences. cbn zeta. apply rstrip_with_last.
  - intros Hs He.
    assert (Hidem : strip (strip reply) = strip reply).
    { unfold strip. unfold strip_with at 2.
      by rewrite strip_with_rstrip, strip_with_lstrip. }
    assert (H : strip_fences reply = strip reply).
    { unfold strip_fences. cbn zeta. by rewrite Hs, He. }
    split; [done|]. rewrite H. unfold strip_fences. cbn zeta.
    by rewrite Hidem, Hs, He.
Qed.
